(** * Git subscriber and Ansible hook registry of the subscription operator

    A shallow embedding of parts of the operator:

    - [Hub]: the hook registry of the hub controller ([AnsibleHooks] and its
      methods [RegisterSubscription], [HasHooks], [ApplyPreHooks],
      [IsPreHooksCompleted], [GetLastAppliedInstance], ...);
    - [HookJobs]: the preparation of a hook job ([overrideAnsibleInstance],
      [getClustersByPlacement], [getClustersFromPlacementRef]);
    - [Git]: the Git subscriber item ([SubscriberItem] and its methods
      [doSubscription], [doSubscriptionWithRetries], [subscribeKustomizations],
      [subscribeResource], ...), and [Lifecycle]: its [Start] and [Stop];
    - [Predicates]: the watch predicates of the placement rule controller;
    - [Addon]: the add-on manager ([HostedClusterInfo],
      [AddonInstallNamespaceFunc], [toAddonResources], [GetMchImage]).

    Go values are embedded as follows.  A [struct] is a [Record]; a pointer
    that may be [nil] is an [option]; a [map] with string keys is a [gmap]; a
    map whose iteration order matters is the list of its entries in the order
    the [range] loop visits them; a slice is a list ([nil] and the empty slice
    are both [[]], the code only ever takes their length); an [error] is an
    [option error] ([None] is [nil]).  A run-time panic (a nil pointer
    dereference) is an explicit [Panics] outcome.  Calls to collaborators
    (the cluster client, Git, Kustomize, Helm, the synchronizer) take their
    results from an explicit environment and are recorded in a trace of
    events.  Logging and metrics are left out. *)

From Stdlib Require Import ZArith Ascii String List Bool Lia.
From stdpp Require Import base option list gmap strings pretty.

Local Open Scope string_scope.
Local Open Scope Z_scope.

(** ** Strings *)

(** [strings.EqualFold] compares under simple case folding.  Strings are
    sequences of 8-bit characters here, and folding maps the letters [A-Z]
    to [a-z]. *)
Definition lower_ascii (c : ascii) : ascii :=
  let n := nat_of_ascii c in
  if (Nat.leb 65 n && Nat.leb n 90)%bool then ascii_of_nat (n + 32) else c.

Fixpoint to_lower (s : string) : string :=
  match s with
  | EmptyString => EmptyString
  | String c r => String (lower_ascii c) (to_lower r)
  end.

Definition EqualFold (s t : string) : bool := String.eqb (to_lower s) (to_lower t).

(** [len(s)] of a string, as an integer. *)
Definition len (s : string) : Z := Z.of_nat (String.length s).

(** ** Runes

    A string is a sequence of bytes, which [range] and the precision of
    [%.ns] read as UTF-8. *)

(** A continuation byte, [0x80] to [0xBF]. *)
Definition continuation (c : ascii) : bool :=
  Nat.leb 128 (nat_of_ascii c) && Nat.leb (nat_of_ascii c) 191.

Definition within (lo hi : nat) (c : ascii) : bool :=
  Nat.leb lo (nat_of_ascii c) && Nat.leb (nat_of_ascii c) hi.

(** The number of bytes of the first rune of [String c r], as
    [utf8.DecodeRuneInString] finds it: the size that the first byte
    announces when the bytes that follow are there and in range, and 1 for a
    byte that starts no encoding ([0x80] to [0xC1], [0xF5] to [0xFF]) and
    for an encoding that is cut short or out of range. *)
Definition runeWidth (c : ascii) (r : string) : nat :=
  let b0 := nat_of_ascii c in
  if Nat.ltb b0 194 then 1
  else if Nat.ltb b0 224 then
    match r with
    | String c1 _ => if continuation c1 then 2 else 1
    | _ => 1
    end
  else if Nat.ltb b0 240 then
    match r with
    | String c1 (String c2 _) =>
        if within (if Nat.eqb b0 224 then 160 else 128) (if Nat.eqb b0 237 then 159 else 191) c1
           && continuation c2
        then 3 else 1
    | _ => 1
    end
  else if Nat.ltb b0 245 then
    match r with
    | String c1 (String c2 (String c3 _)) =>
        if within (if Nat.eqb b0 240 then 144 else 128) (if Nat.eqb b0 244 then 143 else 191) c1
           && continuation c2 && continuation c3
        then 4 else 1
    | _ => 1
    end
  else 1.

(** The first [n] runes of [s], after the [pending] bytes that are left of
    the rune being copied. *)
Fixpoint firstRunes (n pending : nat) (s : string) : string :=
  match s with
  | EmptyString => EmptyString
  | String c r =>
      match pending with
      | S k => String c (firstRunes n k r)
      | O =>
          match n with
          | O => EmptyString
          | S m => String c (firstRunes m (runeWidth c r - 1) r)
          end
      end
  end.

(** What the verb [%.ns] prints of [s]: its first [n] runes, or all of it
    when it has no more. *)
Definition truncate (n : nat) (s : string) : string := firstRunes n 0 s.

(** [m[k]] on a [map[string]string]: the zero value when the key is absent
    (also on a nil map). *)
Definition get (m : gmap string string) (k : string) : string := default "" (m !! k).

(** ** Errors and outcomes *)

(** An [error]: its message, and whether [errors.IsNotFound] holds of it. *)
Record error := mkError { IsNotFound : bool; Error : string }.

Definition errors_New (msg : string) : error := mkError false msg.

(** What a call does: it returns, or the goroutine panics. *)
Inductive outcome (A : Type) : Type :=
| Returns (a : A)
| Panics (why : string).
Arguments Returns {A} a.
Arguments Panics {A} why.

Definition nil_dereference : string := "invalid memory address or nil pointer dereference".

(** ** Constants of the API package

    The names below are declared in [pkg/apis/apps/v1] and in the channel
    API, outside the files embedded here; the development is parametric in
    their values. *)
Class ApiConstants := {
  AnnotationGithubPath : string;
  AnnotationGitPath : string;
  AnnotationClusterAdmin : string;
  AnnotationResourceReconcileOption : string;
  AnnotationUserIdentity : string;
  AnnotationUserGroup : string;
  AnnotationGitCloneDepth : string;
  ChannelCertificateData : string;
  MergeReconcile : string;
  SchemeGroupVersion_Group : string;
  SchemeGroupVersion_Version : string;
  ChannelTypeGit : string;
  ChannelTypeGitHub : string;
}.

(** [SchemeGroupVersion.String()] *)
Definition SchemeGroupVersion_String `{!ApiConstants} : string :=
  if String.eqb SchemeGroupVersion_Group "" then SchemeGroupVersion_Version
  else SchemeGroupVersion_Group +:+ "/" +:+ SchemeGroupVersion_Version.

(** The values these constants have in the operator's API packages; used for
    the concrete runs below. *)
Definition upstreamConstants : ApiConstants := {|
  AnnotationGithubPath := "apps.open-cluster-management.io/github-path";
  AnnotationGitPath := "apps.open-cluster-management.io/git-path";
  AnnotationClusterAdmin := "apps.open-cluster-management.io/cluster-admin";
  AnnotationResourceReconcileOption := "apps.open-cluster-management.io/reconcile-option";
  AnnotationUserIdentity := "open-cluster-management.io/user-identity";
  AnnotationUserGroup := "open-cluster-management.io/user-group";
  AnnotationGitCloneDepth := "apps.open-cluster-management.io/git-clone-depth";
  ChannelCertificateData := "caCerts";
  MergeReconcile := "merge";
  SchemeGroupVersion_Group := "apps.open-cluster-management.io";
  SchemeGroupVersion_Version := "v1";
  ChannelTypeGit := "git";
  ChannelTypeGitHub := "github";
|}.

(** [types.NamespacedName]. *)
Record NamespacedName := mkKey { Namespace : string; Name : string }.

Global Instance NamespacedName_eq_dec : EqDecision NamespacedName.
Proof. solve_decision. Defined.

Global Instance NamespacedName_countable : Countable NamespacedName :=
  inj_countable' (fun k => (Namespace k, Name k)) (fun p => mkKey p.1 p.2)
                 (fun k => match k with mkKey _ _ => eq_refl end).

(** * The hook registry *)
Module Hub.

(** The fields of a subscription the registry reads. *)
Record Subscription := {
  subName : string;
  subNamespace : string;
  subGeneration : Z;
  subResourceVersion : string;
  subAnnotations : gmap string string;
  subChannel : string;
}.

Definition GetGeneration (s : Subscription) : Z := subGeneration s.
Definition subKeyOf (s : Subscription) : NamespacedName :=
  {| Namespace := subNamespace s; Name := subName s |}.

Record Channel := { chnType : string }.

Record AnsibleJob := { jobName : string; jobNamespace : string; jobStatus : string }.

(** Modelled from the spec: the type [JobInstances] is declared in another
    file of the package.  The spec describes it as an ordered collection
    keyed by generated suffix, each entry being an applied job instance plus
    the originating template identity; the methods embedded here only take
    its length. *)
Record JobEntry := {
  entrySuffix : string;
  entryInstance : AnsibleJob;
  entryTemplate : NamespacedName;
}.
Definition JobInstances : Type := list JobEntry.

(** What [outputAppliedJobs] returns. *)
Record appliedJobs := { lastApplied : string; lastAppliedJobs : list string }.

(** The methods of [JobInstances], declared with the type.  They take the
    pointer receiver, so they can be called on [nil]. *)
Class JobInstancesMethods := {
  registryJobs : JobInstances -> Subscription -> (Subscription -> string) ->
                 list AnsibleJob -> JobInstances * option error;
  applyJobs : option JobInstances -> Subscription -> option JobInstances * option error;
  isJobsCompleted : JobInstances -> bool * option error;
  outputAppliedJobs : option JobInstances -> appliedJobs;
}.

(** The collaborators of the registry: the cluster client [clt], the Git
    client [gitClt], and [utils.NamespacedNameFormat]. *)
Record Cluster := {
  getSubscription : NamespacedName -> error + Subscription;
  getChannel : NamespacedName -> error + Channel;
  DownloadAnsibleHookResource : Subscription -> option error;
  GetHooks : Subscription -> string -> list AnsibleJob * option error;
  NamespacedNameFormat : string -> NamespacedName;
}.

Record Hooks := {
  preHooks : option JobInstances;
  postHooks : option JobInstances;
  lastSub : Subscription;
}.

(** [AnsibleHooks]: the registry; its clients are the [Cluster]. *)
Record AnsibleHooks := { registry : gmap NamespacedName Hooks }.

Record AppliedInstance := { pre : string; post : string }.

Definition PreHookType : string := "pre".
Definition PostHookType : string := "post".

(** Calls to the cluster made by the registry. *)
Inductive HookEvent :=
| EvApplyJobs (hookType : string) (hks : option JobInstances) (sub : Subscription).

(** [hks == nil || len( *hks) == 0] *)
Definition noEntries (hks : option JobInstances) : bool :=
  match hks with
  | None => true
  | Some l => Nat.eqb (length l) 0
  end.

Section Registry.
Context `{!ApiConstants} `{!JobInstancesMethods} (clt : Cluster).

Definition GetLastAppliedInstance (a : AnsibleHooks) (subKey : NamespacedName) : AppliedInstance :=
  match registry a !! subKey with
  | None => {| pre := ""; post := "" |}
  | Some hooks =>
      let preJobRecords := outputAppliedJobs (preHooks hooks) in
      let postJobRecords := outputAppliedJobs (postHooks hooks) in
      {| pre := lastApplied preJobRecords; post := lastApplied postJobRecords |}
  end.

Definition DeregisterSubscription (a : AnsibleHooks) (subKey : NamespacedName)
  : AnsibleHooks * option error :=
  ({| registry := delete subKey (registry a) |}, None).

(** [fmt.Sprintf("-%v-%v", generation, resourceVersion)] *)
Definition suffixFromUUID (subIns : Subscription) : string :=
  "-" +:+ pretty (GetGeneration subIns) +:+ "-" +:+ subResourceVersion subIns.

Definition isSubscriptionSpecChange (o n : Subscription) : bool :=
  negb (GetGeneration o =? GetGeneration n).

Definition isSubscriptionUpdate (a : AnsibleHooks) (subIns : Subscription)
    (isNotEqual : Subscription -> Subscription -> bool) : bool :=
  match registry a !! subKeyOf subIns with
  | None => true
  | Some record => isNotEqual (lastSub record) subIns
  end.

Definition isRegistered (a : AnsibleHooks) (subKey : NamespacedName) : bool :=
  bool_decide (is_Some (registry a !! subKey)).

(** [registerHook]: [a.registry[subKey]] is dereferenced without a check. *)
Definition registerHook (a : AnsibleHooks) (subIns : Subscription) (hookFlag : string)
    (jobs : list AnsibleJob) : AnsibleHooks * outcome (option error) :=
  let subKey := subKeyOf subIns in
  match registry a !! subKey with
  | None => (a, Panics nil_dereference)
  | Some h =>
      if String.eqb hookFlag PreHookType then
        let hks := default [] (preHooks h) in
        let '(hks', err) := registryJobs hks subIns suffixFromUUID jobs in
        ({| registry := <[subKey := {| preHooks := Some hks'; postHooks := postHooks h;
                                       lastSub := lastSub h |}]> (registry a) |},
         Returns err)
      else
        let hks := default [] (postHooks h) in
        let '(hks', err) := registryJobs hks subIns suffixFromUUID jobs in
        ({| registry := <[subKey := {| preHooks := preHooks h; postHooks := Some hks';
                                       lastSub := lastSub h |}]> (registry a) |},
         Returns err)
  end.

Definition hookPaths (annotations : gmap string string) : string * string :=
  if negb (String.eqb (get annotations AnnotationGithubPath) "") then
    (get annotations AnnotationGithubPath ++ "/prehook",
     get annotations AnnotationGithubPath ++ "/posthook")%string
  else if negb (String.eqb (get annotations AnnotationGitPath) "") then
    (get annotations AnnotationGitPath ++ "/prehook",
     get annotations AnnotationGitPath ++ "/posthook")%string
  else ("", "").

Definition addHookToRegisitry (a : AnsibleHooks) (subIns : Subscription)
  : AnsibleHooks * outcome (option error) :=
  let '(preHookPath, postHookPath) := hookPaths (subAnnotations subIns) in
  let '(preJobs, _) := GetHooks clt subIns preHookPath in
  let '(postJobs, _) := GetHooks clt subIns postHookPath in
  let step1 : AnsibleHooks * outcome unit :=
    if negb (Nat.eqb (length preJobs) 0) || negb (Nat.eqb (length postJobs) 0) then
      let subKey := subKeyOf subIns in
      match registry a !! subKey with
      | None => (a, Panics nil_dereference)
      | Some h =>
          ({| registry := <[subKey := {| preHooks := preHooks h; postHooks := postHooks h;
                                         lastSub := subIns |}]> (registry a) |},
           Returns tt)
      end
    else (a, Returns tt) in
  match step1 with
  | (a1, Panics why) => (a1, Panics why)
  | (a1, Returns _) =>
      let step2 : AnsibleHooks * outcome (option error) :=
        if negb (Nat.eqb (length preJobs) 0) then registerHook a1 subIns PreHookType preJobs
        else (a1, Returns None) in
      match step2 with
      | (a2, Panics why) => (a2, Panics why)
      | (a2, Returns (Some err)) => (a2, Returns (Some err))
      | (a2, Returns None) =>
          if negb (Nat.eqb (length postJobs) 0) then registerHook a2 subIns PostHookType postJobs
          else (a2, Returns None)
      end
  end.

Definition RegisterSubscription (a : AnsibleHooks) (subKey : NamespacedName)
  : AnsibleHooks * outcome (option error) :=
  match getSubscription clt subKey with
  | inl err =>
      (* subscription is deleted *)
      if IsNotFound err then (a, Returns None) else (a, Returns (Some err))
  | inr subIns =>
      let chnkey := NamespacedNameFormat clt (subChannel subIns) in
      match getChannel clt chnkey with
      | inl err => (a, Returns (Some err))
      | inr chn =>
          let chType := chnType chn in
          if negb (EqualFold chType ChannelTypeGit) && negb (EqualFold chType ChannelTypeGitHub)
          then (a, Returns None)
          else if negb (isSubscriptionUpdate a subIns isSubscriptionSpecChange)
          then (a, Returns None)
          else
            let a1 :=
              match registry a !! subKey with
              | Some _ => a
              | None =>
                  {| registry := <[subKey := {| lastSub := subIns; preHooks := Some [];
                                                postHooks := Some [] |}]> (registry a) |}
              end in
            match DownloadAnsibleHookResource clt subIns with
            | Some err => (a1, Returns None)
            | None => addHookToRegisitry a1 subIns
            end
      end
  end.

Definition HasHooks (a : AnsibleHooks) (hookType : string) (subKey : NamespacedName) : bool :=
  match registry a !! subKey with
  | None => false
  | Some h =>
      if String.eqb hookType PreHookType && noEntries (preHooks h) then false
      else if noEntries (postHooks h) then false
      else true
  end.

(** Stores what [applyJobs] left of the slot it was called on. *)
Definition storeSlot (a : AnsibleHooks) (subKey : NamespacedName) (hookType : string)
    (hks : option JobInstances) : AnsibleHooks :=
  match registry a !! subKey with
  | None => a
  | Some h =>
      {| registry :=
           <[subKey := if String.eqb hookType PreHookType
                       then {| preHooks := hks; postHooks := postHooks h; lastSub := lastSub h |}
                       else {| preHooks := preHooks h; postHooks := hks; lastSub := lastSub h |}]>
             (registry a) |}
  end.

Definition ApplyPreHooks (a : AnsibleHooks) (subKey : NamespacedName)
  : AnsibleHooks * list HookEvent * outcome (option error) :=
  if HasHooks a PreHookType subKey then
    match registry a !! subKey with
    | None => (a, [], Panics nil_dereference)
    | Some h =>
        let hks := preHooks h in
        let '(hks', err) := applyJobs hks (lastSub h) in
        (storeSlot a subKey PreHookType hks', [EvApplyJobs PreHookType hks (lastSub h)], Returns err)
    end
  else (a, [], Returns None).

Definition ApplyPostHooks (a : AnsibleHooks) (subKey : NamespacedName)
  : AnsibleHooks * list HookEvent * outcome (option error) :=
  if HasHooks a PostHookType subKey then
    match registry a !! subKey with
    | None => (a, [], Panics nil_dereference)
    | Some h =>
        let hks := postHooks h in
        let '(hks', err) := applyJobs hks (lastSub h) in
        (storeSlot a subKey PostHookType hks', [EvApplyJobs PostHookType hks (lastSub h)], Returns err)
    end
  else (a, [], Returns None).

Definition IsPreHooksCompleted (a : AnsibleHooks) (subKey : NamespacedName)
  : outcome (bool * option error) :=
  if negb (isRegistered a subKey) then Returns (true, None)
  else
    match registry a !! subKey with
    | None => Panics nil_dereference
    | Some h =>
        match preHooks h with
        | None => Returns (true, None)
        | Some hks =>
            if Nat.eqb (length hks) 0 then Returns (true, None)
            else Returns (isJobsCompleted hks)
        end
    end.

(** [a.registry[subKey].postHooks] is read first: for a key that is not in
    the map the index expression yields the nil pointer, and the field
    selection panics. *)
Definition IsPostHooksCompleted (a : AnsibleHooks) (subKey : NamespacedName)
  : outcome (bool * option error) :=
  match registry a !! subKey with
  | None => Panics nil_dereference
  | Some h =>
      match postHooks h with
      | None => Returns (true, None)
      | Some hks =>
          if Nat.eqb (length hks) 0 then Returns (true, None)
          else Returns (isJobsCompleted hks)
      end
  end.

(** The cases in which [RegisterSubscription] stops before it registers
    anything, with the error it returns. *)
Inductive RegisterStops (clt : Cluster) (a : AnsibleHooks) (subKey : NamespacedName)
  : option error -> Prop :=
| stops_subscription_not_found err :
    getSubscription clt subKey = inl err -> IsNotFound err = true ->
    RegisterStops clt a subKey None
| stops_channel_error subIns err :
    getSubscription clt subKey = inr subIns ->
    getChannel clt (NamespacedNameFormat clt (subChannel subIns)) = inl err ->
    RegisterStops clt a subKey (Some err)
| stops_not_git subIns chn :
    getSubscription clt subKey = inr subIns ->
    getChannel clt (NamespacedNameFormat clt (subChannel subIns)) = inr chn ->
    EqualFold (chnType chn) ChannelTypeGit = false ->
    EqualFold (chnType chn) ChannelTypeGitHub = false ->
    RegisterStops clt a subKey None
| stops_same_generation subIns chn record :
    getSubscription clt subKey = inr subIns ->
    getChannel clt (NamespacedNameFormat clt (subChannel subIns)) = inr chn ->
    registry a !! subKeyOf subIns = Some record ->
    GetGeneration (lastSub record) = GetGeneration subIns ->
    RegisterStops clt a subKey None.

End Registry.
End Hub.

(** * The Git subscriber item *)
Module Git.

(** ** Library functions *)

(** [strings.SplitAfter s sep] for a non-empty [sep]: [s] cut after each
    occurrence of [sep]. *)
Fixpoint SplitAfter_from (fuel : nat) (s sep : string) : list string :=
  match fuel with
  | O => [s]
  | S fuel' =>
      match String.index 0 sep s with
      | None => [s]
      | Some i =>
          let cut := (i + String.length sep)%nat in
          String.substring 0 cut s
            :: SplitAfter_from fuel' (String.substring cut (String.length s - cut) s) sep
      end
  end.

Definition SplitAfter (s sep : string) : list string :=
  SplitAfter_from (S (String.length s)) s sep.

Definition digit_of (c : ascii) : option Z :=
  let n := nat_of_ascii c in
  if (Nat.leb 48 n && Nat.leb n 57)%bool then Some (Z.of_nat n - 48) else None.

Fixpoint digits (s : string) (acc : Z) : option Z :=
  match s with
  | EmptyString => Some acc
  | String c r =>
      match digit_of c with
      | None => None
      | Some d => digits r (10 * acc + d)
      end
  end.

(** [strconv.Atoi]: an optional sign and decimal digits, within the range of
    a 64-bit [int]; [None] stands for a non-nil error. *)
Definition Atoi (s : string) : option Z :=
  let '(neg, body) :=
    match s with
    | String "+" r => (false, r)
    | String "-" r => (true, r)
    | _ => (false, s)
    end in
  if String.eqb body "" then None
  else
    match digits body 0 with
    | None => None
    | Some v =>
        let v' := if neg : bool then - v else v in
        if (- 2 ^ 63 <=? v') && (v' <=? 2 ^ 63 - 1) then Some v' else None
    end.

(** [n++] on an [int] (64 bits, two's complement). *)
Definition incr (n : Z) : Z := (n + 1 + 2 ^ 63) mod 2 ^ 64 - 2 ^ 63.

(** ** Data *)

(** [kubeResource]: the type and object metadata of a manifest.  The two
    maps may be nil. *)
Record kubeResource := {
  APIVersion : string;
  Kind : string;
  rscName : string;
  rscNamespace : string;
  Labels : option (gmap string string);
  Annotations : option (gmap string string);
}.

(** [unstructured.Unstructured]: the same metadata, and the rest of the
    object as text. *)
Record Unstructured := {
  object : kubeResource;
  body : string;
}.

Definition GetAnnotations (r : kubeResource) : option (gmap string string) := Annotations r.
Definition GetLabels (r : kubeResource) : option (gmap string string) := Labels r.

Definition SetLabels (l : gmap string string) (u : Unstructured) : Unstructured :=
  {| object := {| APIVersion := APIVersion (object u); Kind := Kind (object u);
                  rscName := rscName (object u); rscNamespace := rscNamespace (object u);
                  Labels := Some l; Annotations := Annotations (object u) |};
     body := body u |}.

Definition SetAnnotations (a : gmap string string) (u : Unstructured) : Unstructured :=
  {| object := {| APIVersion := APIVersion (object u); Kind := Kind (object u);
                  rscName := rscName (object u); rscNamespace := rscNamespace (object u);
                  Labels := Labels (object u); Annotations := Some a |};
     body := body u |}.

Definition SetNamespace (ns : string) (u : Unstructured) : Unstructured :=
  {| object := {| APIVersion := APIVersion (object u); Kind := Kind (object u);
                  rscName := rscName (object u); rscNamespace := ns;
                  Labels := Labels (object u); Annotations := Annotations (object u) |};
     body := body u |}.

Record GroupVersionKind := { gvkGroup : string; gvkVersion : string; gvkKind : string }.

(** [schema.FromAPIVersionAndKind]: the group is what precedes the single
    slash of the API version; without a slash the group is empty, with more
    than one the group and version are both empty. *)
Definition FromAPIVersionAndKind (apiVersion kind : string) : GroupVersionKind :=
  match String.index 0 "/" apiVersion with
  | None => {| gvkGroup := ""; gvkVersion := apiVersion; gvkKind := kind |}
  | Some i =>
      let g := String.substring 0 i apiVersion in
      let v := String.substring (S i) (String.length apiVersion - S i) apiVersion in
      match String.index 0 "/" v with
      | None => {| gvkGroup := g; gvkVersion := v; gvkKind := kind |}
      | Some _ => {| gvkGroup := ""; gvkVersion := ""; gvkKind := kind |}
      end
  end.

Definition GroupVersionKindOf (u : Unstructured) : GroupVersionKind :=
  FromAPIVersionAndKind (APIVersion (object u)) (Kind (object u)).

(** [kubesynchronizer.ResourceUnit] *)
Record ResourceUnit := { Resource : Unstructured; Gvk : GroupVersionKind }.

(** A YAML document, given by what [yaml.Unmarshal] makes of it: into a
    [kubeResource] and into an [Unstructured]. *)
Record Manifest := {
  typed : error + kubeResource;
  generic : error + Unstructured;
}.

(** [yaml.Marshal] of an object, as a document. *)
Definition Marshal (o : Unstructured) : Manifest :=
  {| typed := inr (object o); generic := inr o |}.

Record PackageFilter := {
  LabelSelector : option (gmap string string);
  FilterAnnotations : option (gmap string string);
  FilterRef : option string;
}.

(** The fields of the subscription the subscriber reads. *)
Record Subscription := {
  subName : string;
  subNamespace : string;
  subAnnotations : option (gmap string string);
  specPackage : string;
  specPackageFilter : option PackageFilter;
  specPackageOverrides : option (list string);
}.

Record Channel := { Pathname : string; InsecureSkipVerify : bool }.

Record ChannelConnectionCfg := {
  RepoURL : string;
  cfgInsecureSkipVerify : bool;
  User : string;
  Password : string;
  SSHKey : string;
  Passphrase : string;
  ClientKey : string;
  ClientCert : string;
  CaCerts : string;
}.

Record GitCloneOption := {
  CommitHash : string;
  RevisionTag : string;
  CloneDepth : Z;
  Branch : string;
  DestDir : string;
  PrimaryConnectionOption : option ChannelConnectionCfg;
  SecondaryConnectionOption : option ChannelConnectionCfg;
}.

(** A secret, by what [utils.ParseChannelSecret] makes of it; a config map,
    by its data. *)
Record Secret := {
  parsed : error + (string * string * string * string * string * string);
}.
Record ConfigMap := { Data : gmap string string }.

(** [repo.IndexFile]: its entries, in the order the [range] loop visits
    them; chart versions are kept as text. *)
Record IndexFile := { Entries : list (string * string) }.

(** [appv1.SubscriberItem], embedded in the subscriber item. *)
Record SubscriberItemBase := {
  Subscription_ : Subscription;
  SubscriptionConfigMap : option ConfigMap;
  Channel_ : option Channel;
  ChannelSecret : option Secret;
  ChannelConfigMap : option ConfigMap;
  SecondaryChannel : option Channel;
  SecondaryChannelSecret : option Secret;
  SecondaryChannelConfigMap : option ConfigMap;
}.

Record SubscriberItem := {
  base : SubscriberItemBase;
  crdsAndNamespaceFiles : list string;
  rbacFiles : list string;
  otherFiles : list string;
  repoRoot : string;
  commitID : string;
  reconcileRate : string;
  desiredCommit : string;
  desiredTag : string;
  count : Z;
  chartDirs : list (string * string);
  kustomizeDirs : list (string * string);
  resources : list ResourceUnit;
  indexFile : option IndexFile;
  webhookEnabled : bool;
  successful : bool;
  clusterAdmin : bool;
  currentNamespaceScoped : bool;
  userID : string;
  userGroup : string;
}.

Definition Subscription_of (s : SubscriberItem) : Subscription := Subscription_ (base s).

(** What [utils.SortResources] returns on success. *)
Record Sorted := {
  sortedChartDirs : list (string * string);
  sortedKustomizeDirs : list (string * string);
  sortedCrdsAndNamespaceFiles : list string;
  sortedRbacFiles : list string;
  sortedOtherFiles : list string;
}.

Inductive Phase := SubscriptionFailed | SubscriptionSubscribed.

(** Which client of the synchronizer a call goes through. *)
Inductive Client := RemoteNonCached | LocalNonCached.

(** ** The environment of a tick

    The functions of [pkg/utils], the synchronizer, the cluster, the file
    system and the Git, Kustomize and Helm tooling, as far as the subscriber
    calls them. *)
Record Env := {
  IsResourceNamespaced : Unstructured -> bool;
  LabelChecker : option (gmap string string) -> option (gmap string string) -> bool;
  OverrideResourceBySubscription : Unstructured -> string -> Subscription -> Unstructured * option error;
  SetInClusterPackageStatus : string -> error -> option error;
  SetPartOfLabel : Subscription -> Unstructured -> Unstructured;
  (** [filepath.Join] *)
  Join : string -> string -> string;
  GetLocalGitFolder : Subscription -> string;
  GetSubscriptionBranch : Subscription -> string;
  FetchChannelReferences : Client -> Channel -> option Secret * option ConfigMap;
  ListAndDeployReferredObject : string -> bool -> option error;
  CloneGitRepo : GitCloneOption -> error + string;
  GetConfigMap : NamespacedName -> error + ConfigMap;
  SortResources : string -> string -> error + Sorted;
  GenerateHelmIndexFile : Subscription -> string -> list (string * string) -> error + IndexFile;
  (** [os.ReadFile] followed by [utils.ParseKubeResoures] *)
  ReadFile : string -> error + list Manifest;
  VerifyAndOverrideKustomize : option (list string) -> string -> string -> option error;
  (** [utils.RunKustomizeBuild] followed by [utils.ParseYAML] and the trim *)
  RunKustomizeBuild : string -> error + list Manifest;
  CreateHelmCRManifest : string -> string -> Subscription -> bool -> error + Unstructured;
  UpdateAppsubOverallStatus : Subscription -> bool -> string -> option error;
  ProcessSubResources : Subscription -> list ResourceUnit -> bool -> option error;
}.

(** Calls that act on the cluster, the file system or the network. *)
Inductive Event :=
| EvUpdateLastUpdateTime
| EvFetchChannelReferences (c : Client) (secondary : bool)
| EvListAndDeployReferredObject (kind : string) (secondary : bool)
| EvCloneGitRepo (opts : GitCloneOption)
| EvGetConfigMap (key : NamespacedName)
| EvSortResources (root path : string)
| EvGenerateHelmIndexFile
| EvReadFile (file : string)
| EvVerifyAndOverrideKustomize (relativePath dir : string)
| EvRunKustomizeBuild (dir : string)
| EvCreateHelmCRManifest (packageName : string)
| EvUpdateAppsubOverallStatus (hasError : bool) (msg : string)
| EvProcessSubResources (rs : list ResourceUnit) (admin : bool)
| EvUpdateSubscriptionStatus (phase : Phase) (msg : string)
| EvSleep.

(** ** Field updates *)

Definition with_base (f : SubscriberItemBase -> SubscriberItemBase) (s : SubscriberItem) : SubscriberItem :=
  {| base := f (base s); crdsAndNamespaceFiles := crdsAndNamespaceFiles s;
     rbacFiles := rbacFiles s; otherFiles := otherFiles s; repoRoot := repoRoot s;
     commitID := commitID s; reconcileRate := reconcileRate s;
     desiredCommit := desiredCommit s; desiredTag := desiredTag s; count := count s;
     chartDirs := chartDirs s; kustomizeDirs := kustomizeDirs s; resources := resources s;
     indexFile := indexFile s; webhookEnabled := webhookEnabled s;
     successful := successful s; clusterAdmin := clusterAdmin s;
     currentNamespaceScoped := currentNamespaceScoped s; userID := userID s;
     userGroup := userGroup s |}.

Definition set_ChannelSecret (primary : bool) (x : option Secret) (b : SubscriberItemBase) : SubscriberItemBase :=
  {| Subscription_ := Subscription_ b; SubscriptionConfigMap := SubscriptionConfigMap b;
     Channel_ := Channel_ b;
     ChannelSecret := if primary then x else ChannelSecret b;
     ChannelConfigMap := ChannelConfigMap b;
     SecondaryChannel := SecondaryChannel b;
     SecondaryChannelSecret := if primary then SecondaryChannelSecret b else x;
     SecondaryChannelConfigMap := SecondaryChannelConfigMap b |}.

Definition set_ChannelConfigMap (primary : bool) (x : option ConfigMap) (b : SubscriberItemBase) : SubscriberItemBase :=
  {| Subscription_ := Subscription_ b; SubscriptionConfigMap := SubscriptionConfigMap b;
     Channel_ := Channel_ b;
     ChannelSecret := ChannelSecret b;
     ChannelConfigMap := if primary then x else ChannelConfigMap b;
     SecondaryChannel := SecondaryChannel b;
     SecondaryChannelSecret := SecondaryChannelSecret b;
     SecondaryChannelConfigMap := if primary then SecondaryChannelConfigMap b else x |}.

Definition set_SubscriptionConfigMap (x : option ConfigMap) (b : SubscriberItemBase) : SubscriberItemBase :=
  {| Subscription_ := Subscription_ b; SubscriptionConfigMap := x;
     Channel_ := Channel_ b; ChannelSecret := ChannelSecret b;
     ChannelConfigMap := ChannelConfigMap b; SecondaryChannel := SecondaryChannel b;
     SecondaryChannelSecret := SecondaryChannelSecret b;
     SecondaryChannelConfigMap := SecondaryChannelConfigMap b |}.

Definition set_repoRoot (x : string) (s : SubscriberItem) : SubscriberItem :=
  {| base := base s; crdsAndNamespaceFiles := crdsAndNamespaceFiles s;
     rbacFiles := rbacFiles s; otherFiles := otherFiles s; repoRoot := x;
     commitID := commitID s; reconcileRate := reconcileRate s;
     desiredCommit := desiredCommit s; desiredTag := desiredTag s; count := count s;
     chartDirs := chartDirs s; kustomizeDirs := kustomizeDirs s; resources := resources s;
     indexFile := indexFile s; webhookEnabled := webhookEnabled s;
     successful := successful s; clusterAdmin := clusterAdmin s;
     currentNamespaceScoped := currentNamespaceScoped s; userID := userID s;
     userGroup := userGroup s |}.

Definition set_commitID (x : string) (s : SubscriberItem) : SubscriberItem :=
  {| base := base s; crdsAndNamespaceFiles := crdsAndNamespaceFiles s;
     rbacFiles := rbacFiles s; otherFiles := otherFiles s; repoRoot := repoRoot s;
     commitID := x; reconcileRate := reconcileRate s;
     desiredCommit := desiredCommit s; desiredTag := desiredTag s; count := count s;
     chartDirs := chartDirs s; kustomizeDirs := kustomizeDirs s; resources := resources s;
     indexFile := indexFile s; webhookEnabled := webhookEnabled s;
     successful := successful s; clusterAdmin := clusterAdmin s;
     currentNamespaceScoped := currentNamespaceScoped s; userID := userID s;
     userGroup := userGroup s |}.

Definition set_count (x : Z) (s : SubscriberItem) : SubscriberItem :=
  {| base := base s; crdsAndNamespaceFiles := crdsAndNamespaceFiles s;
     rbacFiles := rbacFiles s; otherFiles := otherFiles s; repoRoot := repoRoot s;
     commitID := commitID s; reconcileRate := reconcileRate s;
     desiredCommit := desiredCommit s; desiredTag := desiredTag s; count := x;
     chartDirs := chartDirs s; kustomizeDirs := kustomizeDirs s; resources := resources s;
     indexFile := indexFile s; webhookEnabled := webhookEnabled s;
     successful := successful s; clusterAdmin := clusterAdmin s;
     currentNamespaceScoped := currentNamespaceScoped s; userID := userID s;
     userGroup := userGroup s |}.

Definition set_resources (x : list ResourceUnit) (s : SubscriberItem) : SubscriberItem :=
  {| base := base s; crdsAndNamespaceFiles := crdsAndNamespaceFiles s;
     rbacFiles := rbacFiles s; otherFiles := otherFiles s; repoRoot := repoRoot s;
     commitID := commitID s; reconcileRate := reconcileRate s;
     desiredCommit := desiredCommit s; desiredTag := desiredTag s; count := count s;
     chartDirs := chartDirs s; kustomizeDirs := kustomizeDirs s; resources := x;
     indexFile := indexFile s; webhookEnabled := webhookEnabled s;
     successful := successful s; clusterAdmin := clusterAdmin s;
     currentNamespaceScoped := currentNamespaceScoped s; userID := userID s;
     userGroup := userGroup s |}.

Definition set_successful (x : bool) (s : SubscriberItem) : SubscriberItem :=
  {| base := base s; crdsAndNamespaceFiles := crdsAndNamespaceFiles s;
     rbacFiles := rbacFiles s; otherFiles := otherFiles s; repoRoot := repoRoot s;
     commitID := commitID s; reconcileRate := reconcileRate s;
     desiredCommit := desiredCommit s; desiredTag := desiredTag s; count := count s;
     chartDirs := chartDirs s; kustomizeDirs := kustomizeDirs s; resources := resources s;
     indexFile := indexFile s; webhookEnabled := webhookEnabled s;
     successful := x; clusterAdmin := clusterAdmin s;
     currentNamespaceScoped := currentNamespaceScoped s; userID := userID s;
     userGroup := userGroup s |}.

Definition set_indexFile (x : option IndexFile) (s : SubscriberItem) : SubscriberItem :=
  {| base := base s; crdsAndNamespaceFiles := crdsAndNamespaceFiles s;
     rbacFiles := rbacFiles s; otherFiles := otherFiles s; repoRoot := repoRoot s;
     commitID := commitID s; reconcileRate := reconcileRate s;
     desiredCommit := desiredCommit s; desiredTag := desiredTag s; count := count s;
     chartDirs := chartDirs s; kustomizeDirs := kustomizeDirs s; resources := resources s;
     indexFile := x; webhookEnabled := webhookEnabled s;
     successful := successful s; clusterAdmin := clusterAdmin s;
     currentNamespaceScoped := currentNamespaceScoped s; userID := userID s;
     userGroup := userGroup s |}.

(** The five assignments that store a classification. *)
Definition set_sorted (chart kustomize : list (string * string)) (crds rbac other : list string)
    (s : SubscriberItem) : SubscriberItem :=
  {| base := base s; crdsAndNamespaceFiles := crds;
     rbacFiles := rbac; otherFiles := other; repoRoot := repoRoot s;
     commitID := commitID s; reconcileRate := reconcileRate s;
     desiredCommit := desiredCommit s; desiredTag := desiredTag s; count := count s;
     chartDirs := chart; kustomizeDirs := kustomize; resources := resources s;
     indexFile := indexFile s; webhookEnabled := webhookEnabled s;
     successful := successful s; clusterAdmin := clusterAdmin s;
     currentNamespaceScoped := currentNamespaceScoped s; userID := userID s;
     userGroup := userGroup s |}.

(** ** State, trace and panics *)

Definition M (A : Type) : Type := SubscriberItem -> outcome A * SubscriberItem * list Event.

Definition ret {A} (a : A) : M A := fun s => (Returns a, s, []).

Definition bind {A B} (m : M A) (k : A -> M B) : M B :=
  fun s =>
    match m s with
    | (Returns a, s1, t1) => let '(r, s2, t2) := k a s1 in (r, s2, (t1 ++ t2)%list)
    | (Panics why, s1, t1) => (Panics why, s1, t1)
    end.

Definition gets {A} (f : SubscriberItem -> A) : M A := fun s => (Returns (f s), s, []).
Definition modify (f : SubscriberItem -> SubscriberItem) : M unit := fun s => (Returns tt, f s, []).
Definition emit (e : Event) : M unit := fun s => (Returns tt, s, [e]).
Definition panic {A} : M A := fun s => (Panics nil_dereference, s, []).

Notation "x <- m ;; k" := (bind m (fun x => k))
  (at level 100, m at next level, right associativity).
Notation "m ;;; k" := (bind m (fun _ => k))
  (at level 100, right associativity).

(** The outcome, the item and the trace a run ends with. *)
Definition resultOf {A} (r : outcome A * SubscriberItem * list Event) : outcome A := r.1.1.
Definition after {A} (r : outcome A * SubscriberItem * list Event) : SubscriberItem := r.1.2.
Definition traceOf {A} (r : outcome A * SubscriberItem * list Event) : list Event := r.2.

(** What a trace shows: whether the repository was fetched, whether it was
    classified, and the resource lists handed to the synchronizer. *)
Definition fetched (t : list Event) : bool :=
  existsb (fun e => match e with EvCloneGitRepo _ => true | _ => false end) t.
Definition classified (t : list Event) : bool :=
  existsb (fun e => match e with EvSortResources _ _ => true | _ => false end) t.
Definition applied (t : list Event) : list (list ResourceUnit) :=
  omap (fun e => match e with EvProcessSubResources rs _ => Some rs | _ => None end) t.

(** The item without its classified buckets. *)
Definition dropBuckets (s : SubscriberItem) : SubscriberItem :=
  {| base := base s; crdsAndNamespaceFiles := [];
     rbacFiles := []; otherFiles := []; repoRoot := repoRoot s;
     commitID := commitID s; reconcileRate := reconcileRate s;
     desiredCommit := desiredCommit s; desiredTag := desiredTag s; count := count s;
     chartDirs := []; kustomizeDirs := []; resources := [];
     indexFile := None; webhookEnabled := webhookEnabled s;
     successful := successful s; clusterAdmin := clusterAdmin s;
     currentNamespaceScoped := currentNamespaceScoped s; userID := userID s;
     userGroup := userGroup s |}.

(** The seven buckets are empty. *)
Definition bucketsCleared (s : SubscriberItem) : Prop :=
  chartDirs s = [] /\ kustomizeDirs s = [] /\ crdsAndNamespaceFiles s = [] /\
  rbacFiles s = [] /\ otherFiles s = [] /\ indexFile s = None /\ resources s = [].

(** The seven buckets of an item. *)
Definition bucketsOf (s : SubscriberItem)
  : list (string * string) * list (string * string) * list string * list string
    * list string * option IndexFile * list ResourceUnit :=
  (chartDirs s, kustomizeDirs s, crdsAndNamespaceFiles s, rbacFiles s, otherFiles s,
   indexFile s, resources s).

(** The item after a bucket returned [err]: the flag is lowered on an
    error. *)
Definition lowered (err : option error) (s : SubscriberItem) : SubscriberItem :=
  match err with
  | Some _ => set_successful false s
  | None => s
  end.

(** ** Invariants of a computation

    A computation respects a relation on items and a property of events when
    every run relates the item it starts from to the item it ends with and
    emits only events with the property. *)
Definition respects (R : SubscriberItem -> SubscriberItem -> Prop) (P : Event -> Prop)
    {A} (m : M A) : Prop :=
  forall s, R s (after (m s)) /\ Forall P (traceOf (m s)).

(** The fetch changes the channel references and the repository root, and
    nothing else of the item. *)
Definition fetchFrame (s s1 : SubscriberItem) : Prop :=
  with_base (fun _ => base s) (set_repoRoot (repoRoot s) s1) = s.

(** More precisely, of the embedded item the fetch changes the secret and
    the config map of the primary and of the secondary channel only: the
    item after the fetch, with these four references and the repository
    root put back, is the item before.  The subscription, its config map
    and the two channels stay. *)
Definition keepReferences (b0 b : SubscriberItemBase) : SubscriberItemBase :=
  {| Subscription_ := Subscription_ b; SubscriptionConfigMap := SubscriptionConfigMap b;
     Channel_ := Channel_ b;
     ChannelSecret := ChannelSecret b0;
     ChannelConfigMap := ChannelConfigMap b0;
     SecondaryChannel := SecondaryChannel b;
     SecondaryChannelSecret := SecondaryChannelSecret b0;
     SecondaryChannelConfigMap := SecondaryChannelConfigMap b0 |}.

Definition referencesFrame (s s1 : SubscriberItem) : Prop :=
  with_base (keepReferences (base s)) (set_repoRoot (repoRoot s) s1) = s.

(** The events of the fetch. *)
Definition isFetchEvent (e : Event) : Prop :=
  match e with
  | EvFetchChannelReferences _ _ | EvListAndDeployReferredObject _ _ | EvCloneGitRepo _ => True
  | _ => False
  end.

(** No step of a tick but the drift gate touches the tick counter, the
    reconcile rate or the webhook flag. *)
Definition tickFrame (s s1 : SubscriberItem) : Prop :=
  count s1 = count s /\ reconcileRate s1 = reconcileRate s /\
  webhookEnabled s1 = webhookEnabled s.

(** The events of the classification and of the buckets: anything but the
    hand-over to the synchronizer and the status of the subscription. *)
Definition isBuildEvent (e : Event) : Prop :=
  match e with
  | EvProcessSubResources _ _ | EvUpdateSubscriptionStatus _ _ | EvSleep => False
  | _ => True
  end.

Section Subscriber.
Context `{!ApiConstants} (env : Env).

Definition helmGvk : GroupVersionKind :=
  {| gvkGroup := SchemeGroupVersion_Group; gvkVersion := SchemeGroupVersion_Version;
     gvkKind := "HelmRelease" |}.

(** ** The resource transformer *)

Definition checkSubscriptionAnnotation (resource : kubeResource) : option error :=
  if EqualFold (APIVersion resource) SchemeGroupVersion_String
     && EqualFold (Kind resource) "Subscription" then
    let annotations := default ∅ (GetAnnotations resource) in
    if EqualFold (get annotations AnnotationClusterAdmin) "true" then
      Some (errors_New ("contains " +:+ AnnotationClusterAdmin +:+ " = true annotation."))
    else None
  else None.

Definition checkFilters (sub : Subscription) (rsc : Unstructured) : string :=
  let name := rscName (object rsc) in
  if negb (String.eqb (specPackage sub) "") && negb (String.eqb (specPackage sub) name) then
    "Name does not match, skiping:" +:+ specPackage sub +:+ "|" +:+ name
  else
    match specPackageFilter sub with
    | None => ""
    | Some pf =>
        if LabelChecker env (LabelSelector pf) (GetLabels (object rsc)) then
          match FilterAnnotations pf with
          | None => ""
          | Some annotations =>
              let rscanno := default ∅ (GetAnnotations (object rsc)) in
              let matched :=
                forallb (fun kv => String.eqb (get rscanno kv.1) kv.2) (map_to_list annotations) in
              if negb matched then "Failed to pass annotation check to manifest " +:+ name
              else ""
          end
        else "Failed to pass label check on resource " +:+ name
    end.

(** The namespace policy of [subscribeResource], for a namespaced
    resource. *)
Definition scopeNamespace (ghsi : SubscriberItem) (rsc : Unstructured) : Unstructured :=
  let sub := Subscription_of ghsi in
  if clusterAdmin ghsi then
    let rsc1 :=
      if negb (String.eqb (rscNamespace (object rsc)) "") then
        if currentNamespaceScoped ghsi then SetNamespace (subNamespace sub) rsc else rsc
      else SetNamespace (subNamespace sub) rsc in
    let rscAnnotations := default ∅ (GetAnnotations (object rsc1)) in
    if EqualFold (gvkGroup (GroupVersionKindOf rsc1)) "apps.open-cluster-management.io"
       && EqualFold (gvkKind (GroupVersionKindOf rsc1)) "Subscription" then
      SetAnnotations (<[AnnotationClusterAdmin := "true"]> rscAnnotations) rsc1
    else rsc1
  else SetNamespace (subNamespace sub) rsc.

(** The annotations a resource inherits from the subscription. *)
Definition propagateAnnotations (subAnnotations : gmap string string) (rsc : Unstructured) : Unstructured :=
  let rscAnnotations := default ∅ (GetAnnotations (object rsc)) in
  let a1 :=
    if EqualFold (get subAnnotations AnnotationClusterAdmin) "true"
    then <[AnnotationClusterAdmin := "true"]> rscAnnotations else rscAnnotations in
  let a2 :=
    if String.eqb (get a1 AnnotationResourceReconcileOption) "" then
      if negb (String.eqb (get subAnnotations AnnotationResourceReconcileOption) "") then
        <[AnnotationResourceReconcileOption := get subAnnotations AnnotationResourceReconcileOption]> a1
      else <[AnnotationResourceReconcileOption := MergeReconcile]> a1
    else a1 in
  SetAnnotations a2 rsc.

Definition subscribeResource (ghsi : SubscriberItem) (file : Manifest)
  : option Unstructured * option GroupVersionKind * option error :=
  match generic file with
  | inl err => (None, None, Some err)
  | inr rsc0 =>
      match typed file with
      | inl err => (None, None, Some err)
      | inr t =>
          let sub := Subscription_of ghsi in
          let rsc1 := match GetLabels t with Some l => SetLabels l rsc0 | None => rsc0 end in
          let rsc2 := match GetAnnotations t with Some a => SetAnnotations a rsc1 | None => rsc1 end in
          let validgvk := GroupVersionKindOf rsc2 in
          let rsc3 := if IsResourceNamespaced env rsc2 then scopeNamespace ghsi rsc2 else rsc2 in
          let filtered :=
            match specPackageFilter sub with
            | Some _ => negb (String.eqb (checkFilters sub rsc3) "")
            | None => false
            end in
          if filtered then (None, None, None)
          else
            let overridden : Unstructured * option error :=
              match specPackageOverrides sub with
              | Some _ => OverrideResourceBySubscription env rsc3 (rscName (object rsc3)) sub
              | None => (rsc3, None)
              end in
            match overridden with
            | (rsc4, Some err) =>
                let name := rscName (object rsc4) in
                let errmsg := "Failed override package " +:+ name +:+ " with error: " +:+ Error err in
                let errmsg' :=
                  match SetInClusterPackageStatus env name err with
                  | Some err' =>
                      errmsg +:+ " and failed to set in cluster package status with error: "
                             +:+ Error err'
                  | None => errmsg
                  end in
                (None, None, Some (errors_New errmsg'))
            | (rsc4, None) =>
                let rsc5 :=
                  match subAnnotations sub with
                  | Some subAnnotations => propagateAnnotations subAnnotations rsc4
                  | None => rsc4
                  end in
                (Some (SetPartOfLabel env sub rsc5), Some validgvk, None)
            end
      end
  end.

Definition subscribeResourceFile (file : Manifest) : M unit :=
  ghsi <- gets id ;;
  match subscribeResource ghsi file with
  | (Some resourceToSync, Some validgvk, _) =>
      modify (fun s => set_resources (resources s ++ [{| Resource := resourceToSync; Gvk := validgvk |}])%list s)
  | _ => ret tt
  end.

(** The identity annotations a nested subscription receives. *)
Definition injectIdentity (ghsi : SubscriberItem) (o : Unstructured) : Unstructured :=
  let annotations := default ∅ (GetAnnotations (object o)) in
  SetAnnotations (<[AnnotationUserGroup := userGroup ghsi]>
                    (<[AnnotationUserIdentity := userID ghsi]> annotations)) o.

(** The loop of [subscribeResources] over the documents of one file; a
    non-nil error ends the whole call. *)
Fixpoint subscribeFileResources (rs : list Manifest) : M (option error) :=
  match rs with
  | [] => ret None
  | resource :: rest =>
      match typed resource with
      | inl _ => subscribeFileResources rest
      | inr t =>
          if String.eqb (Kind t) "Subscription" then
            match generic resource with
            | inl err => ret (Some err)
            | inr o =>
                ghsi <- gets id ;;
                subscribeResourceFile (Marshal (injectIdentity ghsi o)) ;;;
                subscribeFileResources rest
            end
          else
            subscribeResourceFile resource ;;;
            subscribeFileResources rest
      end
  end.

Fixpoint subscribeResources (rscFiles : list string) : M (option error) :=
  match rscFiles with
  | [] => ret None
  | rscFile :: rest =>
      emit (EvReadFile rscFile) ;;;
      match ReadFile env rscFile with
      | inl err => ret (Some err)
      | inr rs =>
          r <- subscribeFileResources rs ;;
          match r with
          | Some err => ret (Some err)
          | None => subscribeResources rest
          end
      end
  end.

(** The loop of [subscribeKustomizations] over the documents of one
    rendering. *)
Fixpoint subscribeRendered (rs : list Manifest) : M unit :=
  match rs with
  | [] => ret tt
  | resourceFile :: rest =>
      match typed resourceFile with
      | inl _ => subscribeRendered rest
      | inr t =>
          (if String.eqb (APIVersion t) "" || String.eqb (Kind t) "" then ret tt
           else
             (* the error of the check is logged, nothing else *)
             let _ := checkSubscriptionAnnotation t in
             subscribeResourceFile resourceFile) ;;;
          subscribeRendered rest
      end
  end.

Definition relativePathOf (kustomizeDir root : string) : string :=
  match SplitAfter kustomizeDir (root +:+ "/") with
  | _ :: p :: _ => p
  | _ => kustomizeDir
  end.

Fixpoint subscribeKustomizeDirs (dirs : list (string * string)) : M (option error) :=
  match dirs with
  | [] => ret None
  | (_, kustomizeDir) :: rest =>
      ghsi <- gets id ;;
      let relativePath := relativePathOf kustomizeDir (repoRoot ghsi) in
      emit (EvVerifyAndOverrideKustomize relativePath kustomizeDir) ;;;
      match VerifyAndOverrideKustomize env (specPackageOverrides (Subscription_of ghsi))
                                       relativePath kustomizeDir with
      | Some err => modify (set_resources []) ;;; ret (Some err)
      | None =>
          emit (EvRunKustomizeBuild kustomizeDir) ;;;
          match RunKustomizeBuild env kustomizeDir with
          | inl err => modify (set_resources []) ;;; ret (Some err)
          | inr rs => subscribeRendered rs ;;; subscribeKustomizeDirs rest
          end
      end
  end.

Definition subscribeKustomizations : M (option error) :=
  dirs <- gets kustomizeDirs ;;
  subscribeKustomizeDirs dirs.

Fixpoint subscribeHelmEntries (entries : list (string * string)) : M (option error) :=
  match entries with
  | [] => ret None
  | (packageName, chartVersions) :: rest =>
      ghsi <- gets id ;;
      emit (EvCreateHelmCRManifest packageName) ;;;
      match CreateHelmCRManifest env packageName chartVersions (Subscription_of ghsi)
                                 (clusterAdmin ghsi) with
      | inl err => ret (Some err)
      | inr helmReleaseCR =>
          modify (fun s => set_resources (resources s ++ [{| Resource := helmReleaseCR; Gvk := helmGvk |}])%list s) ;;;
          subscribeHelmEntries rest
      end
  end.

Definition subscribeHelmCharts (indexFile : option IndexFile) : M (option error) :=
  match indexFile with
  | None => panic
  | Some idx => subscribeHelmEntries (Entries idx)
  end.

(** ** Fetching and classifying *)

(** The update of the channel's secret and config map, for the primary or
    the secondary channel.  The warning printed when the deployment of a
    reference fails reads the name of the secret (or config map) held in
    memory, through a pointer that may be nil. *)
Definition refreshChannelReferences (primary : bool) (chn : Channel) : M unit :=
  let secondary := negb primary in
  emit (EvFetchChannelReferences RemoteNonCached secondary) ;;;
  let '(sec, cm) := FetchChannelReferences env RemoteNonCached chn in
  (match sec with
   | Some _ =>
       emit (EvListAndDeployReferredObject "Secret" secondary) ;;;
       match ListAndDeployReferredObject env "Secret" secondary with
       | Some _ =>
           held <- gets (fun s => if primary then ChannelSecret (base s)
                                  else SecondaryChannelSecret (base s)) ;;
           match held with None => panic | Some _ => ret tt end
       | None => ret tt
       end
   | None => ret tt
   end) ;;;
  (match cm with
   | Some _ =>
       emit (EvListAndDeployReferredObject "ConfigMap" secondary) ;;;
       match ListAndDeployReferredObject env "ConfigMap" secondary with
       | Some _ =>
           held <- gets (fun s => if primary then ChannelConfigMap (base s)
                                  else SecondaryChannelConfigMap (base s)) ;;
           match held with None => panic | Some _ => ret tt end
       | None => ret tt
       end
   | None => ret tt
   end) ;;;
  emit (EvFetchChannelReferences LocalNonCached secondary) ;;;
  let '(sec', cm') := FetchChannelReferences env LocalNonCached chn in
  (match sec' with
   | Some _ => modify (with_base (set_ChannelSecret primary sec'))
   | None => ret tt
   end) ;;;
  (match cm' with
   | Some _ => modify (with_base (set_ChannelConfigMap primary cm'))
   | None => ret tt
   end).

Definition getChannelConnectionConfig (secret : option Secret) (configmap : option ConfigMap)
  : error + ChannelConnectionCfg :=
  let withSecret : error + ChannelConnectionCfg :=
    match secret with
    | None =>
        inr {| RepoURL := ""; cfgInsecureSkipVerify := false; User := ""; Password := "";
               SSHKey := ""; Passphrase := ""; ClientKey := ""; ClientCert := ""; CaCerts := "" |}
    | Some sec =>
        match parsed sec with
        | inl err => inl err
        | inr (user, token, sshKey, passphrase, clientkey, clientcert) =>
            inr {| RepoURL := ""; cfgInsecureSkipVerify := false; User := user;
                   Password := token; SSHKey := sshKey; Passphrase := passphrase;
                   ClientKey := clientkey; ClientCert := clientcert; CaCerts := "" |}
        end
    end in
  match withSecret with
  | inl err => inl err
  | inr cfg =>
      match configmap with
      | None => inr cfg
      | Some cm =>
          inr {| RepoURL := RepoURL cfg; cfgInsecureSkipVerify := cfgInsecureSkipVerify cfg;
                 User := User cfg; Password := Password cfg; SSHKey := SSHKey cfg;
                 Passphrase := Passphrase cfg; ClientKey := ClientKey cfg;
                 ClientCert := ClientCert cfg; CaCerts := get (Data cm) ChannelCertificateData |}
      end
  end.

Definition forChannel (cfg : ChannelConnectionCfg) (chn : Channel) : ChannelConnectionCfg :=
  {| RepoURL := Pathname chn; cfgInsecureSkipVerify := InsecureSkipVerify chn;
     User := User cfg; Password := Password cfg; SSHKey := SSHKey cfg;
     Passphrase := Passphrase cfg; ClientKey := ClientKey cfg;
     ClientCert := ClientCert cfg; CaCerts := CaCerts cfg |}.

Definition cloneDepthOf (annotations : gmap string string) : Z :=
  if negb (String.eqb (get annotations AnnotationGitCloneDepth) "") then
    match Atoi (get annotations AnnotationGitCloneDepth) with
    | Some d => d
    | None => 1
    end
  else 1.

Definition cloneGitRepo : M (string * option error) :=
  ghsi0 <- gets id ;;
  let sub := Subscription_of ghsi0 in
  let cloneDepth := cloneDepthOf (default ∅ (subAnnotations sub)) in
  modify (set_repoRoot (GetLocalGitFolder env sub)) ;;;
  ghsi <- gets id ;;
  let b := base ghsi in
  match getChannelConnectionConfig (ChannelSecret b) (ChannelConfigMap b) with
  | inl err => ret ("", Some err)
  | inr primaryCfg =>
      match Channel_ b with
      | None => panic
      | Some chn =>
          let secondary : option (error + ChannelConnectionCfg) :=
            match SecondaryChannel b with
            | None => None
            | Some chn2 =>
                match getChannelConnectionConfig (SecondaryChannelSecret b)
                                                 (SecondaryChannelConfigMap b) with
                | inl err => Some (inl err)
                | inr cfg2 => Some (inr (forChannel cfg2 chn2))
                end
            end in
          match secondary with
          | Some (inl err) => ret ("", Some err)
          | _ =>
              let cloneOptions :=
                {| CommitHash := desiredCommit ghsi; RevisionTag := desiredTag ghsi;
                   CloneDepth := cloneDepth; Branch := GetSubscriptionBranch env sub;
                   DestDir := repoRoot ghsi;
                   PrimaryConnectionOption := Some (forChannel primaryCfg chn);
                   SecondaryConnectionOption :=
                     match secondary with Some (inr cfg2) => Some cfg2 | _ => None end |} in
              emit (EvCloneGitRepo cloneOptions) ;;;
              match CloneGitRepo env cloneOptions with
              | inl err => ret ("", Some err)
              | inr commit => ret (commit, None)
              end
          end
      end
  end.

Definition resourcePathOf (ghsi : SubscriberItem) : string :=
  let annotations := default ∅ (subAnnotations (Subscription_of ghsi)) in
  if negb (String.eqb (get annotations AnnotationGithubPath) "") then
    Join env (repoRoot ghsi) (get annotations AnnotationGithubPath)
  else if negb (String.eqb (get annotations AnnotationGitPath) "") then
    Join env (repoRoot ghsi) (get annotations AnnotationGitPath)
  else
    match SubscriptionConfigMap (base ghsi) with
    | Some cm => Join env (repoRoot ghsi) (get (Data cm) "path")
    | None => repoRoot ghsi
    end.

Definition sortClonedGitRepo : M (option error) :=
  ghsi0 <- gets id ;;
  let sub := Subscription_of ghsi0 in
  (match specPackageFilter sub with
   | Some pf =>
       match FilterRef pf with
       | Some ref =>
           let subcfgkey := {| Name := ref; Namespace := subNamespace sub |} in
           emit (EvGetConfigMap subcfgkey) ;;;
           match GetConfigMap env subcfgkey with
           | inl _ => modify (with_base (set_SubscriptionConfigMap (Some {| Data := ∅ |})))
           | inr cm => modify (with_base (set_SubscriptionConfigMap (Some cm)))
           end
       | None => ret tt
       end
   | None => ret tt
   end) ;;;
  ghsi <- gets id ;;
  let resourcePath := resourcePathOf ghsi in
  emit (EvSortResources (repoRoot ghsi) resourcePath) ;;;
  match SortResources env (repoRoot ghsi) resourcePath with
  | inl err => ret (Some err)
  | inr sorted =>
      modify (set_sorted (sortedChartDirs sorted) (sortedKustomizeDirs sorted)
                         (sortedCrdsAndNamespaceFiles sorted) (sortedRbacFiles sorted)
                         (sortedOtherFiles sorted)) ;;;
      emit EvGenerateHelmIndexFile ;;;
      match GenerateHelmIndexFile env sub (repoRoot ghsi) (sortedChartDirs sorted) with
      | inl err => ret (Some err)
      | inr idx => modify (set_indexFile (Some idx)) ;;; ret None
      end
  end.

(** ** One reconciliation tick *)

(** The block of [doSubscription] for the [medium] reconcile rate; [true]
    stands for the [return nil] that skips the reconcile. *)
Definition driftGate (commit : string) : M bool :=
  ghsi0 <- gets id ;;
  if EqualFold (reconcileRate ghsi0) "medium" then
    modify (fun s => set_count (incr (count s)) s) ;;;
    ghsi <- gets id ;;
    if String.eqb (commitID ghsi) "" then ret false
    else if count ghsi <? 6 then
      if String.eqb commit (commitID ghsi) && successful ghsi then ret true else ret false
    else modify (set_count 0) ;;; ret false
  else ret false.

(** [errMsg] after a bucket failed with [err]: joined with a comma. *)
Definition appendError (errMsg : string) (err : error) : string :=
  (if 0 <? len errMsg then errMsg +:+ ", " else errMsg) +:+ Error err.

(** [errMsg] after the Kustomize step failed with [err]: put in front. *)
Definition prependKustomizeError (errMsg : string) (err : error) : string :=
  let kusErr := "failed to apply klustomization: " +:+ Error err in
  (if 0 <? len errMsg then kusErr +:+ ", " else kusErr) +:+ errMsg.

(** A bucket failed: the flag is lowered and the message extended. *)
Definition noteFailure (errMsg : string) (err : option error) : M string :=
  match err with
  | Some e => modify (set_successful false) ;;; ret (appendError errMsg e)
  | None => ret errMsg
  end.

(** The message of a tick, from the errors of its five buckets (resources
    of the first three kinds, Kustomize, Helm): the strings joined with
    commas, the Kustomize one in front under its own heading. *)
Definition tickMessage (e1 e2 e3 e4 e5 : option error) : string :=
  let join := fun (m : string) (e : option error) =>
    match e with Some err => appendError m err | None => m end in
  let m3 := join (join (join "" e1) e2) e3 in
  let m4 := match e4 with Some err => prependKustomizeError m3 err | None => m3 end in
  join m4 e5.

(** Following the spec: the error strings of the buckets of a tick, to be
    concatenated.  The string of the Kustomize bucket carries a heading and
    comes first; the others follow in the order of the buckets. *)
Definition bucketErrorStrings (e1 e2 e3 e4 e5 : option error) : list string :=
  (match e4 with
   | Some err => ["failed to apply klustomization: " +:+ Error err]
   | None => []
   end ++ omap (fmap Error) [e1; e2; e3; e5])%list.

(** The five buckets of [doSubscription], in order; the result is
    [errMsg]. *)
Definition subscribeBuckets : M string :=
  let errMsg := "" in
  ghsi1 <- gets id ;;
  err1 <- subscribeResources (crdsAndNamespaceFiles ghsi1) ;;
  errMsg1 <- (match err1 with
              | Some e => modify (set_successful false) ;;; ret (errMsg +:+ Error e)
              | None => ret errMsg
              end) ;;
  ghsi2 <- gets id ;;
  err2 <- subscribeResources (rbacFiles ghsi2) ;;
  errMsg2 <- noteFailure errMsg1 err2 ;;
  ghsi3 <- gets id ;;
  err3 <- subscribeResources (otherFiles ghsi3) ;;
  errMsg3 <- noteFailure errMsg2 err3 ;;
  err4 <- subscribeKustomizations ;;
  errMsg4 <- (match err4 with
              | Some e =>
                  modify (set_successful false) ;;;
                  let errMsg' := prependKustomizeError errMsg3 e in
                  emit (EvUpdateAppsubOverallStatus true errMsg') ;;;
                  ret errMsg'
              | None => ret errMsg3
              end) ;;
  ghsi5 <- gets id ;;
  err5 <- subscribeHelmCharts (indexFile ghsi5) ;;
  noteFailure errMsg4 err5.

(** The assignments at the end of a successful tick. *)
Definition finishTick (commit : string) (s : SubscriberItem) : SubscriberItem :=
  {| base := base s; crdsAndNamespaceFiles := [];
     rbacFiles := []; otherFiles := []; repoRoot := repoRoot s;
     commitID := commit; reconcileRate := reconcileRate s;
     desiredCommit := desiredCommit s; desiredTag := desiredTag s; count := count s;
     chartDirs := []; kustomizeDirs := []; resources := [];
     indexFile := None; webhookEnabled := webhookEnabled s;
     successful := true; clusterAdmin := clusterAdmin s;
     currentNamespaceScoped := currentNamespaceScoped s; userID := userID s;
     userGroup := userGroup s |}.

(** The end of [doSubscription]: the guard against an empty list, the
    hand-over to the synchronizer, and the clean-up. *)
Definition applyResources (commit errMsg : string) : M (option error) :=
  ghsi <- gets id ;;
  if Nat.eqb (length (resources ghsi)) 0 && negb (successful ghsi) then
    ret (Some (errors_New (truncate 2000 errMsg)))
  else
    emit (EvProcessSubResources (resources ghsi) (clusterAdmin ghsi)) ;;;
    match ProcessSubResources env (Subscription_of ghsi) (resources ghsi) (clusterAdmin ghsi) with
    | Some err => modify (set_successful false) ;;; ret (Some err)
    | None => modify (finishTick commit) ;;; ret None
    end.

(** [doSubscription] from the classification on. *)
Definition reconcile (commit : string) : M (option error) :=
  modify (set_resources []) ;;;
  err <- sortClonedGitRepo ;;
  match err with
  | Some e => modify (set_successful false) ;;; ret (Some e)
  | None =>
      errMsg <- subscribeBuckets ;;
      applyResources commit errMsg
  end.

(** The update of the channel references and the clone, which every tick
    that is not held back by the webhook performs. *)
Definition updateAndClone : M (string * option error) :=
  ghsi0 <- gets id ;;
  (match Channel_ (base ghsi0) with
   | Some chn => refreshChannelReferences true chn
   | None => ret tt
   end) ;;;
  (match SecondaryChannel (base ghsi0) with
   | Some chn => refreshChannelReferences false chn
   | None => ret tt
   end) ;;;
  cloneGitRepo.

Definition doSubscription : M (option error) :=
  emit EvUpdateLastUpdateTime ;;;
  ghsi0 <- gets id ;;
  if webhookEnabled ghsi0 && successful ghsi0 then ret None
  else
    cloned <- updateAndClone ;;
    match cloned with
    | (_, Some err) =>
        (* the error is logged with the path name of the channel *)
        ghsi <- gets id ;;
        match Channel_ (base ghsi) with
        | None => panic
        | Some _ => modify (set_successful false) ;;; ret (Some err)
        end
    | (commit, None) =>
        skip <- driftGate commit ;;
        if skip : bool then ret None else reconcile commit
    end.

End Subscriber.

(** [doSubscriptionWithRetries]: attempt [n] runs in the environment
    [envs n]; [left] is [retries - n]. *)
Fixpoint retryFrom `{!ApiConstants} (envs : nat -> Env) (n left : nat) : M unit :=
  err <- doSubscription (envs n) ;;
  emit (match err with
        | Some e => EvUpdateSubscriptionStatus SubscriptionFailed (Error e)
        | None => EvUpdateSubscriptionStatus SubscriptionSubscribed ""
        end) ;;;
  ghsi <- gets id ;;
  match left with
  | S left' =>
      if negb (successful ghsi) then emit EvSleep ;;; retryFrom envs (S n) left'
      else ret tt
  | O => ret tt
  end.

Definition doSubscriptionWithRetries `{!ApiConstants} (envs : nat -> Env) (retries : Z) : M unit :=
  if retries <? 0 then ret tt else retryFrom envs 0 (Z.to_nat retries).

(** [n] ticks, one after the other, in the same environment; the result of
    the last one. *)
Fixpoint ticks `{!ApiConstants} (env : Env) (n : nat) (s : SubscriberItem)
  : outcome (option error) * SubscriberItem * list Event :=
  match n with
  | O => (Returns None, s, [])
  | S n' => doSubscription env (after (ticks env n' s))
  end.

End Git.

(** ** What the trace of the retry loop shows *)
Module GitTraces.
Import Git.

(** The status updates of the subscription, in order, and the number of
    sleeps. *)
Definition statuses (t : list Event) : list (Phase * string) :=
  omap (fun e => match e with
                 | EvUpdateSubscriptionStatus phase msg => Some (phase, msg)
                 | _ => None
                 end) t.

Definition sleeps (t : list Event) : nat :=
  length (omap (fun e => match e with EvSleep => Some tt | _ => None end) t).

(** The events of one tick: anything but the status of the subscription and
    the sleep between two attempts. *)
Definition isTickEvent (e : Event) : Prop :=
  match e with
  | EvUpdateSubscriptionStatus _ _ | EvSleep => False
  | _ => True
  end.

(** Any two items are related. *)
Definition anyItem (s s1 : SubscriberItem) : Prop := True.

(** The second item is the first with resources appended to its list. *)
Definition grows (s s1 : SubscriberItem) : Prop :=
  exists extra, s1 = set_resources (resources s ++ extra)%list s.

(** The events of the file buckets and of the chart bucket. *)
Definition isReadEvent (e : Event) : Prop :=
  match e with
  | EvReadFile _ | EvCreateHelmCRManifest _ => True
  | _ => False
  end.

End GitTraces.

(** ** Starting and stopping the subscriber item *)
Module Lifecycle.
Import Git.

(** The item with its stop channel.  Channels are numbered in the order
    they are made; [closed] holds the closed ones, and [loops] the channel
    each goroutine started with [wait.Until] runs until the close of. *)
Record Runner := {
  item : SubscriberItem;
  stopch : option nat;
  made : nat;
  closed : gset nat;
  loops : list nat;
}.

Definition close_of_nil_channel : string := "close of nil channel".
Definition close_of_closed_channel : string := "close of closed channel".

(** [close(ch)] *)
Definition close (ch : option nat) (r : Runner) : outcome unit * Runner :=
  match ch with
  | None => (Panics close_of_nil_channel, r)
  | Some c =>
      if decide (c ∈ closed r) then (Panics close_of_closed_channel, r)
      else (Returns tt, {| item := item r; stopch := stopch r; made := made r;
                           closed := {[c]} ∪ closed r; loops := loops r |})
  end.

Definition Stop (r : Runner) : outcome unit * Runner := close (stopch r) r.

Section Start.
(** The attempts of a run take place in the environments [envs]; the number
    of retries is that of [utils.GetReconcileInterval]. *)
Context `{!ApiConstants} (envs : nat -> Env) (GetReconcileInterval : string -> string -> Z).

(** [Start] from the reset of the counter on. *)
Definition launch (r : Runner) : outcome unit * Runner * list Event :=
  let ghsi := set_count 0 (item r) in
  let ch := made r in
  let retries := GetReconcileInterval (reconcileRate ghsi) ChannelTypeGit in
  if EqualFold (reconcileRate ghsi) "off" then
    let '(res, ghsi', t) := doSubscriptionWithRetries envs retries ghsi in
    (res, {| item := ghsi'; stopch := Some ch; made := S ch; closed := closed r;
             loops := loops r |}, t)
  else
    (Returns tt, {| item := ghsi; stopch := Some ch; made := S ch; closed := closed r;
                    loops := (loops r ++ [ch])%list |}, []).

Definition Start (restart : bool) (r : Runner) : outcome unit * Runner * list Event :=
  match stopch r with
  | Some _ =>
      if restart then
        match Stop r with
        | (Panics why, r1) => (Panics why, r1, [])
        | (Returns _, r1) => launch r1
        end
      else (Returns tt, r, [])
  | None => launch r
  end.

(** An item that was never started, and the runners that calls of [Start]
    and [Stop] lead to from it. *)
Definition fresh (ghsi : SubscriberItem) : Runner :=
  {| item := ghsi; stopch := None; made := 0; closed := ∅; loops := [] |}.

Inductive reachable (ghsi : SubscriberItem) : Runner -> Prop :=
| reach_fresh : reachable ghsi (fresh ghsi)
| reach_Start restart r r1 t :
    reachable ghsi r -> Start restart r = (Returns tt, r1, t) -> reachable ghsi r1
| reach_Stop r r1 :
    reachable ghsi r -> Stop r = (Returns tt, r1) -> reachable ghsi r1.

End Start.

(** The goroutines that have not been told to stop. *)
Definition live (r : Runner) : list nat := filter (fun c => c ∉ closed r) (loops r).

(** Every channel in use has been made, the loops have channels of their
    own, and a loop that has not been told to stop waits on the channel of
    the item. *)
Definition consistent (r : Runner) : Prop :=
  (forall c, stopch r = Some c -> (c < made r)%nat) /\
  (forall c, c ∈ loops r -> (c < made r)%nat) /\
  (forall c, c ∈ loops r -> c ∉ closed r -> stopch r = Some c) /\
  NoDup (loops r).

End Lifecycle.

(** * Concrete runs *)

(** ** A registry, a cluster and a ledger *)
Module HubRuns.
Import Hub.

(** Modelled from the spec: the methods of [JobInstances] are declared with
    the type, in another file of the package.  Following the spec,
    registering appends one entry per template under the suffix of the
    subscription's revision, applying submits the entries and leaves the
    ledger as it is, the slot is complete iff every tracked instance reports
    the success sentinel, and the last applied instance is the most recently
    appended entry. *)
Definition ledger : JobInstancesMethods := {|
  registryJobs := fun hks sub suffixFunc jobs =>
    ((hks ++ map (fun j => {| entrySuffix := suffixFunc sub;
                              entryInstance := j;
                              entryTemplate := {| Namespace := jobNamespace j; Name := jobName j |} |})
                 jobs)%list, None);
  applyJobs := fun hks _ => (hks, None);
  isJobsCompleted := fun hks =>
    (forallb (fun e => EqualFold (jobStatus (entryInstance e)) "successful") hks, None);
  outputAppliedJobs := fun hks =>
    match hks with
    | None => {| lastApplied := ""; lastAppliedJobs := [] |}
    | Some l =>
        let names := map (fun e => jobName (entryInstance e) +:+ entrySuffix e) l in
        {| lastApplied := List.last names ""; lastAppliedJobs := names |}
    end;
|}.

Definition appKey : NamespacedName := {| Namespace := "ns1"; Name := "app" |}.
Definition channelKey : NamespacedName := {| Namespace := "ch-ns"; Name := "git-channel" |}.

Definition appSub (generation : Z) : Subscription := {|
  subName := "app"; subNamespace := "ns1"; subGeneration := generation;
  subResourceVersion := "100"; subAnnotations := ∅; subChannel := "ch-ns/git-channel";
|}.

Definition notFound (what : string) : error := mkError true (what +:+ " not found").

(** A cluster that holds the subscription [ns1/app] at the given generation
    and, when [chn] is given, its channel. *)
Definition cluster (generation : Z) (chn : option Channel) : Cluster := {|
  getSubscription := fun k =>
    if decide (k = appKey) then inr (appSub generation) else inl (notFound "subscription");
  getChannel := fun k =>
    match chn with
    | Some c => if decide (k = channelKey) then inr c else inl (notFound "channel")
    | None => inl (notFound "channel")
    end;
  DownloadAnsibleHookResource := fun _ => None;
  GetHooks := fun _ _ => ([], None);
  NamespacedNameFormat := fun _ => channelKey;
|}.

Definition noHooks : AnsibleHooks := {| registry := ∅ |}.

Definition job (name : string) : JobEntry := {|
  entrySuffix := "-1-100";
  entryInstance := {| jobName := name; jobNamespace := "ns1"; jobStatus := "" |};
  entryTemplate := {| Namespace := "ns1"; Name := name |};
|}.

(** A registry in which [ns1/app] has the given two slots. *)
Definition registered (preSlot postSlot : option JobInstances) : AnsibleHooks :=
  {| registry := {[ appKey := {| preHooks := preSlot; postHooks := postSlot; lastSub := appSub 1 |} ]} |}.

End HubRuns.

(** ** A repository, a subscriber item and its environment *)
Module GitRuns.
Import Git.

Definition manifestOf (r : kubeResource) : Manifest :=
  {| typed := inr r; generic := inr {| object := r; body := "" |} |}.

Definition deployment : kubeResource := {|
  APIVersion := "apps/v1"; Kind := "Deployment"; rscName := "web"; rscNamespace := "";
  Labels := None; Annotations := None;
|}.

(** A subscription that grants itself cluster-admin. *)
Definition adminSubscription : kubeResource := {|
  APIVersion := "apps.open-cluster-management.io/v1"; Kind := "Subscription";
  rscName := "child"; rscNamespace := "";
  Labels := None;
  Annotations := Some {[ "apps.open-cluster-management.io/cluster-admin" := "true" ]};
|}.

Definition helmRelease (name : string) : Unstructured := {|
  object := {| APIVersion := "apps.open-cluster-management.io/v1"; Kind := "HelmRelease";
               rscName := name; rscNamespace := "ns1"; Labels := None; Annotations := None |};
  body := "";
|}.

Definition failure (msg : string) : error := mkError false msg.

(** A repository: its commit, its classification, the documents of its
    files, the renderings of its Kustomize roots and its charts; and whether
    the synchronizer accepts the resources. *)
Record Repo := {
  head : string;
  sorted : Sorted;
  files : string -> error + list Manifest;
  renderings : string -> error + list Manifest;
  charts : list (string * string);
  accepted : option error;
}.

Definition envOf (r : Repo) : Env := {|
  IsResourceNamespaced := fun _ => true;
  LabelChecker := fun _ _ => true;
  OverrideResourceBySubscription := fun rsc _ _ => (rsc, None);
  SetInClusterPackageStatus := fun _ _ => None;
  SetPartOfLabel := fun _ rsc => rsc;
  Join := fun a b => a +:+ "/" +:+ b;
  GetLocalGitFolder := fun _ => "/tmp/ns1/app";
  GetSubscriptionBranch := fun _ => "main";
  FetchChannelReferences := fun _ _ => (None, None);
  ListAndDeployReferredObject := fun _ _ => None;
  CloneGitRepo := fun _ => inr (head r);
  GetConfigMap := fun _ => inl (mkError true "configmap not found");
  SortResources := fun _ _ => inr (sorted r);
  GenerateHelmIndexFile := fun _ _ _ => inr {| Entries := charts r |};
  ReadFile := files r;
  VerifyAndOverrideKustomize := fun _ _ _ => None;
  RunKustomizeBuild := renderings r;
  CreateHelmCRManifest := fun name _ _ _ => inr (helmRelease name);
  UpdateAppsubOverallStatus := fun _ _ _ => None;
  ProcessSubResources := fun _ _ _ => accepted r;
|}.

Definition noFile : string -> error + list Manifest := fun _ => inl (failure "no such file").

(** One deployment in [deploy.yaml]. *)
Definition plainRepo (accepted : option error) : Repo := {|
  head := "abc";
  sorted := {| sortedChartDirs := []; sortedKustomizeDirs := [];
               sortedCrdsAndNamespaceFiles := []; sortedRbacFiles := [];
               sortedOtherFiles := ["/tmp/ns1/app/deploy.yaml"] |};
  files := fun f => if String.eqb f "/tmp/ns1/app/deploy.yaml" then inr [manifestOf deployment]
                    else inl (failure "no such file");
  renderings := noFile;
  charts := [];
  accepted := accepted;
|}.

(** One Kustomize root whose rendering holds [adminSubscription]. *)
Definition nestedAdminRepo : Repo := {|
  head := "abc";
  sorted := {| sortedChartDirs := [];
               sortedKustomizeDirs := [("/tmp/ns1/app/overlay", "/tmp/ns1/app/overlay")];
               sortedCrdsAndNamespaceFiles := []; sortedRbacFiles := [];
               sortedOtherFiles := [] |};
  files := noFile;
  renderings := fun _ => inr [manifestOf adminSubscription];
  charts := [];
  accepted := None;
|}.

(** One deployment, one Kustomize root whose build fails, and one chart. *)
Definition brokenKustomizeRepo (charts : list (string * string)) : Repo := {|
  head := "abc";
  sorted := {| sortedChartDirs := map (fun c => (c.1, "/tmp/ns1/app/" +:+ c.1)) charts;
               sortedKustomizeDirs := [("/tmp/ns1/app/overlay", "/tmp/ns1/app/overlay")];
               sortedCrdsAndNamespaceFiles := []; sortedRbacFiles := [];
               sortedOtherFiles := ["/tmp/ns1/app/deploy.yaml"] |};
  files := fun f => if String.eqb f "/tmp/ns1/app/deploy.yaml" then inr [manifestOf deployment]
                    else inl (failure "no such file");
  renderings := fun _ => inl (failure "kustomize build failed");
  charts := charts;
  accepted := None;
|}.

Definition appSubscription : Subscription := {|
  subName := "app"; subNamespace := "ns1"; subAnnotations := None;
  specPackage := ""; specPackageFilter := None; specPackageOverrides := None;
|}.

(** The subscriber item of [ns1/app] as [Start] leaves it, with the given
    reconcile rate. *)
Definition started (rate : string) : SubscriberItem := {|
  base := {| Subscription_ := appSubscription; SubscriptionConfigMap := None;
             Channel_ := Some {| Pathname := "https://git.example/app.git";
                                 InsecureSkipVerify := false |};
             ChannelSecret := None; ChannelConfigMap := None; SecondaryChannel := None;
             SecondaryChannelSecret := None; SecondaryChannelConfigMap := None |};
  crdsAndNamespaceFiles := []; rbacFiles := []; otherFiles := [];
  repoRoot := ""; commitID := ""; reconcileRate := rate; desiredCommit := "";
  desiredTag := ""; count := 0; chartDirs := []; kustomizeDirs := []; resources := [];
  indexFile := None; webhookEnabled := false; successful := false; clusterAdmin := false;
  currentNamespaceScoped := false; userID := "alice"; userGroup := "devs";
|}.

(** What the synchronizer is handed for a resource of the repository: the
    object in the namespace of the subscription. *)
Definition unitOf (r : kubeResource) : ResourceUnit := {|
  Resource := {| object := {| APIVersion := APIVersion r; Kind := Kind r; rscName := rscName r;
                              rscNamespace := "ns1"; Labels := Labels r;
                              Annotations := Annotations r |};
                 body := "" |};
  Gvk := FromAPIVersionAndKind (APIVersion r) (Kind r);
|}.

(** Files that cannot be read and a Kustomize root that does not build. *)
Definition unreadableRepo : Repo := {|
  head := "abc";
  sorted := {| sortedChartDirs := [];
               sortedKustomizeDirs := [("/tmp/ns1/app/overlay", "/tmp/ns1/app/overlay")];
               sortedCrdsAndNamespaceFiles := ["/tmp/ns1/app/crd.yaml"];
               sortedRbacFiles := ["/tmp/ns1/app/role.yaml"];
               sortedOtherFiles := [] |};
  files := fun f => inl (failure ("open " +:+ f +:+ ": permission denied"));
  renderings := fun _ => inl (failure "kustomize build failed");
  charts := [];
  accepted := None;
|}.

End GitRuns.

(** * Watch predicates of the placement controller *)
Module Predicates.

Definition ACMClusterSecretLabel : string := "apps.open-cluster-management.io/secret-type".
Definition ArgocdClusterSecretLabel : string := "apps.open-cluster-management.io/acm-cluster".
Definition ACMClusterNameLabel : string := "apps.open-cluster-management.io/cluster-name".

(** [metav1.Condition]; a time is a number. *)
Record Condition := {
  condType : string;
  condStatus : string;
  condLastTransitionTime : Z;
  condReason : string;
  condMessage : string;
}.

(** The fields of a [ManagedCluster] the predicate reads.  The deletion
    timestamp is a pointer and the labels are a map that may be nil:
    [reflect.DeepEqual] tells nil from empty. *)
Record ManagedCluster := {
  mcName : string;
  mcDeletionTimestamp : option Z;
  mcLabels : option (gmap string string);
  mcConditions : list Condition;
}.

(** [oldcondMap] after the first loop: a later condition of a type
    overwrites an earlier one. *)
Definition conditionMap (conds : list Condition) : gmap string string :=
  foldl (fun m cond => <[condType cond := condStatus cond]> m) ∅ conds.

(** The second loop of [UpdateFunc] and the test that follows it. *)
Fixpoint conditionsChanged (oldcondMap : gmap string string) (conds : list Condition) : bool :=
  match conds with
  | [] => negb (Nat.eqb (size oldcondMap) 0)
  | cond :: rest =>
      match oldcondMap !! condType cond with
      | None => true
      | Some oldcondst =>
          if negb (String.eqb oldcondst (condStatus cond)) then true
          else conditionsChanged (delete (condType cond) oldcondMap) rest
      end
  end.

(** [ClusterPredicateFunc] *)
Definition ClusterCreateFunc (newManagedCluster : ManagedCluster) : bool := true.

Definition ClusterUpdateFunc (oldcl newcl : ManagedCluster) : bool :=
  if negb (bool_decide (mcDeletionTimestamp oldcl = mcDeletionTimestamp newcl)) then true
  else if negb (bool_decide (mcLabels oldcl = mcLabels newcl)) then true
  else conditionsChanged (conditionMap (mcConditions oldcl)) (mcConditions newcl).

(** An object with labels: a [Secret] or a [Service]. *)
Record Labelled := { objName : string; objNamespace : string; objLabels : option (gmap string string) }.

Definition GetLabels (o : Labelled) : gmap string string := default ∅ (objLabels o).

(** [v, ok := m[k]; ok && v == want] *)
Definition labelIs (o : Labelled) (k want : string) : bool :=
  match GetLabels o !! k with
  | Some v => String.eqb v want
  | None => false
  end.

(** [AcmClusterSecretPredicateFunc] *)
Definition AcmUpdateFunc (oldSecret newSecret : Labelled) : bool :=
  if labelIs oldSecret ACMClusterSecretLabel "acm-cluster" then true
  else if labelIs newSecret ACMClusterSecretLabel "acm-cluster" then true
  else false.

Definition AcmCreateFunc (o : Labelled) : bool :=
  match GetLabels o !! ACMClusterSecretLabel with
  | None => false
  | Some SecretType => if negb (String.eqb SecretType "acm-cluster") then false else true
  end.

Definition AcmDeleteFunc (o : Labelled) : bool :=
  match GetLabels o !! ACMClusterSecretLabel with
  | None => false
  | Some SecretType => if negb (String.eqb SecretType "acm-cluster") then false else true
  end.

(** [ArgocdClusterSecretPredicateFunc] *)
Definition ArgocdUpdateFunc (oldSecret newSecret : Labelled) : bool :=
  if labelIs oldSecret ArgocdClusterSecretLabel "true" then true
  else if labelIs newSecret ArgocdClusterSecretLabel "true" then true
  else false.

Definition ArgocdCreateFunc (o : Labelled) : bool :=
  match GetLabels o !! ArgocdClusterSecretLabel with
  | None => false
  | Some SecretType => if negb (String.eqb SecretType "true") then false else true
  end.

Definition ArgocdDeleteFunc (o : Labelled) : bool :=
  match GetLabels o !! ArgocdClusterSecretLabel with
  | None => false
  | Some SecretType => if negb (String.eqb SecretType "true") then false else true
  end.

(** [ManagedClusterSecretPredicateFunc] *)
Definition isSecretInArgo (o : Labelled) : bool :=
  bool_decide (is_Some (GetLabels o !! ArgocdClusterSecretLabel)).

Definition ManagedSecretUpdateFunc (oldSecret newSecret : Labelled) : bool :=
  if isSecretInArgo newSecret then false else true.

Definition ManagedSecretCreateFunc (o : Labelled) : bool :=
  if isSecretInArgo o then false else true.

Definition ManagedSecretDeleteFunc (o : Labelled) : bool :=
  if isSecretInArgo o then true else false.

(** [ArgocdServerPredicateFunc] *)
Definition isArgocdServer (labels : option (gmap string string)) : bool :=
  match labels with
  | None => false
  | Some l =>
      String.eqb (get l "app.kubernetes.io/part-of") "argocd"
      && String.eqb (get l "app.kubernetes.io/component") "server"
  end.

Definition ArgocdServerUpdateFunc (oldService newService : Labelled) : bool :=
  if isArgocdServer (objLabels oldService) then true
  else if isArgocdServer (objLabels newService) then true
  else false.

Definition ArgocdServerCreateFunc (o : Labelled) : bool :=
  match objLabels o with
  | None => false
  | Some l =>
      if negb (String.eqb (get l "app.kubernetes.io/part-of") "argocd")
         || negb (String.eqb (get l "app.kubernetes.io/component") "server")
      then false else true
  end.

Definition ArgocdServerDeleteFunc (o : Labelled) : bool :=
  match objLabels o with
  | None => false
  | Some l =>
      if negb (String.eqb (get l "app.kubernetes.io/part-of") "argocd")
         || negb (String.eqb (get l "app.kubernetes.io/component") "server")
      then false else true
  end.

(** The type and status of each condition, in order. *)
Definition statusPairs (conds : list Condition) : list (string * string) :=
  (fun cond => (condType cond, condStatus cond)) <$> conds.

End Predicates.

(** * The add-on manager *)
Module Addon.

Definition AnnotationKlusterletDeployMode : string :=
  "import.open-cluster-management.io/klusterlet-deploy-mode".
Definition AnnotationKlusterletHostingClusterName : string :=
  "import.open-cluster-management.io/hosting-cluster-name".
Definition AnnotationEnableHostedModeAddons : string :=
  "addon.open-cluster-management.io/enable-hosted-mode-addons".

(** The fields of a [ManagedCluster] and of a [ManagedClusterAddOn] that are
    read. *)
Record ManagedCluster := {
  clusterName : string;
  clusterLabels : option (gmap string string);
  clusterAnnotations : option (gmap string string);
}.

Record ManagedClusterAddOn := { addonName : string; addonNamespace : string }.

Definition HostedClusterInfo (cluster : ManagedCluster) : string * string :=
  let annotations := default ∅ (clusterAnnotations cluster) in
  if Nat.eqb (size annotations) 0 then ("Default", "")
  else if negb (String.eqb (get annotations AnnotationEnableHostedModeAddons) "true")
  then ("Default", "")
  else if negb (String.eqb (get annotations AnnotationKlusterletDeployMode) "Hosted")
  then ("Default", "")
  else
    match annotations !! AnnotationKlusterletHostingClusterName with
    | None => ("Default", "")
    | Some hostingClusterName =>
        if Nat.eqb (String.length hostingClusterName) 0 then ("Default", "")
        else ("Hosted", hostingClusterName)
    end.

(** [AddonInstallNamespaceFunc]: the cluster client and the reader of the
    deployment configuration are given by what they answer. *)
Definition AddonInstallNamespaceFunc
    (getCluster : string -> error + ManagedCluster)
    (AgentInstallNamespaceFromDeploymentConfig : ManagedClusterAddOn -> string * option error)
    (addon : ManagedClusterAddOn) : string * option error :=
  match getCluster (addonNamespace addon) with
  | inl err => ("", Some err)
  | inr cluster =>
      let '(mode, _) := HostedClusterInfo cluster in
      if String.eqb mode "Hosted" then ("klusterlet-" +:+ addonNamespace addon, None)
      else
        let '(addonNS, err) := AgentInstallNamespaceFromDeploymentConfig addon in
        match err with
        | None =>
            if String.eqb addonNS "" then ("open-cluster-management-agent-addon", None)
            else (addonNS, None)
        | Some _ => (addonNS, err)
        end
  end.

(** [CustomizedVariable] *)
Record CustomizedVariable := { varName : string; varValue : string }.

(** The memory settings of [toAddonResources]. *)
Record Resources := { RequestsMemory : string; LimitsMemory : string }.

Definition setVariable (r : Resources) (variable : CustomizedVariable) : Resources :=
  let r1 :=
    if String.eqb (varName variable) "RequestMemory"
    then {| RequestsMemory := varValue variable; LimitsMemory := LimitsMemory r |}
    else r in
  if String.eqb (varName variable) "LimitsMemory"
  then {| RequestsMemory := RequestsMemory r1; LimitsMemory := varValue variable |}
  else r1.

(** [toAddonResources]; the conversion of the structure into values is
    [JsonStructToValues]. *)
Definition toAddonResources {V : Type} (JsonStructToValues : Resources -> error + V)
    (CustomizedVariables : list CustomizedVariable) : error + V :=
  JsonStructToValues
    (foldl setVariable {| RequestsMemory := "128Mi"; LimitsMemory := "2Gi" |}
           CustomizedVariables).

(** The value of the last variable of a name, or a default. *)
Definition lastValue (name default : string) (vars : list CustomizedVariable) : string :=
  List.last (varValue <$> filter (fun v => varName v = name) vars) default.

(** A config map of the hub's image manifests. *)
Record ConfigMap := {
  cmName : string;
  cmLabels : gmap string string;
  cmData : gmap string string;
}.

(** The loop of [GetMchImage] over the config maps: the newest version seen
    so far and its image.  Versions are those of the semver library, given
    by its parser and its order. *)
Section MchImage.
Context {Version : Type} (NewVersion : string -> option Version)
        (LessThan : Version -> Version -> bool).

Definition pickImage (acc : option Version * string) (cm : ConfigMap)
  : option Version * string :=
  let '(newestVersion, image) := acc in
  let _version := get (cmLabels cm) "ocm-release-version" in
  if String.eqb _version "" then acc
  else
    match NewVersion _version with
    | None => acc
    | Some currentVersion =>
        let newer :=
          match newestVersion with
          | None => true
          | Some newest => LessThan newest currentVersion
          end in
        if newer then
          let currentImage := get (cmData cm) "multicluster_operators_subscription" in
          if String.eqb currentImage "" then acc
          else (Some currentVersion, currentImage)
        else acc
    end.

(** [GetMchImage], from the answer of the list call on. *)
Definition GetMchImage (listed : error + list ConfigMap) : string * option error :=
  match listed with
  | inl err => if IsNotFound err then ("", None) else ("", Some err)
  | inr items => ((foldl pickImage (None, "") items).2, None)
  end.

(** What a config map offers: its release version and its image, when the
    version label is set and parses and the image is not empty. *)
Definition offer (cm : ConfigMap) : option (Version * string) :=
  let _version := get (cmLabels cm) "ocm-release-version" in
  let currentImage := get (cmData cm) "multicluster_operators_subscription" in
  if String.eqb _version "" then None
  else match NewVersion _version with
       | None => None
       | Some currentVersion =>
           if String.eqb currentImage "" then None else Some (currentVersion, currentImage)
       end.

Definition newest (seen : list ConfigMap) (acc : option Version * string) : Prop :=
  match acc with
  | (None, image) => image = "" /\ forall cm, cm ∈ seen -> offer cm = None
  | (Some v, image) =>
      (exists cm, cm ∈ seen /\ offer cm = Some (v, image)) /\
      forall cm v' image', cm ∈ seen -> offer cm = Some (v', image') -> LessThan v v' = false
  end.

End MchImage.

End Addon.

(** * Hook jobs and their target clusters *)
Module HookJobs.

(** [corev1.ObjectReference], the fields that are read. *)
Record ObjectReference := { refKind : string; refAPIVersion : string; refName : string }.

(** [Placement]: the reference to a placement rule and the [Local] flag;
    the generic placement fields are read by the placement library only. *)
Record Placement := { PlacementRef : option ObjectReference; Local : option bool }.

Record Subscription := {
  subName : string;
  subNamespace : string;
  HookSecretRef : option ObjectReference;
  specPlacement : option Placement;
}.

(** A decision of a placement rule's status. *)
Record Decision := { ClusterName : string; ClusterNamespace : string }.

(** A placement reference the hub does not support: a kind other than
    [PlacementRule], or an API version other than that of the rules. *)
Definition unsupported (pref : ObjectReference) : Prop :=
  (refKind pref <> "" /\ refKind pref <> "PlacementRule") \/
  (refAPIVersion pref <> "" /\ refAPIVersion pref <> "apps.open-cluster-management.io/v1").

Definition target_clusters : string := "target_clusters".

Definition assignment_to_nil_map : string := "assignment to entry in nil map".

(** The subscription is placed on remote clusters: it has a placement,
    and the placement is not local. *)
Definition remotePlacement (specPlacement : option Placement) : Prop :=
  exists placement, specPlacement = Some placement /\ Local placement <> Some true.

Section Jobs.
(** The status of a job, the owner references of the API machinery and the
    values of a decoded JSON object are those of their libraries. *)
Context {JobStatus OwnerReference Value : Type}.

Record AnsibleJob := {
  jobNamespace : string;
  jobResourceVersion : string;
  jobAnnotations : option (gmap string string);
  jobOwnerReferences : list OwnerReference;
  TowerAuthSecretName : string;
  ExtraVars : option (list Byte.byte);
  Status : JobStatus;
}.

(** The collaborators: the cluster client reading a placement rule, the
    placement library (the names of the clusters of its map, in the order
    the map is ranged over), [encoding/json] and [metav1.NewControllerRef].
    [Unmarshal] is [json.Unmarshal] into a map that was made empty: it
    answers with an error, or with the map afterwards, which is [nil]
    ([None]) when the document is the JSON value [null]. *)
Record Env := {
  getPlacementRule : NamespacedName -> error + list Decision;
  PlaceByGenericPlacmentFields : Subscription -> error + list string;
  Unmarshal : list Byte.byte -> error + option (gmap string Value);
  Marshal : gmap string Value -> error + list Byte.byte;
  stringsValue : list string -> Value;
  NewControllerRef : Subscription -> OwnerReference;
  zeroStatus : JobStatus;
  AnnotationHosting : string;
}.

Context (env : Env).

Definition GetReferenceString (ref : ObjectReference) : string := refName ref.

(** [subKey.String()] is the namespace, a slash and the name. *)
Definition addingHostingSubscriptionAnno (job : AnsibleJob) (subKey : NamespacedName)
  : AnsibleJob :=
  let a := default ∅ (jobAnnotations job) in
  let a := if Nat.eqb (size a) 0 then ∅ else a in
  let a := <[AnnotationHosting env := Namespace subKey +:+ "/" +:+ Name subKey]> a in
  {| jobNamespace := jobNamespace job; jobResourceVersion := jobResourceVersion job;
     jobAnnotations := Some a; jobOwnerReferences := jobOwnerReferences job;
     TowerAuthSecretName := TowerAuthSecretName job; ExtraVars := ExtraVars job;
     Status := Status job |}.

Definition getClustersFromPlacementRef (instance : Subscription)
  : outcome (list NamespacedName * option error) :=
  match specPlacement instance with
  | None => Panics nil_dereference
  | Some placement =>
      match PlacementRef placement with
      | None => Panics nil_dereference
      | Some pref =>
          if (Nat.ltb 0 (String.length (refKind pref))
              && negb (String.eqb (refKind pref) "PlacementRule"))
             || (Nat.ltb 0 (String.length (refAPIVersion pref))
                 && negb (String.eqb (refAPIVersion pref) "apps.open-cluster-management.io/v1"))
          then Returns ([], None)
          else
            match getPlacementRule env {| Name := refName pref;
                                          Namespace := subNamespace instance |} with
            | inl err => Returns ([], Some err)
            | inr decisions =>
                Returns (map (fun decision => {| Name := ClusterName decision;
                                                 Namespace := ClusterNamespace decision |})
                             decisions, None)
            end
      end
  end.

Definition getClustersByPlacement (instance : Subscription)
  : outcome (list NamespacedName * option error) :=
  match specPlacement instance with
  | None => Panics nil_dereference
  | Some placement =>
      match PlacementRef placement with
      | Some _ =>
          match getClustersFromPlacementRef instance with
          | Panics why => Panics why
          | Returns (clusters, Some err) => Returns ([], Some err)
          | Returns (clusters, None) => Returns (clusters, None)
          end
      | None =>
          match PlaceByGenericPlacmentFields env instance with
          | inl err => Returns ([], Some err)
          | inr clustermap =>
              Returns (map (fun cl => {| Name := cl; Namespace := cl |}) clustermap, None)
          end
      end
  end.

Definition set_ExtraVars (job : AnsibleJob) (extraVars : option (list Byte.byte)) : AnsibleJob :=
  {| jobNamespace := jobNamespace job; jobResourceVersion := jobResourceVersion job;
     jobAnnotations := jobAnnotations job; jobOwnerReferences := jobOwnerReferences job;
     TowerAuthSecretName := TowerAuthSecretName job; ExtraVars := extraVars;
     Status := Status job |}.

(** The part of [overrideAnsibleInstance] that writes the target clusters
    into the extra variables of the job.  The assignment
    [extraVarsMap["target_clusters"] = targetClusters] panics when decoding
    has left the map [nil]. *)
Definition setTargetClusters (job : AnsibleJob) (clusters : list NamespacedName)
  : outcome (AnsibleJob * option error) :=
  if Nat.ltb 0 (length clusters) then
    let targetClusters := map Name clusters in
    let decoded :=
      match ExtraVars job with
      | Some raw => Unmarshal env raw
      | None => inr (Some ∅)
      end in
    match decoded with
    | inl err => Returns (job, Some err)
    | inr None => Panics assignment_to_nil_map
    | inr (Some extraVarsMap) =>
        match Marshal env (<[target_clusters := stringsValue env targetClusters]> extraVarsMap) with
        | inl err => Returns (job, Some err)
        | inr extraVars => Returns (set_ExtraVars job (Some extraVars), None)
        end
    end
  else Returns (job, None).

Definition overrideAnsibleInstance (subIns : Subscription) (job : AnsibleJob)
  : outcome (AnsibleJob * option error) :=
  let job :=
    {| jobNamespace := jobNamespace job; jobResourceVersion := "";
       jobAnnotations := jobAnnotations job; jobOwnerReferences := jobOwnerReferences job;
       TowerAuthSecretName :=
         match HookSecretRef subIns with
         | Some ref => GetReferenceString ref
         | None => TowerAuthSecretName job
         end;
       ExtraVars := ExtraVars job;
       Status := zeroStatus env |} in
  let remote :=
    match specPlacement subIns with
    | Some placement =>
        match Local placement with
        | None => true
        | Some local => negb local
        end
    | None => false
    end in
  let targeted : outcome (AnsibleJob * option error) :=
    if remote then
      match getClustersByPlacement subIns with
      | Panics why => Panics why
      | Returns (clusters, Some err) => Returns (job, Some err)
      | Returns (clusters, None) => setTargetClusters job clusters
      end
    else Returns (job, None) in
  match targeted with
  | Panics why => Panics why
  | Returns (job, Some err) => Returns (job, Some err)
  | Returns (job, None) =>
      let job :=
        {| jobNamespace := subNamespace subIns; jobResourceVersion := jobResourceVersion job;
           jobAnnotations := jobAnnotations job;
           jobOwnerReferences := [NewControllerRef env subIns];
           TowerAuthSecretName := TowerAuthSecretName job; ExtraVars := ExtraVars job;
           Status := Status job |} in
      Returns (addingHostingSubscriptionAnno job
                 {| Name := subName subIns; Namespace := subNamespace subIns |}, None)
  end.

End Jobs.

Arguments AnsibleJob : clear implicits.
Arguments Env : clear implicits.

End HookJobs.

(** ** Clusters, add-ons, hook jobs and an unreachable repository *)
Module Scenarios.

(** A managed cluster that reports twice: the second report lists the
    conditions in another order and with later transition times. *)
Definition condition (type status : string) (time : Z) : Predicates.Condition :=
  {| Predicates.condType := type; Predicates.condStatus := status;
     Predicates.condLastTransitionTime := time;
     Predicates.condReason := ""; Predicates.condMessage := "" |}.

Definition reported (conds : list Predicates.Condition) : Predicates.ManagedCluster :=
  {| Predicates.mcName := "cluster1"; Predicates.mcDeletionTimestamp := None;
     Predicates.mcLabels := Some {[ "name" := "cluster1" ]};
     Predicates.mcConditions := conds |}.

Definition firstReport : Predicates.ManagedCluster :=
  reported [condition "ManagedClusterJoined" "True" 10;
            condition "ManagedClusterConditionAvailable" "True" 10].

Definition secondReport : Predicates.ManagedCluster :=
  reported [condition "ManagedClusterConditionAvailable" "True" 70;
            condition "ManagedClusterJoined" "True" 10].

(** A hosted cluster and the add-on installed for it. *)
Definition hostedCluster : Addon.ManagedCluster :=
  {| Addon.clusterName := "cluster1"; Addon.clusterLabels := None;
     Addon.clusterAnnotations :=
       Some (<[Addon.AnnotationEnableHostedModeAddons := "true"]>
               (<[Addon.AnnotationKlusterletDeployMode := "Hosted"]>
                  {[ Addon.AnnotationKlusterletHostingClusterName := "hosting" ]})) |}.

Definition appAddon : Addon.ManagedClusterAddOn :=
  {| Addon.addonName := "application-manager"; Addon.addonNamespace := "cluster1" |}.

(** Image manifests of three releases; versions are compared by their
    minor number. *)
Definition manifestOf (version image : string) : Addon.ConfigMap :=
  {| Addon.cmName := "mch-image-manifest-" +:+ version;
     Addon.cmLabels := {[ "ocm-release-version" := version ]};
     Addon.cmData := {[ "multicluster_operators_subscription" := image ]} |}.

Definition minorOf (version : string) : option nat :=
  match version with
  | String "2" (String "." (String minor EmptyString)) => Some (nat_of_ascii minor)
  | _ => None
  end.

Definition imageManifests : list Addon.ConfigMap :=
  [manifestOf "2.4" "quay.io/sub:2.4"; manifestOf "2.6" "quay.io/sub:2.6";
   manifestOf "latest" "quay.io/sub:latest"; manifestOf "2.5" "quay.io/sub:2.5"].

(** A cluster in which the repository of [ns1/app] holds one pre-hook
    template. *)
Definition hookCluster : Hub.Cluster := {|
  Hub.getSubscription := fun k =>
    if decide (k = HubRuns.appKey) then inr (HubRuns.appSub 2)
    else inl (HubRuns.notFound "subscription");
  Hub.getChannel := fun _ => inr {| Hub.chnType := "Git" |};
  Hub.DownloadAnsibleHookResource := fun _ => None;
  Hub.GetHooks := fun _ path =>
    if String.eqb path "/prehook"
    then ([{| Hub.jobName := "notify"; Hub.jobNamespace := "ns1"; Hub.jobStatus := "" |}], None)
    else ([], None);
  Hub.NamespacedNameFormat := fun _ => HubRuns.channelKey;
|}.

Definition otherKey : NamespacedName := {| Namespace := "ns2"; Name := "other" |}.

(** A registry that holds [ns2/other]. *)
Definition otherRegistered : Hub.AnsibleHooks :=
  {| Hub.registry := {[ otherKey := {| Hub.preHooks := Some []; Hub.postHooks := Some [];
                                       Hub.lastSub := HubRuns.appSub 1 |} ]} |}.

(** Hook jobs: a status is its result, an owner reference the name of the
    owner, and JSON values are lists of strings; the encoding of an object
    lists its keys. *)
Definition jobsEnv (decisions : list HookJobs.Decision)
  : HookJobs.Env string string (list string) := {|
  HookJobs.getPlacementRule := fun _ => inr decisions;
  HookJobs.PlaceByGenericPlacmentFields := fun _ => inr [];
  HookJobs.Unmarshal := fun raw =>
    if String.eqb (String.string_of_list_byte raw) "null" then inr None
    else inr (Some {[ "job_tags" := ["deploy"] ]});
  HookJobs.Marshal := fun m =>
    inr (concat ((fun kv => String.list_byte_of_string (kv.1 +:+ "=" +:+ String.concat "," kv.2 +:+ ";"))
                   <$> map_to_list m));
  HookJobs.stringsValue := fun l => l;
  HookJobs.NewControllerRef := fun sub => HookJobs.subName sub;
  HookJobs.zeroStatus := "";
  HookJobs.AnnotationHosting := "apps.open-cluster-management.io/hosting-subscription";
|}.

Definition placedBy (kind : string) : HookJobs.Subscription := {|
  HookJobs.subName := "app"; HookJobs.subNamespace := "ns1";
  HookJobs.HookSecretRef := None;
  HookJobs.specPlacement :=
    Some {| HookJobs.PlacementRef :=
              Some {| HookJobs.refKind := kind; HookJobs.refAPIVersion := "";
                      HookJobs.refName := "towhichcluster" |};
            HookJobs.Local := None |};
|}.

Definition hookJob : HookJobs.AnsibleJob string string := {|
  HookJobs.jobNamespace := "default"; HookJobs.jobResourceVersion := "41";
  HookJobs.jobAnnotations := Some {[ "owner" := "ops" ]};
  HookJobs.jobOwnerReferences := [];
  HookJobs.TowerAuthSecretName := "tower"; HookJobs.ExtraVars := None;
  HookJobs.Status := "successful";
|}.

(** The same job with the extra variables [null]. *)
Definition nullVarsJob : HookJobs.AnsibleJob string string := {|
  HookJobs.jobNamespace := "default"; HookJobs.jobResourceVersion := "41";
  HookJobs.jobAnnotations := Some {[ "owner" := "ops" ]};
  HookJobs.jobOwnerReferences := [];
  HookJobs.TowerAuthSecretName := "tower";
  HookJobs.ExtraVars := Some (String.list_byte_of_string "null");
  HookJobs.Status := "successful";
|}.

Definition twoDecisions : list HookJobs.Decision :=
  [{| HookJobs.ClusterName := "cluster2"; HookJobs.ClusterNamespace := "cluster2" |};
   {| HookJobs.ClusterName := "cluster1"; HookJobs.ClusterNamespace := "cluster1" |}].

(** The environment of [plainRepo] with a Git server that cannot be
    reached. *)
Definition offlineEnv : Git.Env :=
  let env := GitRuns.envOf (GitRuns.plainRepo None) in {|
  Git.IsResourceNamespaced := Git.IsResourceNamespaced env;
  Git.LabelChecker := Git.LabelChecker env;
  Git.OverrideResourceBySubscription := Git.OverrideResourceBySubscription env;
  Git.SetInClusterPackageStatus := Git.SetInClusterPackageStatus env;
  Git.SetPartOfLabel := Git.SetPartOfLabel env;
  Git.Join := Git.Join env;
  Git.GetLocalGitFolder := Git.GetLocalGitFolder env;
  Git.GetSubscriptionBranch := Git.GetSubscriptionBranch env;
  Git.FetchChannelReferences := Git.FetchChannelReferences env;
  Git.ListAndDeployReferredObject := Git.ListAndDeployReferredObject env;
  Git.CloneGitRepo := fun _ => inl (GitRuns.failure "connection refused");
  Git.GetConfigMap := Git.GetConfigMap env;
  Git.SortResources := Git.SortResources env;
  Git.GenerateHelmIndexFile := Git.GenerateHelmIndexFile env;
  Git.ReadFile := Git.ReadFile env;
  Git.VerifyAndOverrideKustomize := Git.VerifyAndOverrideKustomize env;
  Git.RunKustomizeBuild := Git.RunKustomizeBuild env;
  Git.CreateHelmCRManifest := Git.CreateHelmCRManifest env;
  Git.UpdateAppsubOverallStatus := Git.UpdateAppsubOverallStatus env;
  Git.ProcessSubResources := Git.ProcessSubResources env;
|}.

(** A server that is reached at the third attempt. *)
Definition flakyEnvs (n : nat) : Git.Env :=
  if Nat.ltb n 2 then offlineEnv else GitRuns.envOf (GitRuns.plainRepo None).

(** The subscription [ns1/app] restricted to the package [db] by a filter. *)
Definition filteredItem : Git.SubscriberItem :=
  Git.with_base (fun b => {|
    Git.Subscription_ :=
      {| Git.subName := "app"; Git.subNamespace := "ns1"; Git.subAnnotations := None;
         Git.specPackage := "db";
         Git.specPackageFilter :=
           Some {| Git.LabelSelector := None; Git.FilterAnnotations := None;
                   Git.FilterRef := None |};
         Git.specPackageOverrides := None |};
    Git.SubscriptionConfigMap := Git.SubscriptionConfigMap b;
    Git.Channel_ := Git.Channel_ b; Git.ChannelSecret := Git.ChannelSecret b;
    Git.ChannelConfigMap := Git.ChannelConfigMap b;
    Git.SecondaryChannel := Git.SecondaryChannel b;
    Git.SecondaryChannelSecret := Git.SecondaryChannelSecret b;
    Git.SecondaryChannelConfigMap := Git.SecondaryChannelConfigMap b |})
    (GitRuns.started "").

(** The item of [ns1/app] with the webhook enabled. *)
Definition webhookItem : Git.SubscriberItem :=
  let s := GitRuns.started "" in {|
  Git.base := Git.base s; Git.crdsAndNamespaceFiles := Git.crdsAndNamespaceFiles s;
  Git.rbacFiles := Git.rbacFiles s; Git.otherFiles := Git.otherFiles s;
  Git.repoRoot := Git.repoRoot s; Git.commitID := Git.commitID s;
  Git.reconcileRate := Git.reconcileRate s; Git.desiredCommit := Git.desiredCommit s;
  Git.desiredTag := Git.desiredTag s; Git.count := Git.count s;
  Git.chartDirs := Git.chartDirs s; Git.kustomizeDirs := Git.kustomizeDirs s;
  Git.resources := Git.resources s; Git.indexFile := Git.indexFile s;
  Git.webhookEnabled := true; Git.successful := Git.successful s;
  Git.clusterAdmin := Git.clusterAdmin s;
  Git.currentNamespaceScoped := Git.currentNamespaceScoped s;
  Git.userID := Git.userID s; Git.userGroup := Git.userGroup s;
|}.

(** The retries of the reconcile rates. *)
Definition retriesOf (rate type : string) : Z := 1.

End Scenarios.

(** * Properties of the hook registry *)

Section HookRegistry.
Import Hub.
Context {consts : ApiConstants} {methods : JobInstancesMethods}.

(** A registered key whose slot is empty is complete, on either side. *)
Lemma hooks_completed_empty_slot (a : AnsibleHooks) (subKey : NamespacedName) (h : Hooks) :
  registry a !! subKey = Some h ->
  (noEntries (preHooks h) = true -> IsPreHooksCompleted a subKey = Returns (true, None)) /\
  (noEntries (postHooks h) = true -> IsPostHooksCompleted a subKey = Returns (true, None)).
Proof.
  intros Hreg. unfold IsPreHooksCompleted, IsPostHooksCompleted, isRegistered.
  rewrite Hreg. rewrite bool_decide_eq_true_2 by eauto. simpl.
  split; intros Hempty.
  - destruct (preHooks h) as [l|]; [|reflexivity]. simpl in Hempty. now rewrite Hempty.
  - destruct (postHooks h) as [l|]; [|reflexivity]. simpl in Hempty. now rewrite Hempty.
Qed.

(** [HasHooks] by cases: asked for the pre side it wants entries in both
    slots, asked for the post side it looks at the post slot only. *)
Lemma HasHooks_registered (a : AnsibleHooks) (subKey : NamespacedName) (h : Hooks) :
  registry a !! subKey = Some h ->
  HasHooks a PreHookType subKey = negb (noEntries (preHooks h)) && negb (noEntries (postHooks h)) /\
  HasHooks a PostHookType subKey = negb (noEntries (postHooks h)).
Proof.
  intros Hreg. unfold HasHooks. rewrite Hreg. simpl.
  destruct (noEntries (preHooks h)), (noEntries (postHooks h)); auto.
Qed.

Lemma HasHooks_unregistered (a : AnsibleHooks) (hookType : string) (subKey : NamespacedName) :
  registry a !! subKey = None -> HasHooks a hookType subKey = false.
Proof. intros Hreg. unfold HasHooks. now rewrite Hreg. Qed.

(** The post side decides on its own slot. *)
Lemma ApplyPostHooks_own_slot (a : AnsibleHooks) (subKey : NamespacedName) (h : Hooks) :
  registry a !! subKey = Some h ->
  if noEntries (postHooks h) then ApplyPostHooks a subKey = (a, [], Returns None)
  else ApplyPostHooks a subKey =
       (storeSlot a subKey PostHookType (applyJobs (postHooks h) (lastSub h)).1,
        [EvApplyJobs PostHookType (postHooks h) (lastSub h)],
        Returns (applyJobs (postHooks h) (lastSub h)).2).
Proof.
  intros Hreg. unfold ApplyPostHooks.
  destruct (HasHooks_registered a subKey h Hreg) as [_ ->].
  destruct (noEntries (postHooks h)); simpl; [reflexivity|].
  rewrite Hreg. now destruct (applyJobs (postHooks h) (lastSub h)).
Qed.

(** With entries in both slots the pre side submits its own slot. *)
Lemma ApplyPreHooks_both_slots (a : AnsibleHooks) (subKey : NamespacedName) (h : Hooks) :
  registry a !! subKey = Some h ->
  noEntries (preHooks h) = false -> noEntries (postHooks h) = false ->
  ApplyPreHooks a subKey =
  (storeSlot a subKey PreHookType (applyJobs (preHooks h) (lastSub h)).1,
   [EvApplyJobs PreHookType (preHooks h) (lastSub h)],
   Returns (applyJobs (preHooks h) (lastSub h)).2).
Proof.
  intros Hreg Hpre Hpost. unfold ApplyPreHooks.
  destruct (HasHooks_registered a subKey h Hreg) as [-> _].
  rewrite Hpre, Hpost. simpl. rewrite Hreg.
  now destruct (applyJobs (preHooks h) (lastSub h)).
Qed.

(** C10: for a key that is not in the registry, and so for a key that has
    just been deregistered, [GetLastAppliedInstance] returns the empty
    [AppliedInstance]: both identifiers are the empty string.  The function
    has no error result and, being total, returns. *)
Theorem GetLastAppliedInstance_unregistered (a : AnsibleHooks) (subKey : NamespacedName) :
  (registry a !! subKey = None ->
   GetLastAppliedInstance a subKey = {| pre := ""; post := "" |}) /\
  GetLastAppliedInstance (DeregisterSubscription a subKey).1 subKey = {| pre := ""; post := "" |}.
Proof.
  split.
  - intros Hreg. unfold GetLastAppliedInstance. now rewrite Hreg.
  - unfold GetLastAppliedInstance, DeregisterSubscription. simpl.
    now rewrite lookup_delete_eq.
Qed.

(** C2: on a key that is not in the registry [IsPreHooksCompleted] returns
    [(true, nil)], while [IsPostHooksCompleted], which selects the slot
    before any check, dereferences the nil entry and panics. *)
Theorem IsPostHooksCompleted_unregistered_panics (a : AnsibleHooks) (subKey : NamespacedName) :
  registry a !! subKey = None ->
  IsPreHooksCompleted a subKey = Returns (true, None) /\
  IsPostHooksCompleted a subKey = Panics nil_dereference.
Proof.
  intros Hreg. unfold IsPreHooksCompleted, IsPostHooksCompleted, isRegistered.
  rewrite Hreg. split; [|reflexivity].
  rewrite bool_decide_eq_false_2; [reflexivity|].
  intros [x Hx]. discriminate.
Qed.

(** C7: for a registered key whose pre slot has entries and whose post slot
    has none, [HasHooks] asked for the pre side falls through to the post
    slot and answers [false], so [ApplyPreHooks] submits nothing and
    returns [nil]. *)
Theorem ApplyPreHooks_skips_without_post_hooks
    (a : AnsibleHooks) (subKey : NamespacedName) (h : Hooks) :
  registry a !! subKey = Some h ->
  noEntries (preHooks h) = false ->
  noEntries (postHooks h) = true ->
  HasHooks a PreHookType subKey = false /\
  ApplyPreHooks a subKey = (a, [], Returns None).
Proof.
  intros Hreg Hpre Hpost.
  destruct (HasHooks_registered a subKey h Hreg) as [Hhas _].
  rewrite Hpre, Hpost in Hhas. simpl in Hhas.
  split; [exact Hhas|]. unfold ApplyPreHooks. now rewrite Hhas.
Qed.

(** C8, as the code has it: [RegisterSubscription] leaves the registry as it
    is and returns [nil] when the subscription is not found, when the type
    of its channel is neither Git nor GitHub, and when the generation of the
    subscription is the one recorded at its key; when the channel cannot be
    read, not found included, it leaves the registry as it is and returns
    that error. *)
Theorem RegisterSubscription_stops
    (clt : Cluster) (a : AnsibleHooks) (subKey : NamespacedName) (r : option error) :
  RegisterStops clt a subKey r ->
  RegisterSubscription clt a subKey = (a, Returns r).
Proof.
  intros Hstop. unfold RegisterSubscription.
  destruct Hstop as [err Hsub Hnf | subIns err Hsub Hchn
                    | subIns chn Hsub Hchn Hgit Hgithub
                    | subIns chn record Hsub Hchn Hrec Hgen].
  - now rewrite Hsub, Hnf.
  - now rewrite Hsub, Hchn.
  - now rewrite Hsub, Hchn, Hgit, Hgithub.
  - rewrite Hsub, Hchn.
    destruct (negb (EqualFold (chnType chn) ChannelTypeGit)
              && negb (EqualFold (chnType chn) ChannelTypeGitHub)); [reflexivity|].
    unfold isSubscriptionUpdate, isSubscriptionSpecChange. rewrite Hrec, Hgen.
    now rewrite Z.eqb_refl.
Qed.

End HookRegistry.

Section HookRegistryRuns.
Import Hub HubRuns.
#[local] Existing Instance upstreamConstants.
#[local] Existing Instance ledger.

Lemma GetLastAppliedInstance_unregistered_witness :
  registry noHooks !! appKey = None /\
  GetLastAppliedInstance noHooks appKey = {| pre := ""; post := "" |}.
Proof.
  split; [reflexivity|].
  exact (proj1 (GetLastAppliedInstance_unregistered noHooks appKey) eq_refl).
Defined.

Lemma IsPostHooksCompleted_unregistered_panics_witness :
  registry noHooks !! appKey = None /\
  IsPreHooksCompleted noHooks appKey = Returns (true, None) /\
  IsPostHooksCompleted noHooks appKey = Panics nil_dereference.
Proof.
  split; [reflexivity|].
  apply IsPostHooksCompleted_unregistered_panics. reflexivity.
Defined.

Lemma ApplyPreHooks_skips_without_post_hooks_witness :
  let a := registered (Some [job "prejob"]) (Some []) in
  HasHooks a PreHookType appKey = false /\
  ApplyPreHooks a appKey = (a, [], Returns None).
Proof.
  intros a.
  apply (ApplyPreHooks_skips_without_post_hooks a appKey
           {| preHooks := Some [job "prejob"]; postHooks := Some []; lastSub := appSub 1 |});
    reflexivity.
Defined.

(** C8, as stated, fails when the channel is not found: the subscription
    [ns1/app] exists, the lookup of its channel answers not-found, and
    [RegisterSubscription] returns that error instead of [nil]. *)
Lemma RegisterSubscription_channel_not_found :
  getChannel (cluster 1 None) channelKey = inl (notFound "channel") /\
  IsNotFound (notFound "channel") = true /\
  RegisterSubscription (cluster 1 None) noHooks appKey
  = (noHooks, Returns (Some (notFound "channel"))).
Proof. repeat split. Qed.

Lemma RegisterSubscription_stops_witness :
  let gone := {| Namespace := "ns1"; Name := "gone" |} in
  let git := Some {| chnType := "git" |} in
  let helm := Some {| chnType := "HelmRepo" |} in
  let known := registered (Some []) (Some []) in
  RegisterSubscription (cluster 1 git) noHooks gone = (noHooks, Returns None) /\
  RegisterSubscription (cluster 1 None) noHooks appKey
  = (noHooks, Returns (Some (notFound "channel"))) /\
  RegisterSubscription (cluster 1 helm) noHooks appKey = (noHooks, Returns None) /\
  RegisterSubscription (cluster 1 git) known appKey = (known, Returns None).
Proof.
  intros gone git helm known.
  split; [|split; [|split]]; apply RegisterSubscription_stops.
  - apply (stops_subscription_not_found _ _ _ (notFound "subscription")); reflexivity.
  - apply (stops_channel_error _ _ _ (appSub 1) (notFound "channel")); reflexivity.
  - apply (stops_not_git _ _ _ (appSub 1) {| chnType := "HelmRepo" |}); reflexivity.
  - apply (stops_same_generation _ _ _ (appSub 1) {| chnType := "git" |}
             {| preHooks := Some []; postHooks := Some []; lastSub := appSub 1 |});
      reflexivity.
Defined.

End HookRegistryRuns.

(** * Properties of the Git subscriber *)

Section Runs.
Import Git.

Lemma bind_run {A B} (m : M A) (k : A -> M B) (s : SubscriberItem) :
  bind m k s =
  match resultOf (m s) with
  | Returns a =>
      let r := k a (after (m s)) in
      (resultOf r, after r, (traceOf (m s) ++ traceOf r)%list)
  | Panics why => (Panics why, after (m s), traceOf (m s))
  end.
Proof.
  unfold bind, resultOf, after, traceOf.
  destruct (m s) as [[[a|why] s1] t1]; simpl; [|reflexivity].
  now destruct (k a s1) as [[r s2] t2].
Qed.

(** A sequence that returns: its first part returned, and the trace is the
    two traces in order. *)
Lemma bind_returns {A B} (m : M A) (k : A -> M B) (s : SubscriberItem) (b : B) :
  resultOf (bind m k s) = Returns b ->
  exists a, resultOf (m s) = Returns a /\
            resultOf (k a (after (m s))) = Returns b /\
            traceOf (bind m k s) = (traceOf (m s) ++ traceOf (k a (after (m s))))%list.
Proof.
  rewrite bind_run. destruct (resultOf (m s)) as [a|why]; simpl; [|discriminate].
  intros H. exists a. now repeat split.
Qed.

Lemma bind_trace {A B} (m : M A) (k : A -> M B) (s : SubscriberItem) :
  traceOf (bind m k s) =
  (traceOf (m s) ++ match resultOf (m s) with
                    | Returns a => traceOf (k a (after (m s)))
                    | Panics _ => []
                    end)%list.
Proof.
  rewrite bind_run. destruct (resultOf (m s)); simpl; [reflexivity|].
  now rewrite app_nil_r.
Qed.

Lemma bind_ret {A B} (a : A) (k : A -> M B) (s : SubscriberItem) : bind (ret a) k s = k a s.
Proof. unfold bind, ret. now destruct (k a s) as [[? ?] ?]. Qed.

Lemma bind_gets {A B} (f : SubscriberItem -> A) (k : A -> M B) (s : SubscriberItem) :
  bind (gets f) k s = k (f s) s.
Proof. unfold bind, gets. now destruct (k (f s) s) as [[? ?] ?]. Qed.

Lemma bind_modify {B} (f : SubscriberItem -> SubscriberItem) (k : unit -> M B)
    (s : SubscriberItem) :
  bind (modify f) k s = k tt (f s).
Proof. unfold bind, modify. now destruct (k tt (f s)) as [[? ?] ?]. Qed.

Lemma bind_emit {B} (e : Event) (k : unit -> M B) (s : SubscriberItem) :
  bind (emit e) k s = (resultOf (k tt s), after (k tt s), e :: traceOf (k tt s)).
Proof. unfold bind, emit. now destruct (k tt s) as [[? ?] ?]. Qed.

Lemma bind_known {A B} (m : M A) (k : A -> M B) (s s1 : SubscriberItem) (a : A)
    (t1 : list Event) :
  m s = (Returns a, s1, t1) ->
  bind m k s = (resultOf (k a s1), after (k a s1), (t1 ++ traceOf (k a s1))%list).
Proof. intros H. unfold bind. rewrite H. now destruct (k a s1) as [[? ?] ?]. Qed.

Lemma fetched_app (t u : list Event) : fetched (t ++ u) = fetched t || fetched u.
Proof. unfold fetched. apply existsb_app. Qed.

Lemma classified_app (t u : list Event) : classified (t ++ u) = classified t || classified u.
Proof. unfold classified. apply existsb_app. Qed.

Lemma applied_app (t u : list Event) : applied (t ++ u) = (applied t ++ applied u)%list.
Proof. unfold applied. apply omap_app. Qed.

Lemma incr_small (n : Z) : 0 <= n <= 5 -> incr n = n + 1.
Proof.
  intros Hn. unfold incr.
  assert (H63 : 2 ^ 63 = 9223372036854775808) by reflexivity.
  assert (H64 : 2 ^ 64 = 18446744073709551616) by reflexivity.
  rewrite H63, H64. rewrite Z.mod_small; lia.
Qed.

(** ** Invariants of a computation *)
Section Respects.
Variable R : SubscriberItem -> SubscriberItem -> Prop.
Variable P : Event -> Prop.
Hypothesis R_refl : forall s, R s s.
Hypothesis R_trans : forall s1 s2 s3, R s1 s2 -> R s2 s3 -> R s1 s3.

#[local] Abbreviation respects := (respects R P).

Lemma respects_ret {A} (a : A) : respects (ret a).
Proof. intros s. split; [apply R_refl | constructor]. Qed.

Lemma respects_gets {A} (f : SubscriberItem -> A) : respects (gets f).
Proof. intros s. split; [apply R_refl | constructor]. Qed.

Lemma respects_panic {A} : respects (@panic A).
Proof. intros s. split; [apply R_refl | constructor]. Qed.

Lemma respects_emit (e : Event) : P e -> respects (emit e).
Proof. intros He s. split; [apply R_refl | repeat constructor; exact He]. Qed.

Lemma respects_modify (f : SubscriberItem -> SubscriberItem) :
  (forall s, R s (f s)) -> respects (modify f).
Proof. intros Hf s. split; [apply Hf | constructor]. Qed.

Lemma respects_bind {A B} (m : M A) (k : A -> M B) :
  respects m -> (forall a, respects (k a)) -> respects (bind m k).
Proof.
  intros Hm Hk s. rewrite bind_run.
  destruct (Hm s) as [HR HP].
  destruct (resultOf (m s)) as [a|why]; simpl; [|now split].
  destruct (Hk a (after (m s))) as [HR' HP'].
  split; [eapply R_trans; eassumption | apply Forall_app; now split].
Qed.

End Respects.

(** ** The fetch *)

Lemma fetchFrame_refl (s : SubscriberItem) : fetchFrame s s.
Proof. unfold fetchFrame. now destruct s. Qed.

Lemma fetchFrame_trans (s1 s2 s3 : SubscriberItem) :
  fetchFrame s1 s2 -> fetchFrame s2 s3 -> fetchFrame s1 s3.
Proof.
  unfold fetchFrame. destruct s1, s2, s3. simpl. intros H12 H23.
  injection H12 as <-. injection H23 as <-. intros. subst. reflexivity.
Qed.

Lemma fetch_events_quiet (t : list Event) :
  Forall isFetchEvent t -> classified t = false /\ applied t = [].
Proof.
  induction 1 as [|e t He _ [IHc IHa]]; [now split|].
  destruct e; simpl in He; try contradiction; simpl; now split.
Qed.

(** One step through a computation, given that the relation is reflexive
    and transitive. *)
Ltac respects_step refl trans :=
  first
    [ apply (respects_ret _ _ refl)
    | apply (respects_gets _ _ refl)
    | apply (respects_panic _ _ refl)
    | apply (respects_emit _ _ refl); exact I
    | apply (respects_bind _ _ trans); [|intros ?]
    | match goal with
      | |- respects _ _ (match ?x with _ => _ end) => destruct x
      | |- respects _ _ (if ?b then _ else _) => destruct b
      end ].

(** ** The build *)

Lemma tickFrame_refl (s : SubscriberItem) : tickFrame s s.
Proof. now repeat split. Qed.

Lemma tickFrame_trans (s1 s2 s3 : SubscriberItem) :
  tickFrame s1 s2 -> tickFrame s2 s3 -> tickFrame s1 s3.
Proof. unfold tickFrame. intuition congruence. Qed.

Lemma build_events_quiet (t : list Event) :
  Forall isBuildEvent t -> applied t = [].
Proof.
  induction 1 as [|e t He _ IH]; [reflexivity|].
  destruct e; simpl in He; try contradiction; exact IH.
Qed.

Lemma respects_weaken {A} (R R' : SubscriberItem -> SubscriberItem -> Prop)
    (P P' : Event -> Prop) (m : M A) :
  (forall s s1, R s s1 -> R' s s1) -> (forall e, P e -> P' e) ->
  respects R P m -> respects R' P' m.
Proof.
  intros HR HP Hm s. destruct (Hm s) as [H1 H2].
  split; [now apply HR | eapply Forall_impl; eauto].
Qed.

Ltac build_step := respects_step tickFrame_refl tickFrame_trans.
Ltac build_modify := apply respects_modify; intros ?; now repeat split.

Section Tick.
Context {consts : ApiConstants} (env : Env).

Lemma refreshChannelReferences_fetch (primary : bool) (chn : Channel) :
  respects fetchFrame isFetchEvent (refreshChannelReferences env primary chn).
Proof.
  unfold refreshChannelReferences.
  repeat respects_step fetchFrame_refl fetchFrame_trans;
    apply respects_modify; intros [[] ? ? ? ? ? ? ? ? ? ? ? ? ? ? ? ? ? ? ?];
    reflexivity.
Qed.

Lemma subscribeResourceFile_build (file : Manifest) :
  respects tickFrame isBuildEvent (subscribeResourceFile env file).
Proof. unfold subscribeResourceFile. repeat build_step; build_modify. Qed.

Lemma subscribeFileResources_build (rs : list Manifest) :
  respects tickFrame isBuildEvent (subscribeFileResources env rs).
Proof.
  induction rs as [|resource rest IH]; simpl; [build_step|].
  repeat first [exact IH | apply subscribeResourceFile_build | build_step].
Qed.

Lemma subscribeResources_build (rscFiles : list string) :
  respects tickFrame isBuildEvent (subscribeResources env rscFiles).
Proof.
  induction rscFiles as [|rscFile rest IH]; simpl; [build_step|].
  repeat first [exact IH | apply subscribeFileResources_build | build_step].
Qed.

Lemma subscribeRendered_build (rs : list Manifest) :
  respects tickFrame isBuildEvent (subscribeRendered env rs).
Proof.
  induction rs as [|resourceFile rest IH]; simpl; [build_step|].
  repeat first [exact IH | apply subscribeResourceFile_build | build_step].
Qed.

Lemma subscribeKustomizeDirs_build (dirs : list (string * string)) :
  respects tickFrame isBuildEvent (subscribeKustomizeDirs env dirs).
Proof.
  induction dirs as [|[key kustomizeDir] rest IH]; simpl; [build_step|].
  repeat first [exact IH | apply subscribeRendered_build | build_step | build_modify].
Qed.

Lemma subscribeKustomizations_build :
  respects tickFrame isBuildEvent (subscribeKustomizations env).
Proof.
  unfold subscribeKustomizations.
  repeat first [apply subscribeKustomizeDirs_build | build_step].
Qed.

Lemma subscribeHelmEntries_build (entries : list (string * string)) :
  respects tickFrame isBuildEvent (subscribeHelmEntries env entries).
Proof.
  induction entries as [|[packageName chartVersions] rest IH]; simpl; [build_step|].
  repeat first [exact IH | build_step | build_modify].
Qed.

Lemma subscribeHelmCharts_build (idx : option IndexFile) :
  respects tickFrame isBuildEvent (subscribeHelmCharts env idx).
Proof.
  unfold subscribeHelmCharts.
  repeat first [apply subscribeHelmEntries_build | build_step].
Qed.

Lemma sortClonedGitRepo_build : respects tickFrame isBuildEvent (sortClonedGitRepo env).
Proof. unfold sortClonedGitRepo. repeat first [build_step | build_modify]. Qed.

Lemma noteFailure_build (errMsg : string) (err : option error) :
  respects tickFrame isBuildEvent (noteFailure errMsg err).
Proof. unfold noteFailure. repeat first [build_step | build_modify]. Qed.

Lemma subscribeBuckets_build : respects tickFrame isBuildEvent (subscribeBuckets env).
Proof.
  unfold subscribeBuckets.
  repeat first [ apply subscribeResources_build | apply subscribeKustomizations_build
               | apply subscribeHelmCharts_build | apply noteFailure_build
               | build_step | build_modify ].
Qed.

Lemma applyResources_tick (commit errMsg : string) :
  respects tickFrame (fun _ => True) (applyResources env commit errMsg).
Proof.
  unfold applyResources.
  repeat first [ apply (respects_emit _ _ tickFrame_refl); exact I | build_step | build_modify ].
Qed.

Lemma reconcile_tick (commit : string) :
  respects tickFrame (fun _ => True) (reconcile env commit).
Proof.
  unfold reconcile.
  repeat first
    [ apply applyResources_tick
    | apply (respects_weaken tickFrame tickFrame isBuildEvent (fun _ => True)
               _ (fun _ _ H => H) (fun _ _ => I)); 
      first [apply sortClonedGitRepo_build | apply subscribeBuckets_build]
    | build_step | build_modify ].
Qed.

(** ** The drift gate *)

Ltac fetch_step := respects_step fetchFrame_refl fetchFrame_trans.
Ltac fetch_modify :=
  apply respects_modify; intros [[] ? ? ? ? ? ? ? ? ? ? ? ? ? ? ? ? ? ? ?]; reflexivity.

Lemma cloneGitRepo_fetch : respects fetchFrame isFetchEvent (cloneGitRepo env).
Proof. unfold cloneGitRepo. repeat first [fetch_step | fetch_modify]. Qed.

Lemma updateAndClone_fetch : respects fetchFrame isFetchEvent (updateAndClone env).
Proof.
  unfold updateAndClone.
  repeat first [ apply refreshChannelReferences_fetch | apply cloneGitRepo_fetch | fetch_step ].
Qed.

Lemma referencesFrame_refl (s : SubscriberItem) : referencesFrame s s.
Proof. unfold referencesFrame. now destruct s as [[] ? ? ? ? ? ? ? ? ? ? ? ? ? ? ? ? ? ? ?]. Qed.

Lemma referencesFrame_trans (s1 s2 s3 : SubscriberItem) :
  referencesFrame s1 s2 -> referencesFrame s2 s3 -> referencesFrame s1 s3.
Proof.
  unfold referencesFrame.
  destruct s1 as [[] ? ? ? ? ? ? ? ? ? ? ? ? ? ? ? ? ? ? ?],
           s2 as [[] ? ? ? ? ? ? ? ? ? ? ? ? ? ? ? ? ? ? ?],
           s3 as [[] ? ? ? ? ? ? ? ? ? ? ? ? ? ? ? ? ? ? ?].
  unfold with_base, keepReferences, set_repoRoot. simpl. intros H12 H23.
  injection H12 as <-. injection H23 as <-. intros. subst. reflexivity.
Qed.

Ltac references_step := respects_step referencesFrame_refl referencesFrame_trans.
Ltac references_modify :=
  apply respects_modify; intros [[] ? ? ? ? ? ? ? ? ? ? ? ? ? ? ? ? ? ? ?]; reflexivity.

Lemma refreshChannelReferences_references (primary : bool) (chn : Channel) :
  respects referencesFrame isFetchEvent (refreshChannelReferences env primary chn).
Proof.
  unfold refreshChannelReferences.
  repeat references_step;
    apply respects_modify; intros [[] ? ? ? ? ? ? ? ? ? ? ? ? ? ? ? ? ? ? ?];
    destruct primary; reflexivity.
Qed.

Lemma cloneGitRepo_references : respects referencesFrame isFetchEvent (cloneGitRepo env).
Proof. unfold cloneGitRepo. repeat first [references_step | references_modify]. Qed.

(** The fetch leaves the subscription, its config map and the two channels
    of the item alone. *)
Lemma updateAndClone_references :
  respects referencesFrame isFetchEvent (updateAndClone env).
Proof.
  unfold updateAndClone.
  repeat first [ apply refreshChannelReferences_references | apply cloneGitRepo_references
               | references_step ].
Qed.

(** A clone that returns a commit has called the Git transport. *)
Lemma cloneGitRepo_fetched (s : SubscriberItem) (c : string) :
  resultOf (cloneGitRepo env s) = Returns (c, None) ->
  fetched (traceOf (cloneGitRepo env s)) = true.
Proof.
  unfold cloneGitRepo, bind, gets, modify, emit, ret, panic, resultOf, traceOf. simpl.
  repeat case_match; simpl; intros; simplify_eq; reflexivity.
Qed.

Lemma updateAndClone_fetched (s : SubscriberItem) (c : string) :
  resultOf (updateAndClone env s) = Returns (c, None) ->
  fetched (traceOf (updateAndClone env s)) = true.
Proof.
  unfold updateAndClone. intros H.
  apply bind_returns in H as (ghsi0 & _ & H & ->). cbv beta in *.
  apply bind_returns in H as (? & _ & H & ->). cbv beta in *.
  apply bind_returns in H as (? & _ & H & ->). cbv beta in *.
  apply cloneGitRepo_fetched in H. rewrite !fetched_app, H. now rewrite !orb_true_r.
Qed.

Lemma sortClonedGitRepo_classified (s : SubscriberItem) :
  classified (traceOf (sortClonedGitRepo env s)) = true.
Proof.
  unfold sortClonedGitRepo, bind, gets, modify, emit, ret, traceOf. simpl.
  repeat case_match; simplify_eq; reflexivity.
Qed.

(** A reconcile classifies the repository. *)
Lemma reconcile_classified (commit : string) (s : SubscriberItem) :
  classified (traceOf (reconcile env commit s)) = true.
Proof.
  unfold reconcile. rewrite bind_trace. simpl. rewrite bind_trace.
  now rewrite classified_app, sortClonedGitRepo_classified.
Qed.

(** The gate under the [medium] rate, for a known commit that has not
    changed and a successful last apply: it skips while the incremented
    counter is below 6, and otherwise resets the counter and lets the
    reconcile run. *)
Lemma driftGate_medium (s : SubscriberItem) :
  EqualFold (reconcileRate s) "medium" = true ->
  commitID s <> "" -> successful s = true -> 0 <= count s <= 5 ->
  driftGate (commitID s) s =
  if count s <? 5 then (Returns true, set_count (count s + 1) s, [])
  else (Returns false, set_count 0 s, []).
Proof.
  intros Hrate Hcommit Hok Hcount.
  unfold driftGate, bind, gets, modify, ret. simpl. rewrite Hrate. simpl.
  rewrite incr_small by exact Hcount.
  destruct (String.eqb_spec (commitID s) "") as [He|_]; [contradiction|].
  rewrite String.eqb_refl, Hok. simpl.
  destruct (Z.ltb_spec (count s + 1) 6), (Z.ltb_spec (count s) 5); try lia; reflexivity.
Qed.

Lemma fetchFrame_fields (s s1 : SubscriberItem) :
  fetchFrame s s1 ->
  commitID s1 = commitID s /\ successful s1 = successful s /\ count s1 = count s /\
  reconcileRate s1 = reconcileRate s /\ webhookEnabled s1 = webhookEnabled s.
Proof.
  unfold fetchFrame. intros H. repeat split.
  - now apply (f_equal commitID) in H.
  - now apply (f_equal successful) in H.
  - now apply (f_equal count) in H.
  - now apply (f_equal reconcileRate) in H.
  - now apply (f_equal webhookEnabled) in H.
Qed.

(** One tick under the [medium] rate when the fetch returns the commit that
    was applied last and that apply was successful: with the counter below
    5 the tick ends after the fetch, with the counter at 5 it resets the
    counter and reconciles. *)
Lemma doSubscription_medium (s : SubscriberItem) :
  EqualFold (reconcileRate s) "medium" = true ->
  webhookEnabled s = false ->
  commitID s <> "" -> successful s = true -> 0 <= count s <= 5 ->
  resultOf (updateAndClone env s) = Returns (commitID s, None) ->
  let fetch := updateAndClone env s in
  doSubscription env s =
  if count s <? 5 then
    (Returns None, set_count (count s + 1) (after fetch),
     EvUpdateLastUpdateTime :: traceOf fetch)
  else
    let resync := reconcile env (commitID s) (set_count 0 (after fetch)) in
    (resultOf resync, after resync,
     EvUpdateLastUpdateTime :: (traceOf fetch ++ traceOf resync)%list).
Proof.
  intros Hrate Hweb Hcommit Hok Hcount Hfetch fetch.
  destruct (updateAndClone_fetch s) as [Hframe _].
  apply fetchFrame_fields in Hframe as (Hc1 & Hok1 & Hn1 & Hrate1 & _).
  subst fetch. unfold doSubscription.
  rewrite bind_emit, bind_gets. unfold id. rewrite Hweb. simpl.
  rewrite bind_run. rewrite Hfetch. cbv zeta iota beta.
  rewrite bind_run. rewrite <- Hc1.
  rewrite driftGate_medium by (rewrite ?Hc1, ?Hok1, ?Hn1, ?Hrate1; assumption).
  rewrite Hn1. destruct (count s <? 5); simpl; [now rewrite app_nil_r|].
  reflexivity.
Qed.

Lemma ticks_S (n : nat) (s : SubscriberItem) :
  ticks env (S n) s = doSubscription env (after (ticks env n s)).
Proof. reflexivity. Qed.

(** The item after [k] skipped ticks. *)
Lemma skipped_ticks (s : SubscriberItem) (c : string) :
  EqualFold (reconcileRate s) "medium" = true ->
  webhookEnabled s = false ->
  commitID s = c -> c <> "" -> successful s = true ->
  0 <= count s <= 5 ->
  (forall k : nat, count s + Z.of_nat k < 6 ->
     resultOf (updateAndClone env (after (ticks env k s))) = Returns (c, None)) ->
  forall k : nat, count s + Z.of_nat k < 6 ->
    let r := ticks env k s in
    EqualFold (reconcileRate (after r)) "medium" = true /\
    webhookEnabled (after r) = false /\
    commitID (after r) = c /\ successful (after r) = true /\
    count (after r) = count s + Z.of_nat k /\
    resultOf r = Returns None /\ classified (traceOf r) = false /\ applied (traceOf r) = [].
Proof.
  intros Hrate Hweb Hcommit Hc Hok Hcount Hfetch k.
  induction k as [|k IH]; intros Hk.
  - simpl. rewrite Z.add_0_r. now repeat split.
  - destruct IH as (Hrate' & Hweb' & Hcommit' & Hok' & Hcount' & _); [lia|].
    assert (Hk6 : count s + Z.of_nat k < 6) by lia.
    pose proof (Hfetch k Hk6) as Hf.
    set (sk := after (ticks env k s)) in *.
    destruct (updateAndClone_fetch sk) as [Hframe Hevents].
    apply fetchFrame_fields in Hframe as (Hc1 & Hok1 & Hn1 & Hrate1 & Hweb1).
    apply fetch_events_quiet in Hevents as [Hcl Hap].
    intros r. subst r. rewrite ticks_S. fold sk.
    rewrite <- Hcommit' in Hf.
    assert (Hne : commitID sk <> "") by now rewrite Hcommit'.
    assert (Hrange : 0 <= count sk <= 5) by lia.
    rewrite (doSubscription_medium sk Hrate' Hweb' Hne Hok' Hrange Hf).
    destruct (Z.ltb_spec (count sk) 5) as [_|Hge]; [|lia].
    unfold after, traceOf, resultOf in *. simpl.
    rewrite ?Hrate1, ?Hweb1, ?Hc1, ?Hok1, ?Hn1.
    repeat split; try assumption. lia.
Qed.

Lemma driftGate_silent (commit : string) (s : SubscriberItem) :
  traceOf (driftGate commit s) = [].
Proof.
  unfold driftGate, bind, gets, modify, ret, traceOf. simpl.
  repeat case_match; simplify_eq; reflexivity.
Qed.

(** A tick that passes the webhook check, the fetch and the drift gate is
    the reconcile that follows them. *)
Lemma doSubscription_reconciles (s sF sG : SubscriberItem) (commit : string)
    (tF tG : list Event) :
  webhookEnabled s && successful s = false ->
  updateAndClone env s = (Returns (commit, None), sF, tF) ->
  driftGate commit sF = (Returns false, sG, tG) ->
  let r := reconcile env commit sG in
  doSubscription env s
  = (resultOf r, after r, EvUpdateLastUpdateTime :: (tF ++ tG ++ traceOf r)%list).
Proof.
  intros Hweb Hfetch Hgate r. subst r. unfold doSubscription.
  rewrite bind_emit, bind_gets. unfold id. rewrite Hweb.
  rewrite (bind_known _ _ _ _ _ _ Hfetch). cbn [resultOf after traceOf fst snd].
  rewrite (bind_known _ _ _ _ _ _ Hgate). cbn [resultOf after traceOf fst snd].
  reflexivity.
Qed.

(** A tick either ends without classifying the repository and without
    handing anything over, or ends as a reconcile does. *)
Lemma doSubscription_cases (s : SubscriberItem) :
  let r := doSubscription env s in
  (classified (traceOf r) = false /\ applied (traceOf r) = []) \/
  (exists commit s2,
     resultOf r = resultOf (reconcile env commit s2) /\
     after r = after (reconcile env commit s2)).
Proof.
  intros r. subst r. unfold doSubscription.
  rewrite bind_emit, bind_gets. unfold id.
  destruct (webhookEnabled s && successful s); [left; now split|].
  destruct (updateAndClone_fetch s) as [_ Hevents].
  apply fetch_events_quiet in Hevents as [Hcl Hap].
  rewrite bind_run.
  set (fetch := updateAndClone env s) in *. clearbody fetch.
  destruct (resultOf fetch) as [[commit [err|]]|why];
    cbn [resultOf after traceOf fst snd].
  - left. rewrite bind_gets. unfold id.
    destruct (Channel_ (base (after fetch)));
      unfold classified, applied in *; cbn; rewrite ?existsb_app, ?omap_app;
      rewrite ?Hcl, ?Hap; now split.
  - rewrite bind_run.
    pose proof (driftGate_silent commit (after fetch)) as Hsilent.
    set (gate := driftGate commit (after fetch)) in *. clearbody gate.
    destruct (resultOf gate) as [[|]|why]; cbn [resultOf after traceOf fst snd].
    + left. unfold classified, applied in *. cbn.
      rewrite ?existsb_app, ?omap_app, Hsilent. rewrite ?Hcl, ?Hap. now split.
    + right. now exists commit, (after gate).
    + left. unfold classified, applied in *. cbn.
      rewrite Hsilent, app_nil_r. now split.
  - left. unfold classified, applied in *. now split.
Qed.

(** C3, as the code has it: under the [medium] rate, with no webhook, a
    known commit that every fetch finds unchanged and a successful last
    apply, the [n]-th tick after the item was left with tick counter [count]
    skips the reconcile while [count + n < 6], and the tick with
    [count + n = 6] classifies the repository again and resets the counter
    to 0.  After a resync that reset the counter the next five ticks skip
    and the sixth forces a resync (ticks 2 to 6 and tick 7, the resync being
    tick 1); after a resync that left the counter at 1, as the first
    deployment does, four ticks skip and the fifth forces a resync. *)
Theorem medium_cycle (s : SubscriberItem) (c : string) :
  EqualFold (reconcileRate s) "medium" = true ->
  webhookEnabled s = false ->
  commitID s = c -> c <> "" -> successful s = true ->
  0 <= count s <= 5 ->
  (forall k : nat, count s + Z.of_nat k < 6 ->
     resultOf (updateAndClone env (after (ticks env k s))) = Returns (c, None)) ->
  forall n : nat, (1 <= n)%nat ->
    let r := ticks env n s in
    (count s + Z.of_nat n < 6 ->
     resultOf r = Returns None /\ classified (traceOf r) = false /\
     applied (traceOf r) = [] /\ count (after r) = count s + Z.of_nat n) /\
    (count s + Z.of_nat n = 6 ->
     classified (traceOf r) = true /\ count (after r) = 0).
Proof.
  intros Hrate Hweb Hcommit Hc Hok Hcount Hfetch n Hn r. subst r. split.
  - intros Hlt.
    destruct (skipped_ticks s c Hrate Hweb Hcommit Hc Hok Hcount Hfetch n Hlt)
      as (_ & _ & _ & _ & Hcnt & Hres & Hcl & Hap).
    now repeat split.
  - intros Heq. destruct n as [|k]; [lia|].
    destruct (skipped_ticks s c Hrate Hweb Hcommit Hc Hok Hcount Hfetch k)
      as (Hrate' & Hweb' & Hcommit' & Hok' & Hcount' & _); [lia|].
    assert (Hk6 : count s + Z.of_nat k < 6) by lia.
    pose proof (Hfetch k Hk6) as Hf.
    rewrite ticks_S.
    set (sk := after (ticks env k s)) in *.
    rewrite <- Hcommit' in Hf.
    assert (Hne : commitID sk <> "") by now rewrite Hcommit'.
    assert (Hrange : 0 <= count sk <= 5) by lia.
    rewrite (doSubscription_medium sk Hrate' Hweb' Hne Hok' Hrange Hf).
    destruct (Z.ltb_spec (count sk) 5) as [Hlt|_]; [lia|].
    unfold after at 1 3, traceOf at 1. cbn [fst snd].
    split.
    + change (classified (EvUpdateLastUpdateTime :: ?t)) with (classified t).
      now rewrite classified_app, reconcile_classified, orb_true_r.
    + destruct (reconcile_tick (commitID sk) (set_count 0 (after (updateAndClone env sk))))
        as [[Hcnt _] _].
      exact Hcnt.
Qed.

End Tick.

(** C4, as the code has it: a tick of a [medium] subscription with no
    webhook, run by [doSubscriptionWithRetries], that finds the tick counter
    below 5 (2 in the scenario), the commit unchanged and the last apply
    successful, fetches the repository, and then neither classifies it nor
    hands anything to the synchronizer; it is not retried, and marks the
    subscription as subscribed with an empty message.  It leaves the item as
    it was but for the counter and what the fetch refreshes: the secrets
    and config maps of the two channels, and the repository root.  The
    subscription, its config map, the two channels and every other field of
    the item are those of before. *)
Theorem skipped_tick_fetches {consts : ApiConstants} (envs : nat -> Env) (retries : Z)
    (s : SubscriberItem) :
  EqualFold (reconcileRate s) "medium" = true ->
  webhookEnabled s = false ->
  commitID s <> "" -> successful s = true ->
  0 <= count s < 5 -> 0 <= retries ->
  resultOf (updateAndClone (envs 0%nat) s) = Returns (commitID s, None) ->
  let fetch := updateAndClone (envs 0%nat) s in
  doSubscriptionWithRetries envs retries s =
  (Returns tt, set_count (count s + 1) (after fetch),
   (EvUpdateLastUpdateTime :: traceOf fetch
    ++ [EvUpdateSubscriptionStatus SubscriptionSubscribed ""])%list) /\
  fetched (traceOf fetch) = true /\
  classified (traceOf fetch) = false /\
  applied (traceOf fetch) = [] /\
  referencesFrame s (after fetch).
Proof.
  intros Hrate Hweb Hcommit Hok Hcount Hretries Hfetch fetch. subst fetch.
  destruct (updateAndClone_references (envs 0%nat) s) as [Hrefs _].
  destruct (updateAndClone_fetch (envs 0%nat) s) as [Hframe Hevents].
  pose proof (fetchFrame_fields _ _ Hframe) as (_ & Hok1 & _).
  apply fetch_events_quiet in Hevents as [Hcl Hap].
  split; [|now repeat split; try apply (updateAndClone_fetched _ _ _ Hfetch)].
  unfold doSubscriptionWithRetries.
  destruct (Z.ltb_spec retries 0) as [Hneg|_]; [lia|].
  assert (Hrange : 0 <= count s <= 5) by lia.
  assert (Htick := doSubscription_medium (envs 0%nat) s Hrate Hweb Hcommit Hok Hrange Hfetch).
  cbv zeta in Htick.
  destruct (Z.ltb_spec (count s) 5) as [_|Hge]; [|lia].
  destruct (Z.to_nat retries) as [|more]; simpl;
    rewrite bind_run, Htick; unfold resultOf, after, traceOf in *; cbn [fst snd];
    cbv zeta; rewrite bind_emit, bind_gets; unfold id, resultOf, after, traceOf;
    cbn [fst snd successful set_count]; rewrite ?Hok1, ?Hok; reflexivity.
Qed.

(** ** The guard against an empty list *)

Section Guard.
Context {consts : ApiConstants} (env : Env).

(** *** The cut of the message *)

Lemma runeWidth_bounds (c : ascii) (r : string) :
  (1 <= runeWidth c r <= 4)%nat.
Proof.
  unfold runeWidth.
  repeat match goal with
         | |- context [if ?b then _ else _] => destruct b
         | |- context [match ?x with EmptyString => _ | String _ _ => _ end] => destruct x
         end; lia.
Qed.

(** The cut is a prefix of the string. *)
Lemma firstRunes_prefix (s : string) (n pending : nat) :
  exists rest, s = firstRunes n pending s +:+ rest.
Proof.
  revert n pending. induction s as [|c r IH]; intros n pending; [now exists ""|].
  simpl. destruct pending as [|k].
  - destruct n as [|m]; [now exists (String c r)|].
    destruct (IH m (runeWidth c r - 1)%nat) as [rest Hrest].
    exists rest. rewrite Hrest at 1. reflexivity.
  - destruct (IH n k) as [rest Hrest]. exists rest. rewrite Hrest at 1. reflexivity.
Qed.

(** A rune has at most four bytes. *)
Lemma firstRunes_length (s : string) (n pending : nat) :
  (pending <= 3 -> String.length (firstRunes n pending s) <= pending + 4 * n)%nat.
Proof.
  revert n pending. induction s as [|c r IH]; intros n pending Hpending; simpl; [lia|].
  destruct pending as [|k].
  - destruct n as [|m]; simpl; [lia|].
    pose proof (runeWidth_bounds c r) as Hw.
    specialize (IH m (runeWidth c r - 1)%nat). lia.
  - simpl. specialize (IH n k). lia.
Qed.

(** A string that is short enough is not cut. *)
Lemma firstRunes_all (s : string) (n pending : nat) :
  (String.length s <= pending + n)%nat -> firstRunes n pending s = s.
Proof.
  revert n pending. induction s as [|c r IH]; intros n pending Hlen; [reflexivity|].
  simpl in *. destruct pending as [|k].
  - destruct n as [|m]; [lia|]. f_equal. apply IH. lia.
  - f_equal. apply IH. lia.
Qed.

(** *** The message as a concatenation *)

Lemma append_assoc (a b c : string) : (a +:+ b) +:+ c = a +:+ b +:+ c.
Proof.
  induction a as [|x a IH]; [reflexivity|].
  change (String x ((a +:+ b) +:+ c) = String x (a +:+ b +:+ c)). now rewrite IH.
Qed.

Lemma append_empty_r (a : string) : a +:+ "" = a.
Proof.
  induction a as [|x a IH]; [reflexivity|].
  change (String x (a +:+ "") = String x a). now rewrite IH.
Qed.

Lemma len_positive (m : string) : m <> "" -> (0 <? len m) = true.
Proof. destruct m; [congruence | reflexivity]. Qed.

Lemma concat_snoc (sep : string) (l : list string) (x : string) :
  String.concat sep (l ++ [x])
  = match l with
    | [] => x
    | _ => String.concat sep l +:+ sep +:+ x
    end.
Proof.
  induction l as [|a l IH]; [reflexivity|].
  change (String.concat sep (a :: (l ++ [x])%list)
          = String.concat sep (a :: l) +:+ sep +:+ x).
  destruct l as [|b l]; [reflexivity|].
  change (a +:+ sep +:+ String.concat sep ((b :: l) ++ [x])
          = (a +:+ sep +:+ String.concat sep (b :: l)) +:+ sep +:+ x).
  rewrite IH. now rewrite !append_assoc.
Qed.

Lemma concat_not_empty (sep : string) (l : list string) :
  Forall (fun x => x <> "") l -> l <> [] -> String.concat sep l <> "".
Proof.
  intros Hall Hl. destruct l as [|a [|b l]]; [congruence| |].
  - now inversion Hall.
  - inversion Hall as [|? ? Ha _]. simpl. destruct a; [congruence | discriminate].
Qed.

(** Appending the error of a bucket to the strings joined so far. *)
Lemma join_concat (l : list string) (e : option error) :
  Forall (fun x => x <> "") l ->
  match e with Some err => appendError (String.concat ", " l) err
          | None => String.concat ", " l end
  = String.concat ", " (l ++ omap (fmap Error) [e]).
Proof.
  intros Hall. destruct e as [err|]; simpl; [|now rewrite app_nil_r].
  rewrite concat_snoc. unfold appendError.
  destruct l as [|a l]; [reflexivity|].
  rewrite len_positive by (apply concat_not_empty; [assumption | discriminate]).
  apply append_assoc.
Qed.

(** The message of a tick is the error strings of its buckets, joined with
    commas, when none of the strings is empty. *)
Lemma tickMessage_joined (e1 e2 e3 e4 e5 : option error) :
  (forall e, Some e ∈ [e1; e2; e3; e5] -> Error e <> "") ->
  tickMessage e1 e2 e3 e4 e5 = String.concat ", " (bucketErrorStrings e1 e2 e3 e4 e5).
Proof.
  intros Hne.
  assert (Hstrings : forall es, (forall e, e ∈ es -> e ∈ [e1; e2; e3; e5]) ->
            Forall (fun x => x <> "") (omap (fmap Error) es)).
  { intros es Hsub. apply Forall_forall. intros x Hx.
    apply list_elem_of_omap in Hx as (e & He & Hx).
    destruct e as [err|]; [|discriminate]. injection Hx as <-.
    apply Hne, Hsub, He. }
  pose (m1 := match e1 with Some err => appendError "" err | None => "" end).
  pose (m2 := match e2 with Some err => appendError m1 err | None => m1 end).
  pose (m3 := match e3 with Some err => appendError m2 err | None => m2 end).
  pose (m4 := match e4 with Some err => prependKustomizeError m3 err | None => m3 end).
  pose (m5 := match e5 with Some err => appendError m4 err | None => m4 end).
  change (m5 = String.concat ", " (bucketErrorStrings e1 e2 e3 e4 e5)).
  assert (H1 : m1 = String.concat ", " (omap (fmap Error) [e1]))
    by (apply (join_concat [] e1); constructor).
  assert (H2 : m2 = String.concat ", " (omap (fmap Error) [e1; e2])).
  { unfold m2. rewrite H1.
    rewrite (join_concat _ e2) by (apply (Hstrings [e1]); intros e He;
        repeat (apply elem_of_cons in He as [->|He]); try (now apply elem_of_nil in He);
        repeat constructor).
    now rewrite <- omap_app. }
  assert (H3 : m3 = String.concat ", " (omap (fmap Error) [e1; e2; e3])).
  { unfold m3. rewrite H2.
    rewrite (join_concat _ e3) by (apply (Hstrings [e1; e2]); intros e He;
        repeat (apply elem_of_cons in He as [->|He]); try (now apply elem_of_nil in He);
        repeat constructor).
    now rewrite <- omap_app. }
  assert (H123 : Forall (fun x => x <> "") (omap (fmap Error) [e1; e2; e3]))
    by (apply (Hstrings [e1; e2; e3]); intros e He;
        repeat (apply elem_of_cons in He as [->|He]); try (now apply elem_of_nil in He);
        repeat constructor).
  unfold m5, m4, bucketErrorStrings. rewrite H3.
  change [e1; e2; e3; e5] with ([e1; e2; e3] ++ [e5])%list. rewrite omap_app.
  destruct e4 as [err4|].
  - set (kusErr := "failed to apply klustomization: " +:+ Error err4).
    assert (Hkus : prependKustomizeError (String.concat ", " (omap (fmap Error) [e1; e2; e3])) err4
                   = String.concat ", " (kusErr :: omap (fmap Error) [e1; e2; e3])).
    { unfold prependKustomizeError. fold kusErr.
      destruct (omap (fmap Error) [e1; e2; e3]) as [|a l] eqn:Hl.
      - apply append_empty_r.
      - rewrite len_positive by (apply concat_not_empty; [assumption | discriminate]).
        apply append_assoc. }
    rewrite Hkus.
    rewrite (join_concat _ e5) by (constructor; [discriminate | assumption]).
    reflexivity.
  - now rewrite (join_concat _ e5) by assumption.
Qed.

Lemma noteFailure_run (errMsg : string) (err : option error) (s : SubscriberItem) :
  noteFailure errMsg err s =
  (Returns (match err with Some e => appendError errMsg e | None => errMsg end),
   lowered err s, []).
Proof. now destruct err. Qed.

(** The message and the item after the five buckets, from the runs of the
    buckets one after the other. *)
Lemma subscribeBuckets_chain (sA s1 s2 s3 s4 s5 : SubscriberItem)
    (t1 t2 t3 t4 t5 : list Event) (e1 e2 e3 e4 e5 : option error) :
  subscribeResources env (crdsAndNamespaceFiles sA) sA = (Returns e1, s1, t1) ->
  subscribeResources env (rbacFiles (lowered e1 s1)) (lowered e1 s1) = (Returns e2, s2, t2) ->
  subscribeResources env (otherFiles (lowered e2 s2)) (lowered e2 s2) = (Returns e3, s3, t3) ->
  subscribeKustomizations env (lowered e3 s3) = (Returns e4, s4, t4) ->
  subscribeHelmCharts env (indexFile (lowered e4 s4)) (lowered e4 s4) = (Returns e5, s5, t5) ->
  resultOf (subscribeBuckets env sA) = Returns (tickMessage e1 e2 e3 e4 e5) /\
  after (subscribeBuckets env sA) = lowered e5 s5.
Proof.
  intros H1 H2 H3 H4 H5. unfold subscribeBuckets.
  rewrite bind_gets. unfold id. rewrite (bind_known _ _ _ _ _ _ H1).
  cbn [resultOf after traceOf fst snd].
  assert (Hfirst : forall k : string -> M string,
            bind (match e1 with
                  | Some e => modify (set_successful false) ;;; ret ("" +:+ Error e)
                  | None => ret ""
                  end) k s1
            = k (match e1 with Some e => appendError "" e | None => "" end) (lowered e1 s1)).
  { intros k. destruct e1; [|now rewrite bind_ret].
    unfold bind, modify, ret. simpl. now destruct (k _ _) as [[? ?] ?]. }
  rewrite Hfirst. rewrite bind_gets. unfold id. rewrite (bind_known _ _ _ _ _ _ H2).
  cbn [resultOf after traceOf fst snd].
  rewrite (bind_known _ _ _ _ _ _ (noteFailure_run _ e2 s2)).
  cbn [resultOf after traceOf fst snd].
  rewrite bind_gets. unfold id. rewrite (bind_known _ _ _ _ _ _ H3).
  cbn [resultOf after traceOf fst snd].
  rewrite (bind_known _ _ _ _ _ _ (noteFailure_run _ e3 s3)).
  cbn [resultOf after traceOf fst snd].
  rewrite (bind_known _ _ _ _ _ _ H4).
  cbn [resultOf after traceOf fst snd].
  set (m3 := match e3 with Some e => appendError _ e | None => _ end).
  assert (Hkus : forall k : string -> M string,
            let m4 := match e4 with Some e => prependKustomizeError m3 e | None => m3 end in
            resultOf (bind (match e4 with
                  | Some e =>
                      modify (set_successful false) ;;;
                      emit (EvUpdateAppsubOverallStatus true (prependKustomizeError m3 e)) ;;;
                      ret (prependKustomizeError m3 e)
                  | None => ret m3
                  end) k s4) = resultOf (k m4 (lowered e4 s4)) /\
            after (bind (match e4 with
                  | Some e =>
                      modify (set_successful false) ;;;
                      emit (EvUpdateAppsubOverallStatus true (prependKustomizeError m3 e)) ;;;
                      ret (prependKustomizeError m3 e)
                  | None => ret m3
                  end) k s4) = after (k m4 (lowered e4 s4))).
  { intros k. destruct e4; [|now rewrite bind_ret].
    unfold bind, modify, emit, ret, resultOf, after. simpl.
    now destruct (k _ _) as [[? ?] ?]. }
  destruct (Hkus (fun errMsg4 =>
              ghsi5 <- gets id ;;
              err5 <- subscribeHelmCharts env (indexFile ghsi5) ;;
              noteFailure errMsg4 err5)) as [Hres Haft].
  unfold id in Hres, Haft. rewrite Hres, Haft.
  rewrite bind_gets. rewrite (bind_known _ _ _ _ _ _ H5).
  cbn [resultOf after traceOf fst snd]. rewrite noteFailure_run.
  cbn [resultOf after traceOf fst snd]. split; reflexivity.
Qed.

(** The guard at the end of a reconcile whose classification succeeded. *)
Lemma reconcile_empty_list (commit : string)
    (s sA s1 s2 s3 s4 s5 : SubscriberItem) (tA t1 t2 t3 t4 t5 : list Event)
    (e1 e2 e3 e4 e5 : option error) :
  sortClonedGitRepo env (set_resources [] s) = (Returns None, sA, tA) ->
  subscribeResources env (crdsAndNamespaceFiles sA) sA = (Returns e1, s1, t1) ->
  subscribeResources env (rbacFiles (lowered e1 s1)) (lowered e1 s1) = (Returns e2, s2, t2) ->
  subscribeResources env (otherFiles (lowered e2 s2)) (lowered e2 s2) = (Returns e3, s3, t3) ->
  subscribeKustomizations env (lowered e3 s3) = (Returns e4, s4, t4) ->
  subscribeHelmCharts env (indexFile (lowered e4 s4)) (lowered e4 s4) = (Returns e5, s5, t5) ->
  resources (lowered e5 s5) = [] ->
  successful (lowered e5 s5) = false ->
  let r := reconcile env commit s in
  resultOf r = Returns (Some (errors_New (truncate 2000 (tickMessage e1 e2 e3 e4 e5)))) /\
  after r = lowered e5 s5 /\
  applied (traceOf r) = [].
Proof.
  intros HA H1 H2 H3 H4 H5 Hempty Hflag r. subst r.
  destruct (subscribeBuckets_chain sA s1 s2 s3 s4 s5 t1 t2 t3 t4 t5 e1 e2 e3 e4 e5
              H1 H2 H3 H4 H5) as [Hres Haft].
  destruct (sortClonedGitRepo_build env (set_resources [] s)) as [_ HtA].
  destruct (subscribeBuckets_build env sA) as [_ HtB].
  rewrite HA in HtA. cbn [traceOf snd] in HtA.
  unfold reconcile. rewrite bind_modify, (bind_known _ _ _ _ _ _ HA).
  cbn [resultOf after traceOf fst snd].
  rewrite bind_run, Hres, Haft. cbv zeta.
  unfold applyResources. rewrite bind_gets. unfold id. rewrite Hempty, Hflag.
  cbn [resultOf after traceOf fst snd length Nat.eqb negb andb ret app].
  repeat split.
  rewrite app_nil_r, applied_app.
  now rewrite (build_events_quiet _ HtA), (build_events_quiet _ HtB).
Qed.

(** C6: for a tick that gets as far as the buckets (it is not held back by
    the webhook, the fetch returns a commit, the drift gate lets it pass and
    the classification succeeds), when the resource list is empty after the
    five buckets and the [successful] flag is down, the tick returns an
    error and hands nothing to the synchronizer.  The message of the error
    is the message built from the errors of the buckets, cut by [%.2000s] to
    its first 2000 runes: it is a prefix of that message, has at most 8000
    bytes, and is the whole message when that has no more than 2000 bytes.
    The message built from the buckets is the concatenation of their error
    strings, joined with commas, the Kustomize one first under its heading,
    when none of the strings is empty. *)
Theorem empty_list_is_not_applied (commit : string)
    (s sF sG sA s1 s2 s3 s4 s5 : SubscriberItem) (tF tG tA t1 t2 t3 t4 t5 : list Event)
    (e1 e2 e3 e4 e5 : option error) :
  webhookEnabled s && successful s = false ->
  updateAndClone env s = (Returns (commit, None), sF, tF) ->
  driftGate commit sF = (Returns false, sG, tG) ->
  sortClonedGitRepo env (set_resources [] sG) = (Returns None, sA, tA) ->
  subscribeResources env (crdsAndNamespaceFiles sA) sA = (Returns e1, s1, t1) ->
  subscribeResources env (rbacFiles (lowered e1 s1)) (lowered e1 s1) = (Returns e2, s2, t2) ->
  subscribeResources env (otherFiles (lowered e2 s2)) (lowered e2 s2) = (Returns e3, s3, t3) ->
  subscribeKustomizations env (lowered e3 s3) = (Returns e4, s4, t4) ->
  subscribeHelmCharts env (indexFile (lowered e4 s4)) (lowered e4 s4) = (Returns e5, s5, t5) ->
  resources (lowered e5 s5) = [] ->
  successful (lowered e5 s5) = false ->
  let r := doSubscription env s in
  let errMsg := tickMessage e1 e2 e3 e4 e5 in
  exists err,
    resultOf r = Returns (Some err) /\
    Error err = truncate 2000 errMsg /\
    (exists rest, errMsg = Error err +:+ rest) /\
    (String.length (Error err) <= 4 * 2000)%nat /\
    ((String.length errMsg <= 2000)%nat -> Error err = errMsg) /\
    ((forall e, Some e ∈ [e1; e2; e3; e5] -> Error e <> "") ->
     errMsg = String.concat ", " (bucketErrorStrings e1 e2 e3 e4 e5)) /\
    after r = lowered e5 s5 /\
    applied (traceOf r) = [].
Proof.
  intros Hweb Hfetch Hgate HA H1 H2 H3 H4 H5 Hempty Hflag r errMsg. subst r errMsg.
  destruct (reconcile_empty_list commit sG sA s1 s2 s3 s4 s5 tA t1 t2 t3 t4 t5
              e1 e2 e3 e4 e5 HA H1 H2 H3 H4 H5 Hempty Hflag) as (Hres & Haft & Hap).
  destruct (updateAndClone_fetch env s) as [_ HtF].
  rewrite Hfetch in HtF. cbn [traceOf snd] in HtF.
  apply fetch_events_quiet in HtF as [_ HtF].
  pose proof (driftGate_silent commit sF) as HtG.
  rewrite Hgate in HtG. cbn [traceOf snd] in HtG.
  rewrite (doSubscription_reconciles env s sF sG commit tF tG Hweb Hfetch Hgate).
  cbn [resultOf after traceOf fst snd].
  exists (errors_New (truncate 2000 (tickMessage e1 e2 e3 e4 e5))).
  split; [exact Hres|]. split; [reflexivity|].
  split; [apply firstRunes_prefix|].
  split; [apply (firstRunes_length _ 2000 0); lia|].
  split; [intros Hshort; apply firstRunes_all; simpl; lia|].
  split; [apply tickMessage_joined|].
  split; [exact Haft|].
  change (applied (EvUpdateLastUpdateTime :: ?t)) with (applied t).
  now rewrite !applied_app, HtF, HtG, Hap.
Qed.

End Guard.

(** ** The buckets between ticks *)

Section Buckets.
Context {consts : ApiConstants} (env : Env).

(** The classification reads nothing of the buckets, and when it succeeds
    it overwrites all of them. *)
Lemma sortClonedGitRepo_from_scratch (s : SubscriberItem) :
  let r := sortClonedGitRepo env (set_resources [] s) in
  let r' := sortClonedGitRepo env (set_resources [] (dropBuckets s)) in
  resultOf r' = resultOf r /\ traceOf r' = traceOf r /\
  (resultOf r = Returns None -> after r' = after r).
Proof.
  unfold sortClonedGitRepo, resourcePathOf, Subscription_of, bind, gets, modify, emit, ret,
    resultOf, after, traceOf, id.
  cbn -[get String.eqb].
  repeat (match goal with
          | |- context [match ?x with _ => _ end] =>
              lazymatch x with
              | context [match _ with _ => _ end] => fail
              | _ => destruct x
              end
          end; cbn -[get String.eqb]);
    repeat split; try discriminate; intros _; now destruct s.
Qed.

(** A rendered document that is a Kubernetes resource is subscribed
    whatever [checkSubscriptionAnnotation] says of it. *)
Lemma subscribeRendered_ignores_check (file : Manifest) (t : kubeResource)
    (rest : list Manifest) :
  typed file = inr t -> APIVersion t <> "" -> Kind t <> "" ->
  subscribeRendered env (file :: rest)
  = (subscribeResourceFile env file ;;; subscribeRendered env rest).
Proof.
  intros Ht Hv Hk. simpl. rewrite Ht.
  destruct (String.eqb_spec (APIVersion t) "") as [|_]; [contradiction|].
  destruct (String.eqb_spec (Kind t) "") as [|_]; [contradiction|].
  reflexivity.
Qed.

(** When a Kustomize root fails, the resource list is empty right after
    the Kustomize step. *)
Lemma subscribeKustomizeDirs_failure (dirs : list (string * string)) (s : SubscriberItem)
    (err : error) :
  resultOf (subscribeKustomizeDirs env dirs s) = Returns (Some err) ->
  resources (after (subscribeKustomizeDirs env dirs s)) = [].
Proof.
  revert s. induction dirs as [|[key kustomizeDir] rest IH]; intros s; [discriminate|].
  simpl. rewrite bind_gets, bind_emit. unfold id.
  destruct (VerifyAndOverrideKustomize env _ _ _) as [e|].
  { rewrite bind_modify. reflexivity. }
  rewrite bind_emit.
  destruct (RunKustomizeBuild env kustomizeDir) as [e|rs].
  { rewrite bind_modify. reflexivity. }
  rewrite bind_run.
  destruct (resultOf (subscribeRendered env rs s)) as [[]|why]; [|discriminate].
  cbn [resultOf after traceOf fst snd]. apply IH.
Qed.

(** A reconcile that returns nil has emptied the buckets. *)
Lemma reconcile_success_clears (commit : string) (s : SubscriberItem) :
  resultOf (reconcile env commit s) = Returns None ->
  bucketsCleared (after (reconcile env commit s)) /\
  commitID (after (reconcile env commit s)) = commit /\
  successful (after (reconcile env commit s)) = true.
Proof.
  unfold reconcile. rewrite bind_modify, bind_run.
  destruct (resultOf (sortClonedGitRepo env (set_resources [] s))) as [[e|]|why];
    [discriminate| |discriminate].
  cbv zeta. rewrite bind_run.
  destruct (resultOf (subscribeBuckets env _)) as [errMsg|why]; [|discriminate].
  cbv zeta. unfold applyResources. rewrite bind_gets. unfold id.
  destruct (_ && _); [discriminate|].
  rewrite bind_emit.
  destruct (ProcessSubResources env _ _ _) as [e|]; [discriminate|].
  intros _. unfold bucketsCleared. now repeat split.
Qed.

(** What a reconcile does is what it does from empty buckets. *)
Lemma reconcile_from_scratch (commit : string) (s : SubscriberItem) :
  resultOf (reconcile env commit (dropBuckets s)) = resultOf (reconcile env commit s) /\
  traceOf (reconcile env commit (dropBuckets s)) = traceOf (reconcile env commit s).
Proof.
  destruct (sortClonedGitRepo_from_scratch s) as (Hres & Htr & Haft).
  unfold reconcile. rewrite !bind_modify, !bind_run.
  rewrite Hres, Htr.
  destruct (resultOf (sortClonedGitRepo env (set_resources [] s))) as [[e|]|why].
  - split; reflexivity.
  - rewrite Haft by reflexivity. split; reflexivity.
  - split; reflexivity.
Qed.

Lemma fetchFrame_buckets (s s1 : SubscriberItem) :
  fetchFrame s s1 -> bucketsOf s1 = bucketsOf s.
Proof. unfold fetchFrame. intros <-. reflexivity. Qed.

Lemma driftGate_buckets (commit : string) (s : SubscriberItem) :
  bucketsOf (after (driftGate commit s)) = bucketsOf s.
Proof.
  unfold driftGate, bind, gets, modify, ret, after. simpl.
  repeat case_match; simplify_eq; reflexivity.
Qed.

(** A tick that does not classify the repository has ended before the
    reconcile: it leaves the buckets as they were and hands nothing over. *)
Lemma doSubscription_early_end (s : SubscriberItem) :
  classified (traceOf (doSubscription env s)) = false ->
  bucketsOf (after (doSubscription env s)) = bucketsOf s /\
  applied (traceOf (doSubscription env s)) = [].
Proof.
  unfold doSubscription. rewrite bind_emit, bind_gets. unfold id.
  cbn [resultOf after traceOf fst snd].
  destruct (webhookEnabled s && successful s); [now split|].
  destruct (updateAndClone_fetch env s) as [Hframe Hevents].
  apply fetchFrame_buckets in Hframe.
  apply fetch_events_quiet in Hevents as [_ Hap].
  rewrite bind_run.
  set (fetch := updateAndClone env s) in *. clearbody fetch.
  destruct (resultOf fetch) as [[commit [err|]]|why];
    cbn [resultOf after traceOf fst snd].
  - intros _. rewrite bind_gets. unfold id.
    destruct (Channel_ (base (after fetch)));
      unfold applied in *; cbn; rewrite ?omap_app, ?Hap; split; (exact Hframe || reflexivity).
  - rewrite bind_run.
    pose proof (driftGate_silent commit (after fetch)) as Hsilent.
    pose proof (driftGate_buckets commit (after fetch)) as Hgate.
    set (gate := driftGate commit (after fetch)) in *. clearbody gate.
    destruct (resultOf gate) as [[|]|why]; cbn [resultOf after traceOf fst snd].
    + intros _. unfold applied in *. cbn. rewrite ?omap_app, Hsilent, Hap.
      split; [now rewrite Hgate | reflexivity].
    + change (classified (EvUpdateLastUpdateTime :: ?t)) with (classified t).
      rewrite !classified_app, reconcile_classified, !orb_true_r. discriminate.
    + intros _. unfold applied in *. cbn. rewrite Hsilent, app_nil_r.
      split; [now rewrite Hgate | exact Hap].
  - intros _. unfold applied in *. split; [exact Hframe | exact Hap].
Qed.

(** C9, as the code has it: a tick that reconciles and returns nil leaves
    the seven buckets empty and the flag up; a tick that ends before the
    reconcile (held by the webhook, after a failed fetch, or skipped by the
    drift gate), which is a tick that does not classify the repository,
    leaves the buckets as they were and hands nothing to the synchronizer;
    and what a reconcile does, and hands to the synchronizer, is the same
    as if the buckets had been empty.  A tick that reconciles and fails is
    not cleaned up. *)
Theorem buckets_cleared_on_success (s : SubscriberItem) :
  let tick := doSubscription env s in
  (resultOf tick = Returns None -> classified (traceOf tick) = true ->
   bucketsCleared (after tick) /\ successful (after tick) = true) /\
  (classified (traceOf tick) = false ->
   bucketsOf (after tick) = bucketsOf s /\ applied (traceOf tick) = []) /\
  (forall commit : string,
     resultOf (reconcile env commit (dropBuckets s)) = resultOf (reconcile env commit s) /\
     traceOf (reconcile env commit (dropBuckets s)) = traceOf (reconcile env commit s)).
Proof.
  intros tick. subst tick. split; [|split].
  - intros Hnil Hclassified.
    destruct (doSubscription_cases env s) as [[Hcl _]|(commit & s2 & Hres & Haft)].
    + rewrite Hcl in Hclassified. discriminate.
    + rewrite Hres in Hnil. rewrite Haft.
      destruct (reconcile_success_clears commit s2 Hnil) as (Hb & _ & Hok).
      now split.
  - apply doSubscription_early_end.
  - intros commit. apply reconcile_from_scratch.
Qed.

End Buckets.

(** ** Runs on a concrete repository *)

Section Concrete.
Import GitRuns.
#[local] Existing Instance upstreamConstants.

(** C1: a Kustomize rendering holds a Subscription of the group
    [apps.open-cluster-management.io] that carries [cluster-admin: "true"].
    [checkSubscriptionAnnotation] returns its error, which is only logged:
    the tick succeeds and hands that very subscription to the
    synchronizer. *)
Theorem nested_admin_subscription_is_applied :
  let tick := doSubscription (envOf nestedAdminRepo) (started "") in
  checkSubscriptionAnnotation adminSubscription
  = Some (errors_New "contains apps.open-cluster-management.io/cluster-admin = true annotation.") /\
  resultOf tick = Returns None /\
  applied (traceOf tick) = [[unitOf adminSubscription]].
Proof. vm_compute. repeat split. Qed.

(** C5: the repository holds a deployment, a Kustomize root whose build
    fails and a chart.  The Kustomize step empties the resource list and
    reports its error, the Helm step that follows adds the release of the
    chart, and the tick hands that one release to the synchronizer and
    succeeds, recording the commit. *)
Theorem helm_release_applied_after_kustomize_failure :
  let tick := doSubscription (envOf (brokenKustomizeRepo [("nginx", "1.0")])) (started "") in
  In (EvUpdateAppsubOverallStatus true "failed to apply klustomization: kustomize build failed")
     (traceOf tick) /\
  resultOf tick = Returns None /\
  applied (traceOf tick) = [[{| Resource := helmRelease "nginx"; Gvk := helmGvk |}]] /\
  successful (after tick) = true /\ commitID (after tick) = "abc".
Proof. vm_compute. repeat split. do 9 right. now left. Qed.

(** Without a chart the same failure ends the tick with an error and
    nothing is handed over. *)
Lemma kustomize_failure_without_charts :
  let tick := doSubscription (envOf (brokenKustomizeRepo [])) (started "") in
  resultOf tick
  = Returns (Some (errors_New "failed to apply klustomization: kustomize build failed")) /\
  applied (traceOf tick) = [].
Proof. vm_compute. repeat split. Qed.

(** C3, as stated, fails after the first deployment: tick 1 deploys and
    succeeds, ticks 2 to 5 skip, tick 6 classifies the repository again, and
    tick 7 skips. *)
Lemma sixth_tick_after_first_deployment_resyncs :
  let env := envOf (plainRepo None) in
  let s := started "medium" in
  (resultOf (ticks env 1 s) = Returns None /\ classified (traceOf (ticks env 1 s)) = true /\
   successful (after (ticks env 1 s)) = true /\ commitID (after (ticks env 1 s)) = "abc") /\
  map (fun n => classified (traceOf (ticks env n s))) [2; 3; 4; 5; 6; 7]%nat
  = [false; false; false; false; true; false].
Proof. vm_compute. repeat split. Qed.

Lemma medium_cycle_witness :
  let env := envOf (plainRepo None) in
  let s := after (ticks env 6 (started "medium")) in
  count s = 0 /\
  (classified (traceOf (ticks env 5 s)) = false /\ count (after (ticks env 5 s)) = 5) /\
  (classified (traceOf (ticks env 6 s)) = true /\ count (after (ticks env 6 s)) = 0).
Proof.
  intros env s.
  assert (Hcount : count s = 0) by (vm_compute; reflexivity).
  assert (Hrate : EqualFold (reconcileRate s) "medium" = true) by (vm_compute; reflexivity).
  assert (Hweb : webhookEnabled s = false) by (vm_compute; reflexivity).
  assert (Hcommit : commitID s = "abc") by (vm_compute; reflexivity).
  assert (Hknown : "abc" <> "") by discriminate.
  assert (Hok : successful s = true) by (vm_compute; reflexivity).
  assert (Hrange : 0 <= count s <= 5) by (rewrite Hcount; lia).
  assert (Hfetch : forall k : nat, count s + Z.of_nat k < 6 ->
            resultOf (updateAndClone env (after (ticks env k s))) = Returns ("abc", None)).
  { intros k Hk. rewrite Hcount in Hk.
    do 6 (destruct k as [|k]; [vm_compute; reflexivity|]). lia. }
  pose proof (medium_cycle env s "abc" Hrate Hweb Hcommit Hknown Hok Hrange Hfetch) as Hcycle.
  split; [exact Hcount|]. split.
  - destruct (Hcycle 5%nat ltac:(lia)) as [Hskip _].
    destruct Hskip as (_ & Hcl & _ & Hcnt); [rewrite Hcount; reflexivity|].
    split; [exact Hcl | rewrite Hcnt, Hcount; reflexivity].
  - destruct (Hcycle 6%nat ltac:(lia)) as [_ Hforce].
    apply Hforce. rewrite Hcount. reflexivity.
Defined.

(** C4, as stated, fails: with the tick counter at 2, the commit unchanged
    and the last apply successful, the tick skips the classification but
    has cloned the repository. *)
Lemma skipped_tick_clones_the_repository :
  let env := envOf (plainRepo None) in
  let s := after (ticks env 2 (started "medium")) in
  (EqualFold (reconcileRate s) "medium" = true /\ commitID s = "abc" /\
   successful s = true /\ count s = 2) /\
  resultOf (doSubscription env s) = Returns None /\
  classified (traceOf (doSubscription env s)) = false /\
  fetched (traceOf (doSubscription env s)) = true.
Proof. vm_compute. repeat split. Qed.

Lemma skipped_tick_fetches_witness :
  let env := envOf (plainRepo None) in
  let s := after (ticks env 2 (started "medium")) in
  let fetch := updateAndClone env s in
  doSubscriptionWithRetries (fun _ => env) 3 s =
  (Returns tt, set_count 3 (after fetch),
   (EvUpdateLastUpdateTime :: traceOf fetch
    ++ [EvUpdateSubscriptionStatus SubscriptionSubscribed ""])%list) /\
  fetched (traceOf fetch) = true /\
  classified (traceOf fetch) = false /\
  applied (traceOf fetch) = [] /\
  referencesFrame s (after fetch).
Proof.
  intros env s fetch.
  apply (skipped_tick_fetches (fun _ => env) 3 s).
  - vm_compute; reflexivity.
  - vm_compute; reflexivity.
  - vm_compute; discriminate.
  - vm_compute; reflexivity.
  - vm_compute. split; [discriminate | reflexivity].
  - lia.
  - vm_compute; reflexivity.
Defined.

Lemma empty_list_is_not_applied_witness :
  let r := doSubscription (envOf unreadableRepo) (started "") in
  exists err,
    resultOf r = Returns (Some err) /\
    Error err
    = String.concat ", "
        ["failed to apply klustomization: kustomize build failed";
         "open /tmp/ns1/app/crd.yaml: permission denied";
         "open /tmp/ns1/app/role.yaml: permission denied"] /\
    applied (traceOf r) = [].
Proof.
  intros r.
  edestruct (empty_list_is_not_applied (envOf unreadableRepo) "abc" (started ""))
    as (err & Hres & Herr & _ & _ & _ & _ & _ & Hap); [reflexivity .. |].
  exists err. split; [exact Hres|]. split; [|exact Hap].
  rewrite Herr. vm_compute. reflexivity.
Defined.

(** C9, as stated, fails when the synchronizer rejects the resources: the
    tick returns that error and the item keeps its resource list, its files
    and its index. *)
Lemma buckets_left_after_failed_apply :
  let tick := doSubscription (envOf (plainRepo (Some (failure "denied")))) (started "") in
  resultOf tick = Returns (Some (failure "denied")) /\
  resources (after tick) = [unitOf deployment] /\
  otherFiles (after tick) = ["/tmp/ns1/app/deploy.yaml"] /\
  indexFile (after tick) = Some {| Entries := [] |}.
Proof. vm_compute. repeat split. Qed.

Lemma buckets_cleared_on_success_witness :
  let left := after (doSubscription (envOf (plainRepo (Some (failure "denied")))) (started "")) in
  let tick := doSubscription (envOf (plainRepo None)) left in
  let offline := doSubscription Scenarios.offlineEnv left in
  resources left = [unitOf deployment] /\
  resultOf tick = Returns None /\
  bucketsCleared (after tick) /\
  applied (traceOf tick) = [[unitOf deployment]] /\
  bucketsOf (after offline) = bucketsOf left /\
  applied (traceOf offline) = [].
Proof.
  intros left tick offline.
  destruct (buckets_cleared_on_success (envOf (plainRepo None)) left) as (Hclear & _).
  destruct (buckets_cleared_on_success Scenarios.offlineEnv left) as (_ & Hkeep & _).
  split; [vm_compute; reflexivity|].
  split; [vm_compute; reflexivity|].
  split; [apply Hclear; vm_compute; reflexivity|].
  split; [vm_compute; reflexivity|].
  apply Hkeep. vm_compute. reflexivity.
Defined.

End Concrete.

End Runs.

(** * Properties of the watch predicates *)

Section WatchPredicates.
Import Predicates.

Lemma conditionsChanged_false (m : gmap string string) (conds : list Condition) :
  conditionsChanged m conds = false <->
  NoDup (condType <$> conds) /\ m = list_to_map (statusPairs conds).
Proof.
  revert m. induction conds as [|cond rest IH]; intros m; simpl.
  - rewrite negb_false_iff, Nat.eqb_eq, map_size_empty_iff.
    split; [intros ->; split; [constructor | reflexivity] | now intros [_ ->]].
  - rewrite NoDup_cons.
    destruct (m !! condType cond) as [st|] eqn:Hm.
    + destruct (String.eqb_spec st (condStatus cond)) as [->|Hne]; simpl.
      * rewrite IH. split.
        -- intros [Hnd Hdel]. split; [split; [|exact Hnd]|].
           ++ intros Hin. apply list_elem_of_fmap in Hin as (c & Hc & Hin).
              assert (Hnone : delete (condType cond) m !! condType cond = None)
                by apply lookup_delete_eq.
              rewrite Hdel in Hnone. apply not_elem_of_list_to_map_2 in Hnone.
              apply Hnone. unfold statusPairs. rewrite <- list_fmap_compose.
              apply list_elem_of_fmap. exists c. split; [exact Hc | exact Hin].
           ++ rewrite <- Hdel. rewrite insert_delete_eq. symmetry. now apply insert_id.
        -- intros [[Hnotin Hnd] ->]. split; [exact Hnd|].
           apply delete_insert_id. apply not_elem_of_list_to_map_1.
           unfold statusPairs. now rewrite <- list_fmap_compose.
      * split; [discriminate|]. intros [_ ->].
        rewrite lookup_insert_eq in Hm. congruence.
    + split; [discriminate|]. intros [_ ->].
      rewrite lookup_insert_eq in Hm. discriminate.
Qed.

Lemma conditionMap_snoc (conds : list Condition) (cond : Condition) :
  conditionMap (conds ++ [cond]) = <[condType cond := condStatus cond]> (conditionMap conds).
Proof. unfold conditionMap. now rewrite foldl_app. Qed.

Lemma conditionMap_distinct (conds : list Condition) :
  NoDup (condType <$> conds) -> conditionMap conds = list_to_map (statusPairs conds).
Proof.
  induction conds as [|cond conds IH] using rev_ind; intros Hnd; [reflexivity|].
  rewrite conditionMap_snoc.
  rewrite fmap_app in Hnd. apply NoDup_app in Hnd as (Hnd & Hnotin & _).
  rewrite IH by exact Hnd.
  assert (Hperm : statusPairs (conds ++ [cond])
                  ≡ₚ (condType cond, condStatus cond) :: statusPairs conds).
  { unfold statusPairs. rewrite fmap_app. simpl. now rewrite Permutation_app_comm. }
  assert (Hkeys : NoDup (statusPairs (conds ++ [cond])).*1).
  { unfold statusPairs. rewrite <- list_fmap_compose, fmap_app.
    apply NoDup_app. repeat split; [exact Hnd | exact Hnotin | apply NoDup_singleton]. }
  now rewrite (list_to_map_proper _ _ Hkeys Hperm).
Qed.

(** X1: [UpdateFunc] of the cluster predicate filters an update out exactly
    when the deletion timestamps are the same, the labels are the same, the
    condition types of the new object are pairwise distinct, and the statuses
    recorded by type from the old object are those of the new one. *)
Theorem ClusterUpdateFunc_filters (oldcl newcl : ManagedCluster) :
  ClusterUpdateFunc oldcl newcl = false <->
  mcDeletionTimestamp oldcl = mcDeletionTimestamp newcl /\
  mcLabels oldcl = mcLabels newcl /\
  NoDup (condType <$> mcConditions newcl) /\
  conditionMap (mcConditions oldcl) = list_to_map (statusPairs (mcConditions newcl)).
Proof.
  unfold ClusterUpdateFunc.
  destruct (decide (mcDeletionTimestamp oldcl = mcDeletionTimestamp newcl)) as [Ht|Ht].
  - rewrite (bool_decide_eq_true_2 _ Ht). simpl.
    destruct (decide (mcLabels oldcl = mcLabels newcl)) as [Hl|Hl].
    + rewrite (bool_decide_eq_true_2 _ Hl). simpl.
      rewrite conditionsChanged_false. tauto.
    + rewrite (bool_decide_eq_false_2 _ Hl). simpl. split; [discriminate | tauto].
  - rewrite (bool_decide_eq_false_2 _ Ht). simpl. split; [discriminate | tauto].
Qed.

(** X2: an update that leaves the deletion timestamp and the labels alone
    and carries the same statuses by type, in any order and with any
    transition times, reasons and messages, is filtered out, provided the
    condition types are pairwise distinct on both sides. *)
Theorem ClusterUpdateFunc_ignores_heartbeat (oldcl newcl : ManagedCluster) :
  mcDeletionTimestamp oldcl = mcDeletionTimestamp newcl ->
  mcLabels oldcl = mcLabels newcl ->
  NoDup (condType <$> mcConditions oldcl) ->
  statusPairs (mcConditions oldcl) ≡ₚ statusPairs (mcConditions newcl) ->
  ClusterUpdateFunc oldcl newcl = false.
Proof.
  intros Ht Hl Hnd Hperm.
  assert (Hfst : condType <$> mcConditions oldcl ≡ₚ condType <$> mcConditions newcl).
  { assert (H := fmap_Permutation fst _ _ Hperm).
    unfold statusPairs in H. now rewrite <- !list_fmap_compose in H. }
  unfold ClusterUpdateFunc.
  rewrite (bool_decide_eq_true_2 _ Ht), (bool_decide_eq_true_2 _ Hl). simpl.
  apply conditionsChanged_false. split.
  - now rewrite <- Hfst.
  - rewrite conditionMap_distinct by exact Hnd.
    apply list_to_map_proper; [|exact Hperm].
    unfold statusPairs. now rewrite <- list_fmap_compose.
Qed.

(** X3: an object whose conditions repeat a type passes the filter even when
    nothing changed: the update of an object to itself is filtered out
    exactly when its condition types are pairwise distinct. *)
Theorem ClusterUpdateFunc_same_object (cl : ManagedCluster) :
  ClusterUpdateFunc cl cl = false <-> NoDup (condType <$> mcConditions cl).
Proof.
  unfold ClusterUpdateFunc. rewrite !bool_decide_eq_true_2 by reflexivity. simpl.
  rewrite conditionsChanged_false. split.
  - tauto.
  - intros Hnd. split; [assumption|]. now apply conditionMap_distinct.
Qed.

(** X4: for the ACM secret, the ArgoCD secret and the ArgoCD server
    predicates, an update passes exactly when the old or the new object
    would pass on creation, and a deletion passes exactly when a creation
    would. *)
Theorem label_predicates_compose (o n : Labelled) :
  (AcmUpdateFunc o n = AcmCreateFunc o || AcmCreateFunc n) /\
  (ArgocdUpdateFunc o n = ArgocdCreateFunc o || ArgocdCreateFunc n) /\
  (ArgocdServerUpdateFunc o n = ArgocdServerCreateFunc o || ArgocdServerCreateFunc n) /\
  AcmDeleteFunc o = AcmCreateFunc o /\
  ArgocdDeleteFunc o = ArgocdCreateFunc o /\
  ArgocdServerDeleteFunc o = ArgocdServerCreateFunc o.
Proof.
  unfold AcmUpdateFunc, AcmCreateFunc, ArgocdUpdateFunc, ArgocdCreateFunc,
    ArgocdServerUpdateFunc, ArgocdServerCreateFunc, labelIs, isArgocdServer.
  repeat split.
  - destruct (GetLabels o !! _) as [v|], (GetLabels n !! _) as [w|]; simpl;
      repeat destruct (String.eqb _ _); reflexivity.
  - destruct (GetLabels o !! _) as [v|], (GetLabels n !! _) as [w|]; simpl;
      repeat destruct (String.eqb _ _); reflexivity.
  - destruct (objLabels o) as [l|], (objLabels n) as [k|]; simpl;
      repeat destruct (String.eqb _ _); reflexivity.
Qed.

(** X5: a managed cluster secret that carries the ArgoCD label, whatever its
    value, is let through on deletion only, and one that does not carry it
    on creation and update only; an update is judged by the new object
    alone. *)
Theorem managed_secret_predicates (o n : Labelled) :
  ManagedSecretDeleteFunc n = negb (ManagedSecretCreateFunc n) /\
  ManagedSecretUpdateFunc o n = ManagedSecretCreateFunc n /\
  (ManagedSecretCreateFunc n = false <-> is_Some (GetLabels n !! ArgocdClusterSecretLabel)).
Proof.
  unfold ManagedSecretDeleteFunc, ManagedSecretCreateFunc, ManagedSecretUpdateFunc,
    isSecretInArgo.
  destruct (decide (is_Some (GetLabels n !! ArgocdClusterSecretLabel))) as [H|H].
  - rewrite (bool_decide_eq_true_2 _ H). now repeat split.
  - rewrite (bool_decide_eq_false_2 _ H). repeat split; [discriminate | contradiction].
Qed.

End WatchPredicates.

(** * Properties of the add-on manager *)

Section AddonManager.
Import Addon.

(** X6: [HostedClusterInfo] answers the hosted mode exactly when the cluster
    enables hosted add-ons, is deployed in [Hosted] mode and names a
    non-empty hosting cluster, and then returns that name; in every other
    case it answers [Default] with an empty name. *)
Theorem HostedClusterInfo_hosted (cluster : ManagedCluster) :
  let annotations := default ∅ (clusterAnnotations cluster) in
  let hosted :=
    annotations !! AnnotationEnableHostedModeAddons = Some "true" /\
    annotations !! AnnotationKlusterletDeployMode = Some "Hosted" /\
    exists name, annotations !! AnnotationKlusterletHostingClusterName = Some name /\
                 name <> "" in
  (hosted ->
   exists name, annotations !! AnnotationKlusterletHostingClusterName = Some name /\
                HostedClusterInfo cluster = ("Hosted", name)) /\
  (~ hosted -> HostedClusterInfo cluster = ("Default", "")).
Proof.
  intros annotations hosted. subst hosted. unfold HostedClusterInfo. fold annotations.
  unfold get.
  destruct (Nat.eqb_spec (size annotations) 0) as [Hempty|Hsize].
  { apply map_size_empty_iff in Hempty. rewrite Hempty. split.
    - intros (H & _). rewrite lookup_empty in H. discriminate.
    - reflexivity. }
  destruct (annotations !! AnnotationEnableHostedModeAddons) as [enabled|] eqn:He; simpl.
  2:{ split; [intros (H & _); discriminate | reflexivity]. }
  destruct (String.eqb_spec enabled "true") as [->|Hne]; simpl.
  2:{ split; [intros (H & _); congruence | reflexivity]. }
  destruct (annotations !! AnnotationKlusterletDeployMode) as [mode|] eqn:Hm; simpl.
  2:{ split; [intros (_ & H & _); discriminate | reflexivity]. }
  destruct (String.eqb_spec mode "Hosted") as [->|Hne]; simpl.
  2:{ split; [intros (_ & H & _); congruence | reflexivity]. }
  destruct (annotations !! AnnotationKlusterletHostingClusterName) as [name|] eqn:Hn.
  2:{ split; [intros (_ & _ & n & H & _); discriminate | reflexivity]. }
  destruct name as [|c r]; simpl.
  - split; [intros (_ & _ & n & H & Hne); congruence | reflexivity].
  - split; [intros _; eauto|]. intros Hno. exfalso. apply Hno.
    repeat split. exists (String c r). split; [reflexivity | discriminate].
Qed.

(** X7: when [AddonInstallNamespaceFunc] returns without an error, the
    namespace it returns is not empty. *)
Theorem AddonInstallNamespaceFunc_not_empty
    (getCluster : string -> error + ManagedCluster)
    (fromConfig : ManagedClusterAddOn -> string * option error)
    (addon : ManagedClusterAddOn) (ns : string) :
  AddonInstallNamespaceFunc getCluster fromConfig addon = (ns, None) -> ns <> "".
Proof.
  unfold AddonInstallNamespaceFunc.
  destruct (getCluster (addonNamespace addon)) as [err|cluster]; [discriminate|].
  destruct (HostedClusterInfo cluster) as [mode name].
  destruct (String.eqb mode "Hosted").
  { intros [= <-]. discriminate. }
  destruct (fromConfig addon) as [addonNS [err|]]; [discriminate|].
  destruct (String.eqb_spec addonNS "") as [->|Hne]; intros [= <-];
    [discriminate | exact Hne].
Qed.

Lemma last_cons_default {A : Type} (x d : A) (l : list A) :
  List.last (x :: l) d = List.last l x.
Proof.
  revert x d. induction l as [|y l IH]; intros x d; [reflexivity|].
  change (List.last (y :: l) d = List.last (y :: l) x). now rewrite !IH.
Qed.

Lemma foldl_setVariable (vars : list CustomizedVariable) (r : Resources) :
  RequestsMemory (foldl setVariable r vars) = lastValue "RequestMemory" (RequestsMemory r) vars /\
  LimitsMemory (foldl setVariable r vars) = lastValue "LimitsMemory" (LimitsMemory r) vars.
Proof.
  revert r. induction vars as [|v vars IH]; intros r; [split; reflexivity|].
  simpl foldl. destruct (IH (setVariable r v)) as [-> ->].
  unfold lastValue, setVariable. rewrite !filter_cons.
  destruct (String.eqb_spec (varName v) "RequestMemory") as [Hr|Hr],
           (String.eqb_spec (varName v) "LimitsMemory") as [Hl|Hl];
    try (rewrite Hr in Hl; discriminate);
    repeat case_decide; try congruence;
    rewrite ?fmap_cons, ?last_cons_default; split; reflexivity.
Qed.

(** X8: the memory request handed to the chart is the value of the last
    customized variable named [RequestMemory], or [128Mi] when there is
    none, and the memory limit that of the last one named [LimitsMemory], or
    [2Gi]. *)
Theorem toAddonResources_last_wins {V : Type} (toValues : Resources -> error + V)
    (vars : list CustomizedVariable) :
  toAddonResources toValues vars
  = toValues {| RequestsMemory := lastValue "RequestMemory" "128Mi" vars;
                LimitsMemory := lastValue "LimitsMemory" "2Gi" vars |}.
Proof.
  unfold toAddonResources. f_equal.
  destruct (foldl_setVariable vars {| RequestsMemory := "128Mi"; LimitsMemory := "2Gi" |})
    as [Hr Hl].
  destruct (foldl setVariable _ vars) as [req lim]. simpl in *. now subst.
Qed.

Section NewestImage.
Context {Version : Type} (NewVersion : string -> option Version)
        (LessThan : Version -> Version -> bool).

#[local] Abbreviation offer := (offer NewVersion).
#[local] Abbreviation newest := (newest NewVersion LessThan).

Hypothesis LessThan_irrefl : forall v, LessThan v v = false.
Hypothesis LessThan_trans :
  forall a b c, LessThan a b = true -> LessThan b c = true -> LessThan a c = true.

Lemma pickImage_newest (seen : list ConfigMap) (acc : option Version * string)
    (cm : ConfigMap) :
  newest seen acc -> newest (seen ++ [cm]) (pickImage NewVersion LessThan acc cm).
Proof.
  assert (Hskip : offer cm = None -> newest seen acc -> newest (seen ++ [cm]) acc).
  { intros Hnone. destruct acc as [[v|] image]; simpl.
    - intros [(cm0 & Hin & Hoffer) Hmax]. split.
      + exists cm0. split; [apply elem_of_app; now left | exact Hoffer].
      + intros cm' v' image' [Hin'|Hin']%elem_of_app Hoffer'; [eauto|].
        apply list_elem_of_singleton in Hin'. congruence.
    - intros [-> Hnone']. split; [reflexivity|].
      intros cm' [Hin'|Hin']%elem_of_app; [eauto|].
      apply list_elem_of_singleton in Hin'. congruence. }
  intros Hacc. destruct acc as [newestVersion image].
  unfold pickImage. pose proof (eq_refl (offer cm)) as Ho. unfold offer at 2 in Ho.
  destruct (String.eqb (get (cmLabels cm) "ocm-release-version") "");
    [exact (Hskip Ho Hacc)|].
  destruct (NewVersion (get (cmLabels cm) "ocm-release-version")) as [current|];
    [|exact (Hskip Ho Hacc)].
  assert (Hnew : forall v' image',
             offer cm = Some (v', image') -> v' = current).
  { intros v' image' Hoffer'. rewrite Hoffer' in Ho.
    destruct (String.eqb _ _); congruence. }
  destruct newestVersion as [v|].
  - destruct (LessThan v current) eqn:Hlt.
    + destruct (String.eqb (get (cmData cm) "multicluster_operators_subscription") "");
        [exact (Hskip Ho Hacc)|].
      destruct Hacc as [_ Hmax]. split.
      * exists cm. split; [apply elem_of_app; right; now apply list_elem_of_singleton | exact Ho].
      * intros cm' v' image' [Hin'|Hin']%elem_of_app Hoffer'.
        -- destruct (LessThan current v') eqn:Hlt'; [|reflexivity].
           rewrite <- (Hmax cm' v' image' Hin' Hoffer'). symmetry. eauto.
        -- apply list_elem_of_singleton in Hin'. subst cm'.
           rewrite (Hnew _ _ Hoffer'). apply LessThan_irrefl.
    + destruct Hacc as [(cm0 & Hin & Hoffer) Hmax]. split.
      * exists cm0. split; [apply elem_of_app; now left | exact Hoffer].
      * intros cm' v' image' [Hin'|Hin']%elem_of_app Hoffer'; [eauto|].
        apply list_elem_of_singleton in Hin'. subst cm'.
        rewrite (Hnew _ _ Hoffer'). exact Hlt.
  - destruct (String.eqb (get (cmData cm) "multicluster_operators_subscription") "");
      [exact (Hskip Ho Hacc)|].
    destruct Hacc as [_ Hnone]. split.
    + exists cm. split; [apply elem_of_app; right; now apply list_elem_of_singleton | exact Ho].
    + intros cm' v' image' [Hin'|Hin']%elem_of_app Hoffer'.
      * rewrite (Hnone cm' Hin') in Hoffer'. discriminate.
      * apply list_elem_of_singleton in Hin'. subst cm'.
        rewrite (Hnew _ _ Hoffer'). apply LessThan_irrefl.
Qed.

Lemma foldl_pickImage_newest (items seen : list ConfigMap) (acc : option Version * string) :
  newest seen acc -> newest (seen ++ items) (foldl (pickImage NewVersion LessThan) acc items).
Proof.
  revert seen acc. induction items as [|cm items IH]; intros seen acc Hacc.
  - now rewrite app_nil_r.
  - simpl. replace (seen ++ cm :: items)%list with ((seen ++ [cm]) ++ items)%list
      by now rewrite <- app_assoc.
    apply IH, pickImage_newest, Hacc.
Qed.

(** X9: over a list of image manifests, [GetMchImage] returns no image when
    no config map offers one (a parsable release version with a non-empty
    image); otherwise it returns the image of a config map whose release
    version no other offering config map exceeds. *)
Theorem GetMchImage_newest (items : list ConfigMap) :
  exists image,
    GetMchImage NewVersion LessThan (inr items) = (image, None) /\
    ((image = "" /\ forall cm, cm ∈ items -> offer cm = None) \/
     (exists cm v, cm ∈ items /\ offer cm = Some (v, image) /\
        forall cm' v' image', cm' ∈ items -> offer cm' = Some (v', image') ->
                              LessThan v v' = false)).
Proof.
  unfold GetMchImage.
  assert (Hstart : newest [] (None, "")).
  { split; [reflexivity|]. intros cm Hin. inversion Hin. }
  apply (foldl_pickImage_newest items) in Hstart. simpl in Hstart.
  destruct (foldl _ _ items) as [[v|] image]; exists image; (split; [reflexivity|]).
  - right. destruct Hstart as [(cm & Hin & Hoffer) Hmax]. exists cm, v. eauto.
  - left. exact Hstart.
Qed.

End NewestImage.

End AddonManager.

(** * Registering and deregistering subscriptions *)

Section Registration.
Import Hub.
Context {consts : ApiConstants} {methods : JobInstancesMethods}.

Lemma registerHook_registered (a : AnsibleHooks) (subIns : Subscription) (hookFlag : string)
    (jobs : list AnsibleJob) (h : Hooks) :
  registry a !! subKeyOf subIns = Some h ->
  exists h' err,
    registerHook a subIns hookFlag jobs
    = ({| registry := <[subKeyOf subIns := h']> (registry a) |}, Returns err) /\
    lastSub h' = lastSub h.
Proof.
  intros Hreg. unfold registerHook. rewrite Hreg.
  destruct (String.eqb hookFlag PreHookType).
  - destruct (registryJobs (default [] (preHooks h)) subIns suffixFromUUID jobs) as [hks err].
    eexists _, err. split; reflexivity.
  - destruct (registryJobs (default [] (postHooks h)) subIns suffixFromUUID jobs) as [hks err].
    eexists _, err. split; reflexivity.
Qed.

Lemma addHookToRegisitry_registered (clt : Cluster) (a : AnsibleHooks) (subIns : Subscription)
    (h : Hooks) :
  registry a !! subKeyOf subIns = Some h ->
  exists h' err,
    addHookToRegisitry clt a subIns
    = ({| registry := <[subKeyOf subIns := h']> (registry a) |}, Returns err) /\
    (lastSub h' = lastSub h \/ lastSub h' = subIns).
Proof.
  intros Hreg. unfold addHookToRegisitry.
  destruct (hookPaths (subAnnotations subIns)) as [preHookPath postHookPath].
  destruct (GetHooks clt subIns preHookPath) as [preJobs ?].
  destruct (GetHooks clt subIns postHookPath) as [postJobs ?].
  assert (Hstep1 : exists a1 h1,
             (if negb (length preJobs =? 0)%nat || negb (length postJobs =? 0)%nat
              then match registry a !! subKeyOf subIns with
                   | None => (a, Panics nil_dereference)
                   | Some h0 =>
                       ({| registry := <[subKeyOf subIns :=
                                           {| preHooks := preHooks h0; postHooks := postHooks h0;
                                              lastSub := subIns |}]> (registry a) |},
                        Returns tt)
                   end
              else (a, Returns tt)) = (a1, Returns tt) /\
             registry a1 = <[subKeyOf subIns := h1]> (registry a) /\
             (lastSub h1 = lastSub h \/ lastSub h1 = subIns)).
  { destruct (negb (length preJobs =? 0)%nat || negb (length postJobs =? 0)%nat).
    - rewrite Hreg. eexists _, _. split; [reflexivity|]. split; [reflexivity|]. now right.
    - exists a, h. split; [reflexivity|]. split; [|now left].
      symmetry. now apply insert_id. }
  destruct Hstep1 as (a1 & h1 & -> & Ha1 & Hlast1).
  assert (Hreg1 : registry a1 !! subKeyOf subIns = Some h1)
    by (rewrite Ha1; apply lookup_insert_eq).
  assert (Hstep2 : exists a2 h2 err2,
             (if negb (length preJobs =? 0)%nat
              then registerHook a1 subIns PreHookType preJobs
              else (a1, Returns None)) = (a2, Returns err2) /\
             registry a2 = <[subKeyOf subIns := h2]> (registry a) /\
             (lastSub h2 = lastSub h \/ lastSub h2 = subIns)).
  { destruct (negb (length preJobs =? 0)%nat).
    - destruct (registerHook_registered a1 subIns PreHookType preJobs h1 Hreg1)
        as (h2 & err2 & -> & Hlast2).
      eexists _, h2, err2. split; [reflexivity|]. simpl.
      rewrite Ha1, insert_insert_eq. split; [reflexivity|]. now rewrite Hlast2.
    - exists a1, h1, None. auto. }
  destruct Hstep2 as (a2 & h2 & err2 & -> & Ha2 & Hlast2).
  destruct err2 as [err|].
  { exists h2, (Some err). destruct a2 as [r2]. simpl in Ha2. subst r2. auto. }
  destruct (negb (length postJobs =? 0)%nat).
  - assert (Hreg2 : registry a2 !! subKeyOf subIns = Some h2)
      by (rewrite Ha2; apply lookup_insert_eq).
    destruct (registerHook_registered a2 subIns PostHookType postJobs h2 Hreg2)
      as (h3 & err3 & -> & Hlast3).
    exists h3, err3. rewrite Ha2, insert_insert_eq. split; [reflexivity|].
    now rewrite Hlast3.
  - exists h2, None. destruct a2 as [r2]. simpl in Ha2. subst r2. auto.
Qed.

(** What a call of [RegisterSubscription] does to the registry, when the
    cluster answers a lookup with the object of the key asked for: it
    returns, and either leaves the registry as it is or rewrites the entry
    of the key alone. *)
Lemma RegisterSubscription_shape (clt : Cluster) (a a' : AnsibleHooks)
    (subKey : NamespacedName) (out : outcome (option error)) :
  (forall subIns, getSubscription clt subKey = inr subIns -> subKeyOf subIns = subKey) ->
  RegisterSubscription clt a subKey = (a', out) ->
  (exists err, out = Returns err) /\
  (a' = a \/
   exists subIns h',
     getSubscription clt subKey = inr subIns /\
     registry a' = <[subKey := h']> (registry a) /\
     (lastSub h' = subIns \/
      exists h, registry a !! subKey = Some h /\ lastSub h' = lastSub h)).
Proof.
  intros Hsane. unfold RegisterSubscription.
  destruct (getSubscription clt subKey) as [err|subIns] eqn:Hsub.
  { destruct (IsNotFound err); intros [= <- <-]; eauto. }
  specialize (Hsane subIns eq_refl).
  destruct (getChannel clt _) as [err|chn]; [intros [= <- <-]; eauto|].
  destruct (negb _ && negb _); [intros [= <- <-]; eauto|].
  destruct (negb _); [intros [= <- <-]; eauto|].
  destruct (registry a !! subKey) as [h|] eqn:Hreg.
  - destruct (DownloadAnsibleHookResource clt subIns); [intros [= <- <-]; eauto|].
    rewrite <- Hsane in Hreg.
    destruct (addHookToRegisitry_registered clt a subIns h Hreg) as (h' & err & -> & Hlast).
    intros [= <- <-]. split; [eauto|]. right. exists subIns, h'.
    simpl. rewrite Hsane. split; [reflexivity|]. split; [reflexivity|].
    destruct Hlast; eauto.
  - set (fresh := {| preHooks := Some []; postHooks := Some []; lastSub := subIns |}).
    destruct (DownloadAnsibleHookResource clt subIns).
    { intros [= <- <-]. split; [eauto|]. right. exists subIns, fresh. auto. }
    set (a1 := {| registry := <[subKey := fresh]> (registry a) |}).
    assert (Hreg1 : registry a1 !! subKeyOf subIns = Some fresh)
      by (rewrite Hsane; apply lookup_insert_eq).
    destruct (addHookToRegisitry_registered clt a1 subIns fresh Hreg1)
      as (h' & err & -> & Hlast).
    intros [= <- <-]. split; [eauto|]. right. exists subIns, h'. simpl.
    rewrite Hsane, insert_insert_eq. split; [reflexivity|]. split; [reflexivity|].
    left. now destruct Hlast.
Qed.

(** A registered key whose recorded subscription is the one the cluster
    holds is left alone. *)
Lemma RegisterSubscription_stops_again (clt : Cluster) (a : AnsibleHooks)
    (subKey : NamespacedName) (subIns : Subscription) (h : Hooks) :
  getSubscription clt subKey = inr subIns ->
  registry a !! subKeyOf subIns = Some h ->
  lastSub h = subIns ->
  exists err, RegisterSubscription clt a subKey = (a, Returns err).
Proof.
  intros Hsub Hreg Hlast. unfold RegisterSubscription. rewrite Hsub.
  destruct (getChannel clt _) as [err|chn]; [eauto|].
  destruct (negb _ && negb _); [eauto|].
  unfold isSubscriptionUpdate, isSubscriptionSpecChange.
  rewrite Hreg, Hlast, Z.eqb_refl. simpl. eauto.
Qed.

(** X10: when the cluster answers the lookup of a key with the subscription
    of that key, [RegisterSubscription] never dereferences a missing entry:
    it returns, with an error or without. *)
Theorem RegisterSubscription_returns (clt : Cluster) (a : AnsibleHooks)
    (subKey : NamespacedName) :
  (forall subIns, getSubscription clt subKey = inr subIns -> subKeyOf subIns = subKey) ->
  exists err, (RegisterSubscription clt a subKey).2 = Returns err.
Proof.
  intros Hsane.
  destruct (RegisterSubscription clt a subKey) as [a' out] eqn:Hrun.
  now destruct (RegisterSubscription_shape clt a a' subKey out Hsane Hrun) as [Hret _].
Qed.

(** X11: [RegisterSubscription] touches the entry of its key only: the
    entries of all other keys are as before, and no key that was registered
    is forgotten. *)
Theorem RegisterSubscription_frame (clt : Cluster) (a : AnsibleHooks)
    (subKey k : NamespacedName) :
  (forall subIns, getSubscription clt subKey = inr subIns -> subKeyOf subIns = subKey) ->
  let a' := (RegisterSubscription clt a subKey).1 in
  (k <> subKey -> registry a' !! k = registry a !! k) /\
  (is_Some (registry a !! k) -> is_Some (registry a' !! k)).
Proof.
  intros Hsane a'. subst a'.
  destruct (RegisterSubscription clt a subKey) as [a' out] eqn:Hrun.
  destruct (RegisterSubscription_shape clt a a' subKey out Hsane Hrun)
    as [_ [->|(subIns & h' & _ & Hreg & _)]]; [auto|].
  simpl. rewrite Hreg. split.
  - intros Hne. now apply lookup_insert_ne.
  - intros Hsome. destruct (decide (k = subKey)) as [->|Hne].
    + rewrite lookup_insert_eq. eauto.
    + now rewrite lookup_insert_ne.
Qed.

(** X12: on a key that is not registered, a second [RegisterSubscription]
    against the same cluster does nothing more: it leaves the registry the
    first call produced as it is, and returns. *)
Theorem RegisterSubscription_twice (clt : Cluster) (a : AnsibleHooks)
    (subKey : NamespacedName) :
  (forall subIns, getSubscription clt subKey = inr subIns -> subKeyOf subIns = subKey) ->
  registry a !! subKey = None ->
  let a' := (RegisterSubscription clt a subKey).1 in
  exists err, RegisterSubscription clt a' subKey = (a', Returns err).
Proof.
  intros Hsane Hfresh a'. subst a'.
  destruct (RegisterSubscription clt a subKey) as [a' out] eqn:Hrun. simpl.
  destruct (RegisterSubscription_shape clt a a' subKey out Hsane Hrun)
    as [[err ->] [->|(subIns & h' & Hsub & Hreg & Hlast)]]; [eauto|].
  apply RegisterSubscription_stops_again with (subIns := subIns) (h := h').
  - exact Hsub.
  - rewrite (Hsane subIns Hsub), Hreg. apply lookup_insert_eq.
  - destruct Hlast as [->|(h & Hh & _)]; [reflexivity | congruence].
Qed.

(** X13: after [DeregisterSubscription] the key has no hooks of either
    type, applying its hooks submits nothing and returns [nil], its
    pre-hooks count as completed, and asking for its post-hooks panics; the
    entries of all other keys are as before. *)
Theorem DeregisterSubscription_forgets (a : AnsibleHooks) (subKey : NamespacedName) :
  let a' := (DeregisterSubscription a subKey).1 in
  (DeregisterSubscription a subKey).2 = None /\
  (forall hookType, HasHooks a' hookType subKey = false) /\
  ApplyPreHooks a' subKey = (a', [], Returns None) /\
  ApplyPostHooks a' subKey = (a', [], Returns None) /\
  IsPreHooksCompleted a' subKey = Returns (true, None) /\
  IsPostHooksCompleted a' subKey = Panics nil_dereference /\
  (forall k, k <> subKey -> registry a' !! k = registry a !! k).
Proof.
  intros a'.
  assert (Hgone : registry a' !! subKey = None) by apply lookup_delete_eq.
  assert (Hhas : forall hookType, HasHooks a' hookType subKey = false)
    by (intros hookType; now apply HasHooks_unregistered).
  split; [reflexivity|]. split; [exact Hhas|].
  unfold ApplyPreHooks, ApplyPostHooks, IsPreHooksCompleted, IsPostHooksCompleted, isRegistered.
  rewrite !Hhas, Hgone.
  rewrite bool_decide_eq_false_2 by now intros [x Hx].
  repeat split. intros k Hne. now apply lookup_delete_ne.
Qed.

End Registration.

(** * Properties of the hook jobs *)

Section HookJobsProperties.
Import HookJobs.
Context {JobStatus OwnerReference Value : Type} (env : Env JobStatus OwnerReference Value).

#[local] Abbreviation Job := (AnsibleJob JobStatus OwnerReference).

Lemma length_pos (s : string) : Nat.ltb 0 (String.length s) = negb (String.eqb s "").
Proof. now destruct s. Qed.

Lemma unsupported_test (pref : ObjectReference) :
  (Nat.ltb 0 (String.length (refKind pref))
   && negb (String.eqb (refKind pref) "PlacementRule"))
  || (Nat.ltb 0 (String.length (refAPIVersion pref))
      && negb (String.eqb (refAPIVersion pref) "apps.open-cluster-management.io/v1")) = true
  <-> unsupported pref.
Proof.
  unfold unsupported. rewrite !length_pos.
  rewrite orb_true_iff, !andb_true_iff, !negb_true_iff, !String.eqb_neq. tauto.
Qed.

Lemma finish_job (subIns : Subscription) (job job' : Job) :
  overrideAnsibleInstance env subIns job = Returns (job', None) ->
  exists staged : Job,
    jobResourceVersion staged = "" /\ Status staged = zeroStatus env /\
    jobAnnotations staged = jobAnnotations job /\
    job' = addingHostingSubscriptionAnno env
             {| jobNamespace := subNamespace subIns;
                jobResourceVersion := jobResourceVersion staged;
                jobAnnotations := jobAnnotations staged;
                jobOwnerReferences := [NewControllerRef env subIns];
                TowerAuthSecretName := TowerAuthSecretName staged;
                ExtraVars := ExtraVars staged; Status := Status staged |}
             {| Name := subName subIns; Namespace := subNamespace subIns |}.
Proof.
  unfold overrideAnsibleInstance.
  set (cleared := {| jobNamespace := jobNamespace job; jobResourceVersion := "" |}).
  destruct (match specPlacement subIns with Some _ => _ | None => false end).
  - destruct (getClustersByPlacement env subIns) as [[clusters [err|]]|why];
      [discriminate| |discriminate].
    unfold setTargetClusters.
    destruct (Nat.ltb 0 (length clusters)).
    + destruct (match ExtraVars cleared with Some _ => _ | None => _ end) as [err|[m|]];
        [discriminate| |discriminate].
      destruct (Marshal env _) as [err|raw]; [discriminate|].
      intros [= <-]. eexists (set_ExtraVars cleared (Some raw)). repeat split.
    + intros [= <-]. exists cleared. repeat split.
  - intros [= <-]. exists cleared. repeat split.
Qed.

Lemma setTargetClusters_panics (job : Job) (clusters : list NamespacedName) (why : string) :
  setTargetClusters env job clusters = Panics why <->
  why = assignment_to_nil_map /\ clusters <> [] /\
  exists raw, ExtraVars job = Some raw /\ Unmarshal env raw = inr None.
Proof.
  unfold setTargetClusters. destruct clusters as [|cluster rest]; simpl.
  { split; [discriminate | intros (_ & Hne & _); congruence]. }
  destruct (ExtraVars job) as [raw|].
  - destruct (Unmarshal env raw) as [err|[m|]] eqn:Hraw.
    + split; [discriminate | intros (_ & _ & raw' & [= <-] & Hnull); congruence].
    + destruct (Marshal env _);
        (split; [discriminate | intros (_ & _ & raw' & [= <-] & Hnull); congruence]).
    + split.
      * intros [= <-]. repeat split; [discriminate | eauto].
      * now intros (-> & _).
  - destruct (Marshal env _);
      (split; [discriminate | intros (_ & _ & raw' & Hraw & _); discriminate]).
Qed.

Lemma getClustersByPlacement_returns (subIns : Subscription) (placement : Placement) :
  specPlacement subIns = Some placement ->
  exists r, getClustersByPlacement env subIns = Returns r.
Proof.
  intros Hplace. unfold getClustersByPlacement, getClustersFromPlacementRef.
  rewrite Hplace. destruct (PlacementRef placement) as [pref|].
  - destruct (_ || _); [eauto|].
    destruct (getPlacementRule env _) as [err|decisions]; eauto.
  - destruct (PlaceByGenericPlacmentFields env subIns) as [err|names]; eauto.
Qed.

(** X14: a job that [overrideAnsibleInstance] hands back without an error
    lives in the namespace of the subscription, has no resource version and
    an empty status, is owned by the subscription alone, and carries the
    hosting annotation [namespace/name] of the subscription beside the
    annotations it had. *)
Theorem overrideAnsibleInstance_success (subIns : Subscription) (job job' : Job) :
  overrideAnsibleInstance env subIns job = Returns (job', None) ->
  jobNamespace job' = subNamespace subIns /\
  jobResourceVersion job' = "" /\
  Status job' = zeroStatus env /\
  jobOwnerReferences job' = [NewControllerRef env subIns] /\
  exists a, jobAnnotations job' = Some a /\
    a !! AnnotationHosting env = Some (subNamespace subIns +:+ "/" +:+ subName subIns) /\
    forall k, k <> AnnotationHosting env -> a !! k = default ∅ (jobAnnotations job) !! k.
Proof.
  intros Hrun. destruct (finish_job subIns job job' Hrun) as (staged & Hrv & Hst & Han & ->).
  unfold addingHostingSubscriptionAnno. simpl.
  repeat split; try (exact Hrv || exact Hst).
  eexists. split; [reflexivity|]. split; [apply lookup_insert_eq|].
  intros k Hne. rewrite lookup_insert_ne by (intros Heq; now apply Hne). rewrite Han.
  destruct (Nat.eqb_spec (size (default ∅ (jobAnnotations job))) 0) as [Hempty|_];
    [|reflexivity].
  apply map_size_empty_iff in Hempty. now rewrite Hempty.
Qed.

(** X15: [overrideAnsibleInstance] panics in one situation only: the
    subscription is placed on remote clusters, the placement yields at
    least one cluster, and the extra variables of the job decode without an
    error to a nil map (the JSON value [null]), so that the assignment of
    [target_clusters] hits a nil map.  For a subscription without a
    placement, or with a local one, it asks for no clusters, returns no
    error and leaves the extra variables of the job as they are. *)
Theorem overrideAnsibleInstance_local (subIns : Subscription) (job : Job) :
  (forall why,
     overrideAnsibleInstance env subIns job = Panics why <->
     why = assignment_to_nil_map /\
     remotePlacement (specPlacement subIns) /\
     exists clusters raw,
       getClustersByPlacement env subIns = Returns (clusters, None) /\
       clusters <> [] /\ ExtraVars job = Some raw /\ Unmarshal env raw = inr None) /\
  ((specPlacement subIns = None \/
    exists placement, specPlacement subIns = Some placement /\ Local placement = Some true) ->
   exists job', overrideAnsibleInstance env subIns job = Returns (job', None) /\
                ExtraVars job' = ExtraVars job).
Proof.
  split.
  - intros why. unfold overrideAnsibleInstance, remotePlacement.
    destruct (specPlacement subIns) as [placement|] eqn:Hplace.
    2:{ split; [discriminate | intros (_ & (p & Hp & _) & _); discriminate]. }
    destruct (getClustersByPlacement_returns subIns placement Hplace)
      as [[clusters err] Hclusters].
    rewrite Hclusters.
    destruct (Local placement) as [[|]|] eqn:Hlocal; simpl.
    + split; [discriminate|].
      intros (_ & (p & [= <-] & Hp) & _). congruence.
    + destruct err as [err|].
      { split; [discriminate | intros (_ & _ & c & r & [=] & _)]. }
      set (cleared := {| jobNamespace := jobNamespace job; jobResourceVersion := "" |}).
      pose proof (setTargetClusters_panics cleared clusters why) as Hpanic.
      destruct (setTargetClusters env cleared clusters) as [[j [e|]]|w] eqn:Hset.
      * split; [discriminate|]. intros (Hwhy & _ & c & r & [= <-] & Hne & Hraw & Hnull).
        apply proj2 in Hpanic. discriminate Hpanic. eauto 6.
      * split; [discriminate|]. intros (Hwhy & _ & c & r & [= <-] & Hne & Hraw & Hnull).
        apply proj2 in Hpanic. discriminate Hpanic. eauto 6.
      * split.
        -- intros [= ->]. destruct Hpanic as [Hpanic _].
           destruct (Hpanic eq_refl) as (-> & Hne & raw & Hraw & Hnull).
           split; [reflexivity|]. split; [exists placement; split; congruence|].
           exists clusters, raw. auto.
        -- intros (-> & _ & c & r & [= <-] & Hne & Hraw & Hnull).
           destruct Hpanic as [_ Hpanic]. f_equal. symmetry.
           assert (Hw : Panics w = Panics (A := Job * option error) assignment_to_nil_map)
             by (apply Hpanic; eauto 6).
           now injection Hw.
    + destruct err as [err|].
      { split; [discriminate | intros (_ & _ & c & r & [=] & _)]. }
      set (cleared := {| jobNamespace := jobNamespace job; jobResourceVersion := "" |}).
      pose proof (setTargetClusters_panics cleared clusters why) as Hpanic.
      destruct (setTargetClusters env cleared clusters) as [[j [e|]]|w] eqn:Hset.
      * split; [discriminate|]. intros (Hwhy & _ & c & r & [= <-] & Hne & Hraw & Hnull).
        apply proj2 in Hpanic. discriminate Hpanic. eauto 6.
      * split; [discriminate|]. intros (Hwhy & _ & c & r & [= <-] & Hne & Hraw & Hnull).
        apply proj2 in Hpanic. discriminate Hpanic. eauto 6.
      * split.
        -- intros [= ->]. destruct Hpanic as [Hpanic _].
           destruct (Hpanic eq_refl) as (-> & Hne & raw & Hraw & Hnull).
           split; [reflexivity|]. split; [exists placement; split; congruence|].
           exists clusters, raw. auto.
        -- intros (-> & _ & c & r & [= <-] & Hne & Hraw & Hnull).
           destruct Hpanic as [_ Hpanic]. f_equal. symmetry.
           assert (Hw : Panics w = Panics (A := Job * option error) assignment_to_nil_map)
             by (apply Hpanic; eauto 6).
           now injection Hw.
  - unfold overrideAnsibleInstance.
    intros [->|(placement & -> & ->)]; simpl; eauto.
Qed.

(** X16: a subscription placed by a reference the hub does not support gets
    its job without target clusters and without an error: the placement
    rule is not read, whatever the cluster holds. *)
Theorem overrideAnsibleInstance_unsupported_reference
    (subIns : Subscription) (job : Job) (pref : ObjectReference) (local : option bool) :
  specPlacement subIns = Some {| PlacementRef := Some pref; Local := local |} ->
  unsupported pref ->
  getClustersByPlacement env subIns = Returns ([], None) /\
  exists job', overrideAnsibleInstance env subIns job = Returns (job', None) /\
               ExtraVars job' = ExtraVars job.
Proof.
  intros Hplace Hpref. apply unsupported_test in Hpref.
  assert (Hnone : getClustersByPlacement env subIns = Returns ([], None)).
  { unfold getClustersByPlacement, getClustersFromPlacementRef. rewrite Hplace. simpl.
    now rewrite Hpref. }
  split; [exact Hnone|].
  unfold overrideAnsibleInstance. rewrite Hplace, Hnone. simpl.
  destruct (match local with Some l => negb l | None => true end); simpl; eauto.
Qed.

(** X17: for a subscription placed on remote clusters by a supported
    reference to a rule with decisions, when the extra variables of the job
    decode to a map that is not nil (or the job has none) and the map
    encodes, the job gets the extra variables it had with [target_clusters]
    set to the cluster names of the decisions, in their order. *)
Theorem overrideAnsibleInstance_target_clusters
    (subIns : Subscription) (job : Job) (pref : ObjectReference) (local : option bool)
    (decisions : list Decision) (extraVarsMap : gmap string Value) (raw : list Byte.byte) :
  specPlacement subIns = Some {| PlacementRef := Some pref; Local := local |} ->
  local <> Some true ->
  ~ unsupported pref ->
  getPlacementRule env {| Name := refName pref; Namespace := subNamespace subIns |}
  = inr decisions ->
  decisions <> [] ->
  match ExtraVars job with
  | Some old => Unmarshal env old
  | None => inr (Some ∅)
  end = inr (Some extraVarsMap) ->
  Marshal env (<[target_clusters := stringsValue env (map ClusterName decisions)]> extraVarsMap)
  = inr raw ->
  exists job', overrideAnsibleInstance env subIns job = Returns (job', None) /\
               ExtraVars job' = Some raw.
Proof.
  intros Hplace Hlocal Hpref Hrule Hsome Hold Hnew.
  assert (Htest : (Nat.ltb 0 (String.length (refKind pref))
                   && negb (String.eqb (refKind pref) "PlacementRule"))
                  || (Nat.ltb 0 (String.length (refAPIVersion pref))
                      && negb (String.eqb (refAPIVersion pref)
                                          "apps.open-cluster-management.io/v1")) = false).
  { apply not_true_is_false. intros Htest. now apply Hpref, unsupported_test. }
  assert (Hclusters :
            getClustersByPlacement env subIns
            = Returns (map (fun decision => {| Name := ClusterName decision;
                                               Namespace := ClusterNamespace decision |})
                           decisions, None)).
  { unfold getClustersByPlacement, getClustersFromPlacementRef. rewrite Hplace. simpl.
    now rewrite Htest, Hrule. }
  assert (Hremote : match local with Some l => negb l | None => true end = true)
    by (destruct local as [[]|]; simpl; congruence).
  assert (Hset : forall cleared : Job,
             ExtraVars cleared = ExtraVars job ->
             setTargetClusters env cleared
               (map (fun decision => {| Name := ClusterName decision;
                                        Namespace := ClusterNamespace decision |}) decisions)
             = Returns (set_ExtraVars cleared (Some raw), None)).
  { intros cleared Hsame. unfold setTargetClusters. cbv zeta.
    assert (Hnames : map Name (map (fun decision => {| Name := ClusterName decision;
                                                       Namespace := ClusterNamespace decision |})
                              decisions) = map ClusterName decisions)
      by (rewrite map_map; reflexivity).
    rewrite length_map, Hsame, Hold, Hnames, Hnew.
    destruct decisions as [|decision rest]; [congruence|reflexivity]. }
  unfold overrideAnsibleInstance. rewrite Hplace, Hclusters. simpl Local. rewrite Hremote.
  rewrite Hset by reflexivity. eexists. split; reflexivity.
Qed.

End HookJobsProperties.

(** * The result of a tick and the retry loop *)

Section TickResult.
Import Git.
Context {consts : ApiConstants} (env : Env).

Lemma driftGate_skip (commit : string) (s : SubscriberItem) :
  resultOf (driftGate commit s) = Returns true ->
  successful (after (driftGate commit s)) = true.
Proof.
  unfold driftGate, bind, gets, modify, ret, resultOf, after. simpl.
  destruct (EqualFold (reconcileRate s) "medium"); simpl; [|discriminate].
  destruct (String.eqb (commitID s) ""); simpl; [discriminate|].
  destruct (incr (count s) <? 6); simpl; [|discriminate].
  destruct (String.eqb commit (commitID s)); simpl; [|discriminate].
  destruct (successful s) eqn:Hflag; simpl; [intros _; exact Hflag | discriminate].
Qed.

Lemma applyResources_flag (commit errMsg : string) (s : SubscriberItem) (r : option error) :
  resultOf (applyResources env commit errMsg s) = Returns r ->
  (r = None <-> successful (after (applyResources env commit errMsg s)) = true).
Proof.
  unfold applyResources. rewrite bind_gets. unfold id.
  destruct (Nat.eqb (length (resources s)) 0 && negb (successful s)) eqn:Hguard.
  - apply andb_true_iff in Hguard as [_ Hflag]. apply negb_true_iff in Hflag.
    unfold ret, resultOf, after. simpl. intros [= <-]. rewrite Hflag. split; discriminate.
  - rewrite bind_emit. unfold resultOf, after. cbn [fst snd].
    destruct (ProcessSubResources env _ _ _) as [err|];
      unfold bind, modify, ret; simpl; intros [= <-]; split; (discriminate || reflexivity).
Qed.

Lemma reconcile_flag (commit : string) (s : SubscriberItem) (r : option error) :
  resultOf (reconcile env commit s) = Returns r ->
  (r = None <-> successful (after (reconcile env commit s)) = true).
Proof.
  unfold reconcile. rewrite bind_modify, bind_run.
  destruct (resultOf (sortClonedGitRepo env (set_resources [] s))) as [[e|]|why];
    cbn [resultOf after traceOf fst snd]; [| |discriminate].
  - unfold bind, modify, ret. simpl. intros [= <-]. split; discriminate.
  - rewrite bind_run.
    destruct (resultOf (subscribeBuckets env _)) as [errMsg|why];
      cbn [resultOf after traceOf fst snd]; [|discriminate].
    apply applyResources_flag.
Qed.

(** A tick returns [nil] exactly when it leaves the flag up. *)
Lemma doSubscription_flag (s : SubscriberItem) (r : option error) :
  resultOf (doSubscription env s) = Returns r ->
  (r = None <-> successful (after (doSubscription env s)) = true).
Proof.
  unfold doSubscription. rewrite bind_emit, bind_gets. unfold id.
  cbn [resultOf after traceOf fst snd].
  destruct (webhookEnabled s && successful s) eqn:Hweb.
  { apply andb_true_iff in Hweb as [_ Hflag].
    unfold ret. simpl. intros [= <-]. now split. }
  rewrite bind_run.
  destruct (resultOf (updateAndClone env s)) as [[commit [err|]]|why];
    cbn [resultOf after traceOf fst snd]; [| |discriminate].
  - rewrite bind_gets. unfold id.
    destruct (Channel_ (base (after (updateAndClone env s)))); [|discriminate].
    unfold bind, modify, ret. simpl. intros [= <-]. split; discriminate.
  - rewrite bind_run.
    pose proof (driftGate_skip commit (after (updateAndClone env s))) as Hskip.
    destruct (resultOf (driftGate commit _)) as [[|]|why];
      cbn [resultOf after traceOf fst snd]; [| |discriminate].
    + unfold ret, resultOf, after. cbn [fst snd]. intros [= <-].
      split; [intros _; now apply Hskip | reflexivity].
    + apply reconcile_flag.
Qed.

(** X18: a tick that returns reports what its flag says: when it returns
    [nil] it leaves the [successful] flag up, and when it returns an error
    it leaves the flag down.  In particular a tick in which a bucket failed,
    and whose remaining resources the synchronizer accepted, returns
    [nil]. *)
Theorem doSubscription_result_is_flag (s : SubscriberItem) (r : option error) :
  resultOf (doSubscription env s) = Returns r ->
  successful (after (doSubscription env s)) = bool_decide (r = None).
Proof.
  intros Hrun. apply doSubscription_flag in Hrun.
  destruct r as [err|].
  - rewrite bool_decide_eq_false_2 by discriminate.
    destruct (successful _); [|reflexivity]. now destruct Hrun as [_ Hrun]; specialize (Hrun eq_refl).
  - rewrite bool_decide_eq_true_2 by reflexivity. now apply Hrun.
Qed.

End TickResult.

Section RetryLoop.
Import Git GitTraces.
Context {consts : ApiConstants}.

Lemma anyItem_refl (s : SubscriberItem) : anyItem s s.
Proof. exact I. Qed.

Lemma anyItem_trans (s1 s2 s3 : SubscriberItem) : anyItem s1 s2 -> anyItem s2 s3 -> anyItem s1 s3.
Proof. intros _ _. exact I. Qed.

Ltac tick_step :=
  first
    [ apply (respects_ret _ _ anyItem_refl)
    | apply (respects_gets _ _ anyItem_refl)
    | apply (respects_panic _ _ anyItem_refl)
    | apply (respects_emit _ _ anyItem_refl); exact I
    | apply (respects_bind _ _ anyItem_trans); [|intros ?]
    | match goal with
      | |- respects _ _ (match ?x with _ => _ end) => destruct x
      | |- respects _ _ (if ?b then _ else _) => destruct b
      end ].

(** A tick writes no status and does not sleep. *)
Lemma doSubscription_tick_events (env : Env) :
  respects anyItem isTickEvent (doSubscription env).
Proof.
  assert (Hfetch : respects anyItem isTickEvent (updateAndClone env)).
  { apply (respects_weaken fetchFrame anyItem isFetchEvent isTickEvent).
    - intros ? ? _. exact I.
    - intros []; simpl; tauto.
    - apply updateAndClone_fetch. }
  assert (Hbuild : forall A (m : M A),
             respects tickFrame isBuildEvent m -> respects anyItem isTickEvent m).
  { intros A m. apply respects_weaken.
    - intros ? ? _. exact I.
    - intros []; simpl; tauto. }
  unfold doSubscription, reconcile, applyResources, driftGate.
  repeat first
    [ exact Hfetch
    | apply Hbuild; first [apply sortClonedGitRepo_build | apply subscribeBuckets_build]
    | apply respects_modify; intros ?; exact I
    | tick_step ].
Qed.

Lemma tick_trace_quiet (t : list Event) :
  Forall isTickEvent t -> statuses t = [] /\ sleeps t = 0%nat.
Proof.
  unfold sleeps.
  induction 1 as [|e t He _ [IHs IHn]]; [now split|].
  destruct e; simpl in He; try contradiction; simpl; now split.
Qed.

Lemma retryFrom_attempts (envs : nat -> Env) (left n : nat) (s : SubscriberItem) :
  let run := retryFrom envs n left s in
  resultOf run = Returns tt ->
  exists (msgs : list string) (last : Phase * string),
    statuses (traceOf run) = (((fun msg => (SubscriptionFailed, msg)) <$> msgs) ++ [last])%list /\
    sleeps (traceOf run) = length msgs /\
    (length msgs <= left)%nat /\
    ((last = (SubscriptionSubscribed, "") /\ successful (after run) = true) \/
     (length msgs = left /\ successful (after run) = false /\
      exists msg, last = (SubscriptionFailed, msg))).
Proof.
  revert n s. induction left as [|left IH]; intros n s run; subst run.
  - simpl. rewrite bind_run.
    destruct (doSubscription_tick_events (envs n) s) as [_ Hquiet].
    apply tick_trace_quiet in Hquiet as [Hst Hsl].
    pose proof (doSubscription_flag (envs n) s) as Hflag.
    destruct (resultOf (doSubscription (envs n) s)) as [err|why];
      cbn [resultOf after traceOf fst snd]; [|discriminate].
    specialize (Hflag err eq_refl).
    rewrite bind_emit, bind_gets. unfold ret. cbn [resultOf after traceOf fst snd].
    intros _. exists [].
    unfold statuses, sleeps in *. rewrite !omap_app, Hst. rewrite length_app, Hsl.
    destruct err as [e|]; simpl.
    + exists (SubscriptionFailed, Error e). repeat split; [lia|]. right.
      repeat split; [|eauto].
      destruct (successful _); [|reflexivity]. now destruct Hflag as [_ Hflag]; specialize (Hflag eq_refl).
    + exists (SubscriptionSubscribed, ""). repeat split; [lia|]. left.
      split; [reflexivity|]. now apply Hflag.
  - simpl. rewrite bind_run.
    destruct (doSubscription_tick_events (envs n) s) as [_ Hquiet].
    apply tick_trace_quiet in Hquiet as [Hst Hsl].
    pose proof (doSubscription_flag (envs n) s) as Hflag.
    set (tick := doSubscription (envs n) s) in *.
    destruct (resultOf tick) as [err|why];
      cbn [resultOf after traceOf fst snd]; [|discriminate].
    specialize (Hflag err eq_refl).
    rewrite bind_emit, bind_gets. unfold id. cbn [resultOf after traceOf fst snd].
    destruct (successful (after tick)) eqn:Hok; cbn [negb].
    + assert (err = None) as -> by now apply Hflag.
      unfold ret. cbn [resultOf after traceOf fst snd]. intros _.
      exists [], (SubscriptionSubscribed, "").
      unfold statuses, sleeps in *. rewrite !omap_app, Hst, length_app, Hsl. simpl.
      repeat split; [lia|]. left. now split.
    + destruct err as [e|]; [|now destruct Hflag as [Hflag _]; specialize (Hflag eq_refl)].
      rewrite bind_emit. cbn [resultOf after traceOf fst snd]. intros Hrest.
      destruct (IH (S n) (after tick) Hrest) as (msgs & last & Hs & Hn & Hle & Hlast).
      exists (Error e :: msgs), last.
      unfold statuses, sleeps in *. rewrite !omap_app, Hst, length_app, Hsl. simpl.
      split; [f_equal; exact Hs|]. split; [f_equal; exact Hn|]. split; [lia|].
      destruct Hlast as [?|(Hlen & ? & ?)]; [now left | right].
      repeat split; [lia | assumption | assumption].
Qed.

(** X19: a run of [doSubscriptionWithRetries] that returns marks the
    subscription once per attempt and sleeps between two attempts: every
    attempt but the last is marked failed, there are at most [retries]
    such attempts, and the last one is either marked subscribed, leaving the
    flag up, or is the attempt number [retries], marked failed with the flag
    down.  With a negative number of retries nothing is attempted. *)
Theorem doSubscriptionWithRetries_attempts (envs : nat -> Env) (retries : Z)
    (s : SubscriberItem) :
  let run := doSubscriptionWithRetries envs retries s in
  resultOf run = Returns tt ->
  (retries < 0 -> run = (Returns tt, s, [])) /\
  (0 <= retries ->
   exists (msgs : list string) (last : Phase * string),
     statuses (traceOf run) = (((fun msg => (SubscriptionFailed, msg)) <$> msgs) ++ [last])%list /\
     sleeps (traceOf run) = length msgs /\
     Z.of_nat (length msgs) <= retries /\
     ((last = (SubscriptionSubscribed, "") /\ successful (after run) = true) \/
      (Z.of_nat (length msgs) = retries /\ successful (after run) = false /\
       exists msg, last = (SubscriptionFailed, msg)))).
Proof.
  intros run Hret. subst run. unfold doSubscriptionWithRetries in *.
  destruct (Z.ltb_spec retries 0) as [Hneg|Hpos]; split; try lia.
  - reflexivity.
  - intros _.
    destruct (retryFrom_attempts envs (Z.to_nat retries) 0 s Hret)
      as (msgs & last & Hs & Hn & Hle & Hlast).
    exists msgs, last. repeat split; [assumption | assumption | lia |].
    destruct Hlast as [?|(Hlen & ? & ?)]; [now left | right].
    repeat split; [lia | assumption | assumption].
Qed.

End RetryLoop.

(** * The buckets and the filter *)

Section Collecting.
Import Git GitTraces.
Context {consts : ApiConstants} (env : Env).

Lemma grows_refl (s : SubscriberItem) : grows s s.
Proof. exists []. rewrite app_nil_r. now destruct s. Qed.

Lemma grows_trans (s1 s2 s3 : SubscriberItem) : grows s1 s2 -> grows s2 s3 -> grows s1 s3.
Proof.
  intros [extra1 ->] [extra2 ->]. exists (extra1 ++ extra2)%list.
  destruct s1. simpl. unfold set_resources. simpl. now rewrite app_assoc.
Qed.

Ltac grow_step :=
  first
    [ apply (respects_ret _ _ grows_refl)
    | apply (respects_gets _ _ grows_refl)
    | apply (respects_panic _ _ grows_refl)
    | apply (respects_emit _ _ grows_refl); exact I
    | apply (respects_bind _ _ grows_trans); [|intros ?]
    | match goal with
      | |- respects _ _ (match ?x with _ => _ end) => destruct x
      | |- respects _ _ (if ?b then _ else _) => destruct b
      end ].

Ltac grow_modify := apply respects_modify; intros ?; eexists; reflexivity.

Lemma subscribeResourceFile_grows (file : Manifest) :
  respects grows isReadEvent (subscribeResourceFile env file).
Proof. unfold subscribeResourceFile. repeat first [grow_step | grow_modify]. Qed.

Lemma subscribeFileResources_grows (rs : list Manifest) :
  respects grows isReadEvent (subscribeFileResources env rs).
Proof.
  induction rs as [|resource rest IH]; simpl; [grow_step|].
  repeat first [exact IH | apply subscribeResourceFile_grows | grow_step].
Qed.

Lemma subscribeResources_grows (rscFiles : list string) :
  respects grows isReadEvent (subscribeResources env rscFiles).
Proof.
  induction rscFiles as [|rscFile rest IH]; simpl; [grow_step|].
  repeat first [exact IH | apply subscribeFileResources_grows | grow_step].
Qed.

Lemma subscribeHelmEntries_grows (entries : list (string * string)) :
  respects grows isReadEvent (subscribeHelmEntries env entries).
Proof.
  induction entries as [|[packageName chartVersions] rest IH]; simpl; [grow_step|].
  repeat first [exact IH | grow_step | grow_modify].
Qed.

Lemma subscribeRendered_grows (rs : list Manifest) :
  respects grows isReadEvent (subscribeRendered env rs).
Proof.
  induction rs as [|resourceFile rest IH]; simpl; [grow_step|].
  repeat first [exact IH | apply subscribeResourceFile_grows | grow_step].
Qed.

(** The Kustomize bucket appends when it returns nil and leaves the list
    empty when it returns an error. *)
Lemma subscribeKustomizeDirs_appends (dirs : list (string * string)) (s : SubscriberItem)
    (r : option error) :
  resultOf (subscribeKustomizeDirs env dirs s) = Returns r ->
  match r with
  | None => exists extra,
      resources (after (subscribeKustomizeDirs env dirs s)) = (resources s ++ extra)%list
  | Some _ => resources (after (subscribeKustomizeDirs env dirs s)) = []
  end.
Proof.
  revert s. induction dirs as [|[key kustomizeDir] rest IH]; intros s.
  { intros [= <-]. exists []. now rewrite app_nil_r. }
  simpl. rewrite bind_gets, bind_emit. unfold id. cbn [resultOf after traceOf fst snd].
  destruct (VerifyAndOverrideKustomize env _ _ _) as [e|].
  { rewrite bind_modify. intros [= <-]. reflexivity. }
  rewrite bind_emit. cbn [resultOf after traceOf fst snd].
  destruct (RunKustomizeBuild env kustomizeDir) as [e|rs].
  { rewrite bind_modify. intros [= <-]. reflexivity. }
  rewrite bind_run.
  destruct (subscribeRendered_grows rs s) as [[extra Hrendered] _].
  destruct (resultOf (subscribeRendered env rs s)) as [[]|why]; [|discriminate].
  cbn [resultOf after traceOf fst snd]. intros Hrest.
  specialize (IH _ Hrest). destruct r as [e|]; [exact IH|].
  destruct IH as [extra' IH]. exists (extra ++ extra')%list.
  rewrite IH, Hrendered. simpl. now rewrite app_assoc.
Qed.

(** X20: the file buckets and the chart bucket never drop or reorder what
    has been collected: the resource list before [subscribeResources], and
    before [subscribeHelmCharts], is a prefix of the list after it, whether
    the bucket returns an error or not.  The Kustomize bucket is the one
    that drops resources: the list before [subscribeKustomizations] is a
    prefix of the list after it when it returns nil, and the list is empty
    when it returns an error. *)
Theorem file_and_chart_buckets_append (s : SubscriberItem) (rscFiles : list string)
    (idx : option IndexFile) :
  (exists extra,
     resources (after (subscribeResources env rscFiles s)) = (resources s ++ extra)%list) /\
  (exists extra,
     resources (after (subscribeHelmCharts env idx s)) = (resources s ++ extra)%list) /\
  (resultOf (subscribeKustomizations env s) = Returns None ->
   exists extra,
     resources (after (subscribeKustomizations env s)) = (resources s ++ extra)%list) /\
  (forall err, resultOf (subscribeKustomizations env s) = Returns (Some err) ->
     resources (after (subscribeKustomizations env s)) = []).
Proof.
  destruct (subscribeResources_grows rscFiles s) as [[extra Hfiles] _].
  assert (Hcharts : respects grows isReadEvent (subscribeHelmCharts env idx)).
  { unfold subscribeHelmCharts. destruct idx; [apply subscribeHelmEntries_grows | grow_step]. }
  destruct (Hcharts s) as [[extra' Hgrow] _].
  split; [exists extra; now rewrite Hfiles|].
  split; [exists extra'; now rewrite Hgrow|].
  unfold subscribeKustomizations. rewrite bind_gets. split.
  - intros Hnil. exact (subscribeKustomizeDirs_appends _ s None Hnil).
  - intros err Herr. exact (subscribeKustomizeDirs_appends _ s (Some err) Herr).
Qed.

Lemma scopeNamespace_name (ghsi : SubscriberItem) (rsc : Unstructured) :
  rscName (object (scopeNamespace ghsi rsc)) = rscName (object rsc).
Proof.
  unfold scopeNamespace.
  repeat match goal with
         | |- context [if ?b then _ else _] => destruct b
         end; reflexivity.
Qed.

(** X21: the package name of a subscription is enforced only together with
    a package filter.  Without a filter and without overrides every
    manifest that parses is subscribed, under the kind it was parsed with,
    whatever [spec.package] says; with a filter, a manifest whose name is
    not the non-empty [spec.package] is dropped without an error. *)
Theorem package_name_needs_filter (ghsi : SubscriberItem) (file : Manifest)
    (rsc : Unstructured) (t : kubeResource) :
  generic file = inr rsc -> typed file = inr t ->
  let sub := Subscription_of ghsi in
  let labelled := match GetLabels t with Some l => SetLabels l rsc | None => rsc end in
  let parsed := match GetAnnotations t with
                | Some a => SetAnnotations a labelled
                | None => labelled
                end in
  (specPackageFilter sub = None -> specPackageOverrides sub = None ->
   exists resourceToSync,
     subscribeResource env ghsi file
     = (Some resourceToSync, Some (GroupVersionKindOf parsed), None)) /\
  (specPackageFilter sub <> None ->
   specPackage sub <> "" -> specPackage sub <> rscName (object rsc) ->
   subscribeResource env ghsi file = (None, None, None)).
Proof.
  intros Hgeneric Htyped sub labelled parsed.
  unfold subscribeResource. rewrite Hgeneric, Htyped. fold sub labelled parsed. split.
  - intros -> ->. eauto.
  - intros Hfilter Hpackage Hname.
    destruct (specPackageFilter sub) as [pf|] eqn:Hpf; [|contradiction].
    set (scoped := if IsResourceNamespaced env parsed then scopeNamespace ghsi parsed
                   else parsed).
    assert (Hscoped : rscName (object scoped) = rscName (object rsc)).
    { subst scoped parsed labelled.
      destruct (IsResourceNamespaced env _); rewrite ?scopeNamespace_name;
        destruct (GetAnnotations t), (GetLabels t); reflexivity. }
    assert (Hcheck : String.eqb (checkFilters env sub scoped) "" = false).
    { unfold checkFilters. rewrite Hscoped.
      apply String.eqb_neq in Hpackage, Hname. rewrite Hpackage, Hname. reflexivity. }
    now rewrite Hcheck.
Qed.

(** X22: a tick whose fetch returns an error returns that error and lowers
    the flag; it neither classifies the repository nor hands anything to the
    synchronizer, and it leaves the item as it was but for the flag and what
    the fetch refreshes: the commit and the buckets are those of before. *)
Theorem failed_fetch_ends_tick (s : SubscriberItem) (commit : string) (err : error)
    (chn : Channel) :
  webhookEnabled s && successful s = false ->
  let fetch := updateAndClone env s in
  resultOf fetch = Returns (commit, Some err) ->
  Channel_ (base (after fetch)) = Some chn ->
  doSubscription env s
  = (Returns (Some err), set_successful false (after fetch),
     EvUpdateLastUpdateTime :: traceOf fetch) /\
  classified (traceOf (doSubscription env s)) = false /\
  applied (traceOf (doSubscription env s)) = [] /\
  fetchFrame s (after fetch).
Proof.
  intros Hweb fetch Hfetch Hchn.
  destruct (updateAndClone_fetch env s) as [Hframe Hevents].
  apply fetch_events_quiet in Hevents as [Hcl Hap].
  assert (Hrun : doSubscription env s
                 = (Returns (Some err), set_successful false (after fetch),
                    EvUpdateLastUpdateTime :: traceOf fetch)).
  { unfold doSubscription. rewrite bind_emit, bind_gets. unfold id. rewrite Hweb.
    rewrite bind_run. fold fetch. rewrite Hfetch. cbn [resultOf after traceOf fst snd].
    rewrite bind_gets. unfold id. rewrite Hchn.
    unfold bind, modify, ret. simpl. now rewrite app_nil_r. }
  rewrite Hrun. repeat split; assumption.
Qed.

End Collecting.

(** * Starting and stopping *)

Section StartStop.
Import Git Lifecycle.
Context {consts : ApiConstants} (envs : nat -> Env) (GetReconcileInterval : string -> string -> Z).

#[local] Abbreviation Start := (Start envs GetReconcileInterval).
#[local] Abbreviation launch := (launch envs GetReconcileInterval).
#[local] Abbreviation reachable := (reachable envs GetReconcileInterval).

(** X23: [Stop] can be called once on a started item, and not otherwise:
    on an item that was never started it closes a nil channel and panics,
    and on an item it has stopped it panics again.  A stopped item cannot
    be started again: [Start(false)] finds the channel and returns without
    doing anything, and [Start(true)] calls [Stop] and panics. *)
Theorem stopped_item_stays_stopped (r r1 : Runner) :
  (stopch r = None -> Stop r = (Panics close_of_nil_channel, r)) /\
  (Stop r = (Returns tt, r1) ->
   Stop r1 = (Panics close_of_closed_channel, r1) /\
   Start false r1 = (Returns tt, r1, []) /\
   Start true r1 = (Panics close_of_closed_channel, r1, [])).
Proof.
  unfold Stop, Lifecycle.Start, Stop, close. split.
  - now intros ->.
  - destruct (stopch r) as [c|] eqn:Hch; [|discriminate].
    destruct (decide (c ∈ closed r)) as [|Hopen]; [discriminate|].
    intros [= <-]. simpl.
    destruct (decide (c ∈ {[c]} ∪ closed r)) as [_|Hout]; [now repeat split|].
    exfalso. apply Hout. set_solver.
Qed.

Lemma launch_consistent (r r1 : Runner) (res : outcome unit) (t : list Event) :
  consistent r -> (forall c, c ∈ loops r -> c ∈ closed r) ->
  launch r = (res, r1, t) ->
  consistent r1.
Proof.
  intros (Hch & Hloops & Hlive & Hnodup) Hclosed. unfold Lifecycle.launch.
  destruct (EqualFold _ "off").
  - destruct (doSubscriptionWithRetries envs _ _) as [[res' ghsi'] t'].
    intros [= <- <- <-]. repeat split; simpl.
    + intros c [= <-]. lia.
    + intros c Hin. specialize (Hloops c Hin). lia.
    + intros c Hin Hopen. now apply Hclosed in Hin.
    + exact Hnodup.
  - intros [= <- <- <-]. repeat split; simpl.
    + intros c [= <-]. lia.
    + intros c [Hin|Hin]%elem_of_app.
      * specialize (Hloops c Hin). lia.
      * apply list_elem_of_singleton in Hin. lia.
    + intros c [Hin|Hin]%elem_of_app Hopen.
      * now apply Hclosed in Hin.
      * apply list_elem_of_singleton in Hin. now subst.
    + apply NoDup_app. repeat split; [exact Hnodup| |apply NoDup_singleton].
      intros c Hin Hnew. apply list_elem_of_singleton in Hnew. subst c.
      specialize (Hloops _ Hin). lia.
Qed.

Lemma Stop_consistent (r r1 : Runner) :
  consistent r -> Stop r = (Returns tt, r1) ->
  consistent r1 /\ (forall c, c ∈ loops r1 -> c ∈ closed r1).
Proof.
  intros (Hch & Hloops & Hlive & Hnodup). unfold Stop, close.
  destruct (stopch r) as [c|] eqn:Hstop; [|discriminate].
  destruct (decide (c ∈ closed r)) as [|Hopen]; [discriminate|].
  intros [= <-]. split.
  - repeat split; simpl; try assumption.
    intros c' Hin Hopen'. apply Hlive; [assumption|]. set_solver.
  - simpl. intros c' Hin. destruct (decide (c' ∈ closed r)) as [|Hopen']; [set_solver|].
    specialize (Hlive c' Hin Hopen'). injection Hlive as <-. set_solver.
Qed.

Lemma reachable_consistent (ghsi : SubscriberItem) (r : Runner) :
  reachable ghsi r -> consistent r.
Proof.
  induction 1 as [|restart r r1 t _ IH Hstart|r r1 _ IH Hstop].
  - repeat split; simpl; try discriminate; try (intros c Hin; inversion Hin).
    apply NoDup_nil_2.
  - unfold Lifecycle.Start in Hstart.
    destruct (stopch r) as [c|] eqn:Hch.
    + destruct restart; [|now injection Hstart as <- _].
      destruct (Stop r) as [[[]|why] r0] eqn:Hstop; [|discriminate].
      destruct (Stop_consistent r r0 IH Hstop) as [Hr0 Hquiet].
      exact (launch_consistent r0 r1 _ t Hr0 Hquiet Hstart).
    + apply (launch_consistent r r1 (Returns tt) t IH); [|exact Hstart].
      destruct IH as (_ & _ & Hlive & _). intros c' Hin.
      destruct (decide (c' ∈ closed r)) as [|Hopen]; [assumption|].
      specialize (Hlive c' Hin Hopen). congruence.
  - now destruct (Stop_consistent r r1 IH Hstop).
Qed.

(** X24: whatever calls of [Start] and [Stop] an item has gone through, at
    most one of the goroutines started for it has not been told to stop, and
    that one waits on the channel the item holds: [Start] closes the channel
    of the running loop before it starts another. *)
Theorem at_most_one_loop (ghsi : SubscriberItem) (r : Runner) :
  reachable ghsi r ->
  (length (live r) <= 1)%nat /\
  (forall c, c ∈ live r -> stopch r = Some c).
Proof.
  intros Hreach. destruct (reachable_consistent ghsi r Hreach) as (_ & _ & Hlive & Hnodup).
  assert (Hwait : forall c, c ∈ live r -> stopch r = Some c).
  { intros c [Hopen Hin]%list_elem_of_filter. now apply Hlive. }
  split; [|exact Hwait].
  assert (Hnd : NoDup (live r)) by now apply NoDup_filter.
  destruct (live r) as [|x [|y rest]]; simpl; [lia | lia |].
  exfalso.
  assert (Hx : stopch r = Some x) by (apply Hwait; set_solver).
  assert (Hy : stopch r = Some y) by (apply Hwait; set_solver).
  apply NoDup_cons in Hnd as [Hnotin _]. apply Hnotin. set_solver.
Qed.

End StartStop.

(** * When a tick is skipped *)

Section Skipping.
Import Git.
Context {consts : ApiConstants}.

Lemma driftGate_passes (commit : string) (s : SubscriberItem) :
  EqualFold (reconcileRate s) "medium" = false \/ commitID s = "" \/
  successful s = false \/ commit <> commitID s ->
  resultOf (driftGate commit s) = Returns false.
Proof.
  intros Hwhy. unfold driftGate, bind, gets, modify, ret, resultOf. simpl.
  destruct (EqualFold (reconcileRate s) "medium"); simpl; [|reflexivity].
  destruct (String.eqb_spec (commitID s) "") as [|Hknown]; simpl; [reflexivity|].
  destruct (incr (count s) <? 6); simpl; [|reflexivity].
  destruct (String.eqb_spec commit (commitID s)) as [Hsame|]; simpl; [|reflexivity].
  destruct (successful s); simpl; [|reflexivity].
  destruct Hwhy as [|[|[|]]]; congruence.
Qed.

(** X25: only a subscription with the [medium] rate, a known commit that the
    fetch finds unchanged and a successful last apply skips a tick: in every
    other case a tick that is not held by the webhook and whose fetch
    succeeds classifies the repository again, whatever the tick counter
    says. *)
Theorem only_medium_skips (env : Env) (s : SubscriberItem) (commit : string) :
  webhookEnabled s && successful s = false ->
  resultOf (updateAndClone env s) = Returns (commit, None) ->
  EqualFold (reconcileRate s) "medium" = false \/ commitID s = "" \/
  successful s = false \/ commit <> commitID s ->
  classified (traceOf (doSubscription env s)) = true.
Proof.
  intros Hweb Hfetch Hwhy.
  destruct (updateAndClone_fetch env s) as [Hframe _].
  apply fetchFrame_fields in Hframe as (Hc & Hok & _ & Hrate & _).
  destruct (updateAndClone env s) as [[res sF] tF] eqn:Hrun.
  unfold resultOf, after in Hfetch, Hc, Hok, Hrate. simpl in Hfetch, Hc, Hok, Hrate. subst res.
  assert (Hgate : resultOf (driftGate commit sF) = Returns false).
  { apply driftGate_passes. rewrite Hc, Hok, Hrate. exact Hwhy. }
  destruct (driftGate commit sF) as [[gate sG] tG] eqn:Hg.
  unfold resultOf in Hgate. simpl in Hgate. subst gate.
  rewrite (doSubscription_reconciles env s sF sG commit tF tG Hweb Hrun Hg).
  unfold traceOf at 1. cbn [snd].
  change (classified (EvUpdateLastUpdateTime :: ?t)) with (classified t).
  rewrite !classified_app, reconcile_classified. now rewrite !orb_true_r.
Qed.

(** X26: a subscription with the webhook enabled and a successful last
    apply is left alone by [doSubscriptionWithRetries]: one attempt, which
    neither fetches nor changes the item, and the subscription is marked as
    subscribed. *)
Theorem webhook_holds_tick (envs : nat -> Env) (retries : Z) (s : SubscriberItem) :
  webhookEnabled s = true -> successful s = true -> 0 <= retries ->
  doSubscriptionWithRetries envs retries s
  = (Returns tt, s,
     [EvUpdateLastUpdateTime; EvUpdateSubscriptionStatus SubscriptionSubscribed ""]).
Proof.
  intros Hweb Hok Hretries. unfold doSubscriptionWithRetries.
  destruct (Z.ltb_spec retries 0) as [|_]; [lia|].
  assert (Htick : doSubscription (envs 0%nat) s = (Returns None, s, [EvUpdateLastUpdateTime])).
  { unfold doSubscription. rewrite bind_emit, bind_gets. unfold id. now rewrite Hweb, Hok. }
  destruct (Z.to_nat retries) as [|more]; simpl;
    rewrite (bind_known _ _ _ _ _ _ Htick); cbn [resultOf after traceOf fst snd];
    rewrite bind_emit, bind_gets; unfold id; rewrite ?Hok; reflexivity.
Qed.

End Skipping.

(** * Runs of the scenarios *)

Section ScenarioRuns.
Import Scenarios.
#[local] Existing Instance upstreamConstants.
#[local] Existing Instance HubRuns.ledger.

Lemma ClusterUpdateFunc_ignores_heartbeat_witness :
  Predicates.ClusterUpdateFunc firstReport secondReport = false.
Proof.
  apply ClusterUpdateFunc_ignores_heartbeat.
  - reflexivity.
  - reflexivity.
  - apply (bool_decide_unpack _). vm_compute. exact I.
  - vm_compute. apply perm_swap.
Defined.

Lemma AddonInstallNamespaceFunc_not_empty_witness :
  let install := Addon.AddonInstallNamespaceFunc (fun _ => inr hostedCluster)
                   (fun _ => ("", None)) appAddon in
  install = ("klusterlet-cluster1", None) /\ install.1 <> "".
Proof.
  intros install. split; [reflexivity|].
  apply (AddonInstallNamespaceFunc_not_empty (fun _ => inr hostedCluster)
           (fun _ => ("", None)) appAddon).
  reflexivity.
Defined.

Lemma GetMchImage_newest_witness :
  Addon.GetMchImage minorOf Nat.ltb (inr imageManifests) = ("quay.io/sub:2.6", None) /\
  exists image,
    Addon.GetMchImage minorOf Nat.ltb (inr imageManifests) = (image, None) /\
    ((image = "" /\ forall cm, cm ∈ imageManifests -> Addon.offer minorOf cm = None) \/
     (exists cm v, cm ∈ imageManifests /\ Addon.offer minorOf cm = Some (v, image) /\
        forall cm' v' image', cm' ∈ imageManifests ->
          Addon.offer minorOf cm' = Some (v', image') -> Nat.ltb v v' = false)).
Proof.
  split; [reflexivity|].
  apply (GetMchImage_newest minorOf Nat.ltb).
  - intros v. apply Nat.ltb_irrefl.
  - intros a b c Hab Hbc. apply Nat.ltb_lt. apply Nat.ltb_lt in Hab, Hbc. lia.
Defined.

Lemma hookCluster_answers (subIns : Hub.Subscription) :
  Hub.getSubscription hookCluster HubRuns.appKey = inr subIns ->
  Hub.subKeyOf subIns = HubRuns.appKey.
Proof. intros [= <-]. reflexivity. Qed.

Lemma RegisterSubscription_returns_witness :
  exists err, (Hub.RegisterSubscription hookCluster HubRuns.noHooks HubRuns.appKey).2
              = Returns err.
Proof.
  apply RegisterSubscription_returns. exact hookCluster_answers.
Defined.

Lemma RegisterSubscription_frame_witness :
  let a' := (Hub.RegisterSubscription hookCluster otherRegistered HubRuns.appKey).1 in
  is_Some (Hub.registry a' !! HubRuns.appKey) /\
  (otherKey <> HubRuns.appKey ->
   Hub.registry a' !! otherKey = Hub.registry otherRegistered !! otherKey) /\
  (is_Some (Hub.registry otherRegistered !! otherKey) -> is_Some (Hub.registry a' !! otherKey)).
Proof.
  intros a'. split; [vm_compute; eauto|].
  apply (RegisterSubscription_frame hookCluster otherRegistered HubRuns.appKey otherKey).
  exact hookCluster_answers.
Defined.

Lemma RegisterSubscription_twice_witness :
  let a' := (Hub.RegisterSubscription hookCluster HubRuns.noHooks HubRuns.appKey).1 in
  Hub.HasHooks a' Hub.PostHookType HubRuns.appKey = false /\
  is_Some (Hub.registry a' !! HubRuns.appKey) /\
  exists err, Hub.RegisterSubscription hookCluster a' HubRuns.appKey = (a', Returns err).
Proof.
  intros a'. split; [vm_compute; reflexivity|]. split; [vm_compute; eauto|].
  apply (RegisterSubscription_twice hookCluster HubRuns.noHooks HubRuns.appKey).
  - exact hookCluster_answers.
  - reflexivity.
Defined.

Lemma overrideAnsibleInstance_success_witness :
  let env := jobsEnv twoDecisions in
  exists job',
    HookJobs.overrideAnsibleInstance env (placedBy "PlacementRule") hookJob
    = Returns (job', None) /\
    HookJobs.jobNamespace job' = "ns1" /\
    HookJobs.jobResourceVersion job' = "" /\
    HookJobs.Status job' = "" /\
    HookJobs.jobOwnerReferences job' = ["app"] /\
    exists a, HookJobs.jobAnnotations job' = Some a /\
      a !! HookJobs.AnnotationHosting env = Some "ns1/app" /\
      forall k, k <> HookJobs.AnnotationHosting env ->
                a !! k = ({[ "owner" := "ops" ]} : gmap string string) !! k.
Proof.
  intros env. eexists. split; [vm_compute; reflexivity|].
  apply (overrideAnsibleInstance_success env (placedBy "PlacementRule") hookJob).
  vm_compute. reflexivity.
Defined.

Lemma overrideAnsibleInstance_local_witness :
  HookJobs.overrideAnsibleInstance (jobsEnv twoDecisions) (placedBy "PlacementRule") nullVarsJob
  = Panics HookJobs.assignment_to_nil_map.
Proof.
  apply (proj1 (overrideAnsibleInstance_local (jobsEnv twoDecisions)
                  (placedBy "PlacementRule") nullVarsJob)).
  split; [reflexivity|]. split.
  - eexists. split; [reflexivity | discriminate].
  - eexists _, _. split; [reflexivity|]. split; [discriminate|]. split; reflexivity.
Defined.

Lemma overrideAnsibleInstance_unsupported_reference_witness :
  let env := jobsEnv twoDecisions in
  HookJobs.getClustersByPlacement env (placedBy "Placement") = Returns ([], None) /\
  exists job',
    HookJobs.overrideAnsibleInstance env (placedBy "Placement") hookJob
    = Returns (job', None) /\
    HookJobs.ExtraVars job' = HookJobs.ExtraVars hookJob.
Proof.
  intros env.
  apply (overrideAnsibleInstance_unsupported_reference env (placedBy "Placement") hookJob
           {| HookJobs.refKind := "Placement"; HookJobs.refAPIVersion := "";
              HookJobs.refName := "towhichcluster" |} None).
  - reflexivity.
  - left. split; discriminate.
Defined.

Lemma overrideAnsibleInstance_target_clusters_witness :
  let env := jobsEnv twoDecisions in
  exists job',
    HookJobs.overrideAnsibleInstance env (placedBy "PlacementRule") hookJob
    = Returns (job', None) /\
    HookJobs.ExtraVars job'
    = Some (String.list_byte_of_string "target_clusters=cluster2,cluster1;").
Proof.
  intros env.
  apply (overrideAnsibleInstance_target_clusters env (placedBy "PlacementRule") hookJob
           {| HookJobs.refKind := "PlacementRule"; HookJobs.refAPIVersion := "";
              HookJobs.refName := "towhichcluster" |} None twoDecisions ∅).
  - reflexivity.
  - discriminate.
  - intros [[_ Hkind]|[Hversion _]]; [now apply Hkind | now apply Hversion].
  - reflexivity.
  - discriminate.
  - reflexivity.
  - vm_compute. reflexivity.
Defined.

Lemma doSubscription_result_is_flag_witness :
  let failed := Git.doSubscription offlineEnv (GitRuns.started "") in
  Git.resultOf failed = Returns (Some (GitRuns.failure "connection refused")) /\
  Git.successful (Git.after failed)
  = bool_decide (Some (GitRuns.failure "connection refused") = None).
Proof.
  intros failed.
  split; [vm_compute; reflexivity|].
  apply (doSubscription_result_is_flag offlineEnv (GitRuns.started "")
           (Some (GitRuns.failure "connection refused"))).
  vm_compute. reflexivity.
Defined.

Lemma doSubscriptionWithRetries_attempts_witness :
  let run := Git.doSubscriptionWithRetries flakyEnvs 3 (GitRuns.started "") in
  Git.resultOf run = Returns tt /\
  GitTraces.statuses (Git.traceOf run)
  = [(Git.SubscriptionFailed, "connection refused");
     (Git.SubscriptionFailed, "connection refused");
     (Git.SubscriptionSubscribed, "")] /\
  exists (msgs : list string) (last : Git.Phase * string),
    GitTraces.statuses (Git.traceOf run)
    = (((fun msg => (Git.SubscriptionFailed, msg)) <$> msgs) ++ [last])%list /\
    GitTraces.sleeps (Git.traceOf run) = length msgs /\
    Z.of_nat (length msgs) <= 3 /\
    ((last = (Git.SubscriptionSubscribed, "") /\ Git.successful (Git.after run) = true) \/
     (Z.of_nat (length msgs) = 3 /\ Git.successful (Git.after run) = false /\
      exists msg, last = (Git.SubscriptionFailed, msg))).
Proof.
  intros run.
  assert (Hrun : Git.resultOf run = Returns tt) by (vm_compute; reflexivity).
  split; [exact Hrun|]. split; [vm_compute; reflexivity|].
  destruct (doSubscriptionWithRetries_attempts flakyEnvs 3 (GitRuns.started "") Hrun)
    as [_ Hattempts].
  apply Hattempts. lia.
Defined.

Lemma package_name_needs_filter_witness :
  let env := GitRuns.envOf (GitRuns.plainRepo None) in
  let file := GitRuns.manifestOf GitRuns.deployment in
  Git.subscribeResource env filteredItem file = (None, None, None) /\
  exists resourceToSync,
    Git.subscribeResource env (GitRuns.started "") file
    = (Some resourceToSync, Some (Git.FromAPIVersionAndKind "apps/v1" "Deployment"), None).
Proof.
  intros env file. split.
  - destruct (package_name_needs_filter env filteredItem file
             {| Git.object := GitRuns.deployment; Git.body := "" |} GitRuns.deployment
             eq_refl eq_refl) as [_ Hdrop].
    apply Hdrop; discriminate.
  - destruct (package_name_needs_filter env (GitRuns.started "") file
             {| Git.object := GitRuns.deployment; Git.body := "" |} GitRuns.deployment
             eq_refl eq_refl) as [Hkeep _].
    apply Hkeep; reflexivity.
Defined.

Lemma failed_fetch_ends_tick_witness :
  let s := GitRuns.started "" in
  let fetch := Git.updateAndClone offlineEnv s in
  Git.doSubscription offlineEnv s
  = (Returns (Some (GitRuns.failure "connection refused")),
     Git.set_successful false (Git.after fetch),
     Git.EvUpdateLastUpdateTime :: Git.traceOf fetch) /\
  Git.classified (Git.traceOf (Git.doSubscription offlineEnv s)) = false /\
  Git.applied (Git.traceOf (Git.doSubscription offlineEnv s)) = [] /\
  Git.fetchFrame s (Git.after fetch).
Proof.
  intros s fetch.
  apply (failed_fetch_ends_tick offlineEnv s ""
           (GitRuns.failure "connection refused")
           {| Git.Pathname := "https://git.example/app.git"; Git.InsecureSkipVerify := false |}).
  - reflexivity.
  - vm_compute. reflexivity.
  - vm_compute. reflexivity.
Defined.

Lemma at_most_one_loop_witness :
  let envs := fun _ : nat => GitRuns.envOf (GitRuns.plainRepo None) in
  let start := Lifecycle.Start envs retriesOf in
  let r1 := (start false (Lifecycle.fresh (GitRuns.started "medium"))).1.2 in
  let r2 := (start true r1).1.2 in
  Lifecycle.loops r2 = [0; 1]%nat /\
  (length (Lifecycle.live r2) <= 1)%nat /\
  (forall c, c ∈ Lifecycle.live r2 -> Lifecycle.stopch r2 = Some c).
Proof.
  intros envs start r1 r2. split; [vm_compute; reflexivity|].
  apply (at_most_one_loop envs retriesOf (GitRuns.started "medium") r2).
  apply (Lifecycle.reach_Start envs retriesOf _ true r1 r2 []).
  - apply (Lifecycle.reach_Start envs retriesOf _ false
             (Lifecycle.fresh (GitRuns.started "medium")) r1 []).
    + apply Lifecycle.reach_fresh.
    + vm_compute. reflexivity.
  - vm_compute. reflexivity.
Defined.

Lemma only_medium_skips_witness :
  let env := GitRuns.envOf (GitRuns.plainRepo None) in
  let s := Git.after (Git.ticks env 2 (GitRuns.started "high")) in
  (Git.commitID s = "abc" /\ Git.successful s = true /\ Git.count s = 0) /\
  Git.classified (Git.traceOf (Git.doSubscription env s)) = true.
Proof.
  intros env s. split; [vm_compute; repeat split|].
  apply (only_medium_skips env s "abc").
  - vm_compute. reflexivity.
  - vm_compute. reflexivity.
  - left. vm_compute. reflexivity.
Defined.

Lemma webhook_holds_tick_witness :
  let env := GitRuns.envOf (GitRuns.plainRepo None) in
  let s := Git.after (Git.doSubscription env webhookItem) in
  Git.doSubscriptionWithRetries (fun _ => offlineEnv) 2 s
  = (Returns tt, s,
     [Git.EvUpdateLastUpdateTime;
      Git.EvUpdateSubscriptionStatus Git.SubscriptionSubscribed ""]).
Proof.
  intros env s.
  apply (webhook_holds_tick (fun _ => offlineEnv) 2 s).
  - vm_compute. reflexivity.
  - vm_compute. reflexivity.
  - lia.
Defined.

End ScenarioRuns.
